(** * tailssh: policy matcher, action resolver, key cache, session registry
    and session runtime of the embedded SSH server (ssh/tailssh/tailssh.go).

    The Go code is embedded shallowly: pure functions are Rocq functions,
    the server's mutex-guarded maps are [gmap]s passed explicitly, Go's
    [(value, error)] results are [result]s, nil-able pointers are [option]s
    and what a session does to the outside world is a list of [event]s. *)

From Stdlib Require Import ZArith Lia Ascii String List Bool.
From stdpp Require Import gmap strings pretty list fin_maps.

Local Open Scope string_scope.
Local Open Scope Z_scope.

(** ** Go strings

    A Go string is a sequence of bytes; [string] (a list of [ascii]) is
    used for both [string] and [[]byte]. *)

Module strings.

Definition CR : ascii := "013"%char.
Definition LF : ascii := "010"%char.
Definition SP : ascii := " "%char.

Definition CRLF : string := String CR (String LF EmptyString).

(** [strings.HasPrefix(s, prefix)]. *)
Definition HasPrefix (s pre : string) : bool := String.prefix pre s.

(** [strings.Cut(s, sep)] for a one-byte separator: the text before and
    after the first [sep], and whether [sep] was found; when it is not
    found the result is [s], the empty string and [false]. *)
Fixpoint Cut (s : string) (sep : ascii) : string * string * bool :=
  match s with
  | EmptyString => (EmptyString, EmptyString, false)
  | String c s' =>
      if Ascii.eqb c sep then (EmptyString, s', true)
      else let '(before, after, found) := Cut s' sep in
           (String c before, after, found)
  end.

(** [strings.Replace(s, "\n", "\r\n", -1)]. *)
Fixpoint ReplaceLF (s : string) : string :=
  match s with
  | EmptyString => EmptyString
  | String c s' =>
      if Ascii.eqb c LF then String CR (String LF (ReplaceLF s'))
      else String c (ReplaceLF s')
  end.

(** [strings.Split(s, sep)] for a one-byte separator. *)
Fixpoint Split (s : string) (sep : ascii) : list string :=
  match s with
  | EmptyString => [EmptyString]
  | String c s' =>
      if Ascii.eqb c sep then EmptyString :: Split s' sep
      else match Split s' sep with
           | [] => [String c EmptyString]
           | piece :: pieces => String c piece :: pieces
           end
  end.

(** [len(s)], as a Go [int]. *)
Definition len (s : string) : Z := Z.of_nat (String.length s).

End strings.

(** ** Errors and results *)

(** The package's sentinel errors, and [errors.New]/[fmt.Errorf] values
    identified by their text. *)
Inductive error : Type :=
  | errNilRule
  | errNilAction
  | errRuleExpired
  | errPrincipalMatch
  | errUserMatch
  | errSessionDone
  | context_Canceled
  | context_DeadlineExceeded
  | errorString (msg : string)
  (** [fmt.Errorf(format, ..., err)] with a [%w] verb: wraps [err] *)
  | errorWrap (format : string) (err : error)
  (** [userVisibleError{msg, err}]: an error with a message for the
      client. Modelled from the spec: the type is declared in a file that
      is not among the sources; tailssh.go builds it from a message and
      the error it wraps. *)
  | userVisibleError (msg : string) (err : error).

(** A Go [(value, error)] pair in which the value is meaningful only when
    the error is nil. *)
Inductive result (A : Type) : Type :=
  | Ok (a : A)
  | Err (e : error).
Arguments Ok {A} a.
Arguments Err {A} e.

Definition is_Ok {A} (r : result A) : bool :=
  match r with Ok _ => true | Err _ => false end.

(** [err != nil] for a Go [error] value. *)
Definition isErr (err : option error) : bool :=
  match err with Some _ => true | None => false end.

(** ** Time

    [time.Time] is an instant in nanoseconds and [time.Duration] a number
    of nanoseconds. *)

Module time.
Definition Time := Z.
Definition Duration := Z.
Definition Second : Duration := 1000000000.
Definition Minute : Duration := 60 * Second.
Definition Before (t u : Time) : bool := t <? u.
Definition Add (t : Time) (d : Duration) : Time := t + d.
Definition Sub (t u : Time) : Duration := t - u.
End time.

(** ** Collaborators outside the package

    [netaddr], [tsaddr] and [encoding/base64] are libraries; the matcher
    only compares addresses and decoded bytes, so they are an interface. *)

Class Externals : Type := {
  (** [netaddr.IP], compared with [==]. *)
  IP : Type;
  IP_eq_dec :: EqDecision IP;
  (** [netaddr.ParseIP], error dropped: the zero [IP] on a parse error. *)
  ParseIP : string -> IP;
  (** [tsaddr.IsTailscaleIP]. *)
  IsTailscaleIP : IP -> bool;
  (** [base64.StdEncoding.DecodeString], error dropped: the bytes it
      returns, also on malformed input. *)
  DecodeString : string -> string;
  (** [strings.TrimSpace], which knows Unicode's white space. *)
  TrimSpace : string -> string;
  (** [ss.expandDelegateURL]: the delegate URL with its [$SRC_NODE_IP],
      ..., [$LOCAL_USER] variables replaced by a [strings.Replacer]. *)
  expandDelegateURL : string -> string
}.

(** ** Data model *)

Section Model.
Context `{Externals}.

(** [netaddr.IPPort]. *)
Record IPPort : Type := { IPPort_IP : IP; IPPort_Port : Z }.

(** Modelled from the spec: the [tailcfg] declarations of [SSHAction],
    [SSHPrincipal], [SSHRule], [SSHPolicy], [Node] and [UserProfile] are
    not among the sources; the fields are the ones tailssh.go reads and
    section 3 of the specification lists. *)
Record SSHAction : Type := {
  Message : string;
  Reject : bool;
  Accept : bool;
  SesssionDuration : time.Duration;
  AllowAgentForwarding : bool;
  HoldAndDelegate : string;
  AllowLocalPortForwarding : bool
}.

Record SSHPrincipal : Type := {
  Node : string;
  NodeIP : string;
  UserLogin : string;
  Any : bool;
  PubKeys : list string
}.

(** A nil map and an empty map differ for [matchRule], so [SSHUsers] is
    an [option]; pointers that may be nil are [option]s as well. *)
Record SSHRule : Type := {
  RuleExpires : option time.Time;
  Principals : list (option SSHPrincipal);
  SSHUsers : option (gmap string string);
  Action : option SSHAction
}.

Record SSHPolicy : Type := { Rules : list (option SSHRule) }.

Record tailcfg_Node : Type := { ID : Z; StableID : string }.

Record UserProfile : Type := { LoginName : string }.

(** [ssh.PublicKey]: its key type and its wire marshaling. *)
Record PublicKey : Type := { Type_ : string; Marshal : string }.

(** [fetchPublicKeysURL] is a Go func value, nil or not. The field holds
    what a call of it answers in the state in which the conn info is
    looked at; the func with the state it reads and writes, passed from
    one call to the next, is the [fetch] of [evalSSHPolicy_st] below. *)
Record sshConnInfo : Type := {
  now : time.Time;
  fetchPublicKeysURL : option (string -> result (list string));
  sshUser : string;
  src : IPPort;
  dst : IPPort;
  node : option tailcfg_Node;
  uprof : option UserProfile;
  pubKey : option PublicKey
}.

(** ** Policy matcher *)

Definition ruleExpired (ci : sshConnInfo) (r : SSHRule) : bool :=
  match RuleExpires r with
  | None => false
  | Some t => time.Before t (now ci)
  end.

(** Indexing a Go map, nil or not: the value and whether it is there. *)
Definition mapIndex (m : option (gmap string string)) (k : string)
  : string * bool :=
  match m with
  | None => (EmptyString, false)
  | Some m =>
      match m !! k with
      | Some v => (v, true)
      | None => (EmptyString, false)
      end
  end.

Definition mapLocalUser (ruleSSHUsers : option (gmap string string))
    (reqSSHUser : string) : string :=
  let '(v, ok) := mapIndex ruleSSHUsers reqSSHUser in
  let v := if ok then v else fst (mapIndex ruleSSHUsers "*") in
  if String.eqb v "=" then reqSSHUser else v.

Definition principalMatchesTailscaleIdentity (p : SSHPrincipal)
    (ci : sshConnInfo) : bool :=
  if Any p then true
  else if negb (String.eqb (Node p) EmptyString)
          && match node ci with
             | Some n => String.eqb (Node p) (StableID n)
             | None => false
             end
  then true
  else if negb (String.eqb (NodeIP p) EmptyString)
          && bool_decide (ParseIP (NodeIP p) = IPPort_IP (src ci))
  then true
  else if negb (String.eqb (UserLogin p) EmptyString)
          && match uprof ci with
             | Some u => String.eqb (LoginName u) (UserLogin p)
             | None => false
             end
  then true
  else false.

Definition pubKeyMatchesAuthorizedKey (pubKey : PublicKey)
    (wantKey : string) : bool :=
  let '(wantKeyType, rest, ok) := strings.Cut wantKey strings.SP in
  if negb ok then false
  else if negb (String.eqb (Type_ pubKey) wantKeyType) then false
  else
    let '(wantKeyB64, _, _) := strings.Cut rest strings.SP in
    let wantKeyData := DecodeString wantKeyB64 in
    (0 <? strings.len wantKeyData)
    && String.eqb (Marshal pubKey) wantKeyData.

Definition principalMatchesPubKey (p : SSHPrincipal) (ci : sshConnInfo)
  : bool :=
  match PubKeys p with
  | [] => true
  | _ =>
      match pubKey ci with
      | None => false
      | Some key =>
          let resolved : result (list string) :=
            match PubKeys p with
            | [u] =>
                if strings.HasPrefix u "https://" then
                  match fetchPublicKeysURL ci with
                  | None => Err (errorString "no fetchPublicKeysURL")
                  | Some fetch => fetch u
                  end
                else Ok [u]
            | pubKeys => Ok pubKeys
            end in
          match resolved with
          | Err _ => false
          | Ok pubKeys => existsb (pubKeyMatchesAuthorizedKey key) pubKeys
          end
      end
  end.

Definition principalMatches (p : SSHPrincipal) (ci : sshConnInfo) : bool :=
  principalMatchesTailscaleIdentity p ci && principalMatchesPubKey p ci.

Fixpoint anyPrincipalMatches (ps : list (option SSHPrincipal))
    (ci : sshConnInfo) : bool :=
  match ps with
  | [] => false
  | None :: ps' => anyPrincipalMatches ps' ci
  | Some p :: ps' =>
      if principalMatches p ci then true else anyPrincipalMatches ps' ci
  end.

Definition matchRule (r : option SSHRule) (ci : sshConnInfo)
  : result (SSHAction * string) :=
  match r with
  | None => Err errNilRule
  | Some r =>
      match Action r with
      | None => Err errNilAction
      | Some a =>
          if ruleExpired ci r then Err errRuleExpired
          else
            let needUser :=
              negb (Reject a)
              || match SSHUsers r with Some _ => true | None => false end in
            let localUser :=
              if needUser then mapLocalUser (SSHUsers r) (sshUser ci)
              else EmptyString in
            if needUser && String.eqb localUser EmptyString
            then Err errUserMatch
            else if negb (anyPrincipalMatches (Principals r) ci)
            then Err errPrincipalMatch
            else Ok (a, localUser)
      end
  end.

(** The loop of [evalSSHPolicy] over [pol.Rules]; [None] is the
    no-match result. *)
Fixpoint evalSSHPolicy_loop (rules : list (option SSHRule))
    (ci : sshConnInfo) : option (SSHAction * string) :=
  match rules with
  | [] => None
  | r :: rules' =>
      match matchRule r ci with
      | Ok res => Some res
      | Err _ => evalSSHPolicy_loop rules' ci
      end
  end.

Definition evalSSHPolicy (pol : SSHPolicy) (ci : sshConnInfo)
  : option (SSHAction * string) :=
  evalSSHPolicy_loop (Rules pol) ci.

(** *** The key predicate in the specification's words

    A line matches the client's key when its first token is the key's type
    and the base64 decoding of its second token is the key's wire
    marshaling; tokens are separated by single spaces. *)
Definition spec_keyLineMatches (key : PublicKey) (line : string) : Prop :=
  exists keyType rest,
    strings.Cut line strings.SP = (keyType, rest, true)
    /\ keyType = Type_ key
    /\ DecodeString (fst (fst (strings.Cut rest strings.SP))) = Marshal key.

(** The lines a principal's key list resolves to: a list that is exactly
    one [https://] URL is fetched, any other list is taken literally. *)
Definition spec_resolvedKeys (p : SSHPrincipal) (ci : sshConnInfo)
    (keyLines : list string) : Prop :=
  (exists u fetch,
      PubKeys p = [u] /\ strings.HasPrefix u "https://" = true
      /\ fetchPublicKeysURL ci = Some fetch /\ fetch u = Ok keyLines)
  \/ ((forall u, PubKeys p = [u] -> strings.HasPrefix u "https://" = false)
      /\ keyLines = PubKeys p).

(** A rule does not match: [matchRule] returns an error. *)
Definition noMatch (ci : sshConnInfo) (r : option SSHRule) : Prop :=
  is_Ok (matchRule r ci) = false.

End Model.

(** ** Server front door *)

Section FrontDoor.
Context `{Externals}.

Record NetworkMap : Type := {
  nm_SSHPolicy : option SSHPolicy;
  SelfNode_ID : Z
}.

(** What policy evaluation reads of the [server]: the local backend
    ([lb.NetMap], [lb.WhoIs]), the clock, the debug knobs and the
    [fetchPublicKeysURL] method value that is stored in each
    [sshConnInfo], here as what its calls answer during one evaluation.
    The session indices are [registry] below; the method itself, with the
    key cache, the clock and the HTTP client it works on, is
    [fetchPublicKeysURL_srv] on a [keyServer]. *)
Record server : Type := {
  NetMap : option NetworkMap;
  WhoIs : IPPort -> option (tailcfg_Node * UserProfile);
  timeNow : time.Time;
  srv_fetchPublicKeysURL : string -> result (list string);
  debugPolicyFile : string;
  debugIgnoreTailnetSSHPolicy : bool;
  (** [os.ReadFile] and [json.Unmarshal] of the debug policy file. *)
  readDebugPolicy : string -> result SSHPolicy
}.

Definition sshPolicy (srv : server) : option SSHPolicy :=
  match NetMap srv with
  | None => None
  | Some nm =>
      match nm_SSHPolicy nm, debugIgnoreTailnetSSHPolicy srv with
      | Some pol, false => Some pol
      | _, _ =>
          if negb (String.eqb (debugPolicyFile srv) EmptyString) then
            match readDebugPolicy srv (debugPolicyFile srv) with
            | Ok p => Some p
            | Err _ => None
            end
          else None
      end
  end.

(** [evaluatePolicy] returns [(action, connInfo, localUser, err)]; the
    conn info is non-nil also on the last error, so it is returned
    beside the [result] that holds the action and the local user. *)
Definition evaluatePolicy (srv : server) (sshUser : string)
    (localAddr remoteAddr : IPPort) (pubKey : option PublicKey)
  : option sshConnInfo * result (SSHAction * string) :=
  match sshPolicy srv with
  | None => (None, Err (errorString "tailssh: rejecting connection; no SSH policy"))
  | Some pol =>
      if negb (IsTailscaleIP (IPPort_IP remoteAddr)) then
        (None, Err (errorString "tailssh: rejecting non-Tailscale remote address"))
      else if negb (IsTailscaleIP (IPPort_IP localAddr)) then
        (None, Err (errorString "tailssh: rejecting non-Tailscale remote address"))
      else
        match WhoIs srv remoteAddr with
        | None => (None, Err (errorString "unknown Tailscale identity from src"))
        | Some (n, up) =>
            let ci := {| now := timeNow srv;
                         fetchPublicKeysURL := Some (srv_fetchPublicKeysURL srv);
                         sshUser := sshUser;
                         src := remoteAddr;
                         dst := localAddr;
                         node := Some n;
                         uprof := Some up;
                         pubKey := pubKey |} in
            match evalSSHPolicy pol ci with
            | None => (Some ci, Err (errorString "ssh: access denied"))
            | Some (a, localUser) => (Some ci, Ok (a, localUser))
            end
        end
  end.

(** [a.Accept], or [a.HoldAndDelegate] is not empty. *)
Definition acceptOrHold (a : SSHAction) : bool :=
  Accept a || negb (String.eqb (HoldAndDelegate a) EmptyString).

(** The inner loop of [requiresPubKey] over one rule's principals.
    [None] is the nil-pointer panic of [p.Any] on a nil principal. *)
Fixpoint anyPrincipalWantsPubKey (ps : list (option SSHPrincipal))
    (ci : sshConnInfo) : option bool :=
  match ps with
  | [] => Some false
  | None :: _ => None
  | Some p :: ps' =>
      if principalMatchesTailscaleIdentity p ci
         && (0 <? Z.of_nat (length (PubKeys p)))
      then Some true
      else anyPrincipalWantsPubKey ps' ci
  end.

(** The outer loop of [requiresPubKey] over [pol.Rules]. [None] is the
    nil-pointer panic of [r.RuleExpires] on a nil rule, or the one of the
    inner loop. *)
Fixpoint anyRuleWantsPubKey (rules : list (option SSHRule))
    (ci : sshConnInfo) (sshUser : string) : option bool :=
  match rules with
  | [] => Some false
  | None :: _ => None
  | Some r :: rules' =>
      if ruleExpired ci r then anyRuleWantsPubKey rules' ci sshUser
      else if String.eqb (mapLocalUser (SSHUsers r) sshUser) EmptyString
      then anyRuleWantsPubKey rules' ci sshUser
      else
        match anyPrincipalWantsPubKey (Principals r) ci with
        | None => None
        | Some true => Some true
        | Some false => anyRuleWantsPubKey rules' ci sshUser
        end
  end.

(** [requiresPubKey]; [None] when one of its loops panics. *)
Definition requiresPubKey (srv : server) (sshUser : string)
    (localAddr remoteAddr : IPPort) : option bool :=
  match sshPolicy srv with
  | None => Some false
  | Some pol =>
      let '(ci, r) := evaluatePolicy srv sshUser localAddr remoteAddr None in
      if match r with Ok (a, _) => acceptOrHold a | Err _ => false end
      then Some false
      else
        match ci with
        | None => Some false
        | Some ci => anyRuleWantsPubKey (Rules pol) ci sshUser
        end
  end.

Definition acceptPubKey (srv : server) (sshUser : string)
    (localAddr remoteAddr : IPPort) (pubKey : option PublicKey) : bool :=
  match snd (evaluatePolicy srv sshUser localAddr remoteAddr pubKey) with
  | Err _ => false
  | Ok (a, _) => acceptOrHold a
  end.

End FrontDoor.

(** ** What a session does to the outside world *)

Inductive event : Type :=
  (** [io.WriteString(ss.Stderr(), s)] *)
  | WriteStderr (s : string)
  (** [fmt.Fprintf(ss, s)]: bytes on the session's main channel *)
  | WriteSession (s : string)
  (** [ss.Exit(code)] *)
  | Exit (code : Z)
  (** [ss.cmd.Process.Kill()] *)
  | Kill
  (** [ss.logf(format, ...)], the format only *)
  | Logf (format : string).

(** The bytes the client's stderr received, in order. *)
Fixpoint stderrOf (evs : list event) : string :=
  match evs with
  | [] => EmptyString
  | WriteStderr s :: evs' => s ++ stderrOf evs'
  | _ :: evs' => stderrOf evs'
  end.

(** The exit statuses published to the client, in order. *)
Fixpoint exitCodes (evs : list event) : list Z :=
  match evs with
  | [] => []
  | Exit c :: evs' => c :: exitCodes evs'
  | _ :: evs' => exitCodes evs'
  end.

(** ** Action resolver *)

Section Resolver.
Context `{Externals}.

(** [srv.fetchSSHAction(ss.Context(), url)] asks the control plane, for
    up to 30 minutes; [fetchSSHAction n url] is what its call number [n]
    returns for [url]. *)
Variable fetchSSHAction : nat -> string -> result SSHAction.

Definition errLackedAll : error :=
  errorString "reached Action that lacked Accept, Reject, and HoldAndDelegate".

(** The loop of [resolveTerminalAction], [fuel] iterations of it, with
    [n] fetches made before: the writes to stderr, and the returned
    [(action, err)], or [None] when the loop has not returned within
    [fuel] iterations. *)
Fixpoint resolveTerminalAction (fuel : nat) (n : nat) (action : SSHAction)
  : list event * option (result SSHAction) :=
  match fuel with
  | O => ([], None)
  | S fuel' =>
      let out :=
        if negb (String.eqb (Message action) EmptyString)
        then [WriteStderr (strings.ReplaceLF (Message action))]
        else [] in
      if Accept action || Reject action then (out, Some (Ok action))
      else
        let url := HoldAndDelegate action in
        if String.eqb url EmptyString then (out, Some (Err errLackedAll))
        else
          let url := expandDelegateURL url in
          match fetchSSHAction n url with
          | Err err =>
              (out, Some (Err (errorWrap "fetching SSHAction from %s: %w" err)))
          | Ok action' =>
              let '(out', r) := resolveTerminalAction fuel' (S n) action' in
              ((out ++ out')%list, r)
          end
  end.

(** An answer of the control plane that ends the loop: an error, or an
    action that is not only a [HoldAndDelegate]. *)
Definition endsLoop (r : result SSHAction) : bool :=
  match r with
  | Err _ => true
  | Ok a => Accept a || Reject a || String.eqb (HoldAndDelegate a) EmptyString
  end.

End Resolver.

(** ** Sessions *)

Section Sessions.
Context `{Externals}.

(** [os/user.User]. *)
Record user_User : Type := { Uid : string; Gid : string; Username : string }.

(** Modelled from the spec: [sshContext] is declared in a file that is
    not among the sources. Section 5 of the specification makes it the
    session's single cancellation root, closed with a cause; the cause of
    the first close is the one [Err] reports, [None] while it is open. *)
Record sshContext : Type := { ctx_err : option error }.

Definition newSSHContext : sshContext := {| ctx_err := None |}.

(** Modelled from the spec: [sshContext.CloseWithError], of the same
    missing file; closing a closed context changes nothing. *)
Definition CloseWithError (ctx : sshContext) (err : error) : sshContext :=
  match ctx_err ctx with
  | Some _ => ctx
  | None => {| ctx_err := Some err |}
  end.

(** Modelled from the spec: the [SSHTerminationError] interface and
    [userVisibleError]'s method are declared in the same missing file;
    a [userVisibleError] carries the message for the client (section 4.6:
    "emit any termination message the cancel cause carries"), other
    errors carry none. *)
Definition SSHTerminationMessage (err : error) : option string :=
  match err with
  | userVisibleError msg _ => Some msg
  | _ => None
  end.

(** The fields of [sshSession] that the modelled methods read or write;
    [exitOnce] is whether the [sync.Once] has run. *)
Record sshSession : Type := {
  idH : string;
  sharedID : string;
  ctx : sshContext;
  connInfo : sshConnInfo;
  action : option SSHAction;
  localUser : user_User;
  exitOnce : bool
}.

Definition set_ctx (ss : sshSession) (c : sshContext) : sshSession :=
  {| idH := idH ss; sharedID := sharedID ss; ctx := c;
     connInfo := connInfo ss; action := action ss;
     localUser := localUser ss; exitOnce := exitOnce ss |}.

Definition set_exitOnce (ss : sshSession) (b : bool) : sshSession :=
  {| idH := idH ss; sharedID := sharedID ss; ctx := ctx ss;
     connInfo := connInfo ss; action := action ss;
     localUser := localUser ss; exitOnce := b |}.

(** Whether the re-evaluation in [checkStillValid] keeps the session. The
    call is [evaluatePolicy(ci.sshUser, ci.src, ci.dst, ci.pubKey)]: the
    second argument is [evaluatePolicy]'s [localAddr] and the third its
    [remoteAddr], so the address the connection came from is passed as the
    local one and the address it came for as the remote one. *)
Definition stillValid (srv : server) (ss : sshSession) : bool :=
  let ci := connInfo ss in
  match snd (evaluatePolicy srv (sshUser ci) (src ci) (dst ci) (pubKey ci)) with
  | Ok (a, lu) => acceptOrHold a && String.eqb lu (Username (localUser ss))
  | Err _ => false
  end.

(** The revalidation in the specification's words (section 4.5: "re-run
    policy evaluation against stored ConnInfo; if the resulting action is
    not Accept/Hold, or the resolved local user changes, cancel the
    session"): the policy is evaluated for the connection that the conn
    info records, come from [src] for [dst], which is how [handleSSH]
    evaluated it when the connection was made, with [dst] as
    [evaluatePolicy]'s local and [src] as its remote address. *)
Definition spec_revalidationFails (srv : server) (ss : sshSession) : bool :=
  let ci := connInfo ss in
  match snd (evaluatePolicy srv (sshUser ci) (dst ci) (src ci) (pubKey ci)) with
  | Ok (a, lu) =>
      negb (acceptOrHold a && String.eqb lu (Username (localUser ss)))
  | Err _ => true
  end.

Definition accessRevoked : string :=
  "Access revoked." ++ String strings.LF EmptyString.

Definition checkStillValid (srv : server) (ss : sshSession)
  : list event * sshSession :=
  if stillValid srv ss then ([], ss)
  else
    ([Logf "session no longer valid per new SSH policy; closing"],
     set_ctx ss (CloseWithError (ctx ss)
                   (userVisibleError accessRevoked context_Canceled))).

(** [killProcessOnContextDone] once [<-ss.ctx.Done()] has returned; while
    the context is open the goroutine is blocked and does nothing. *)
Definition killProcessOnContextDone (ss : sshSession)
  : list event * sshSession :=
  match ctx_err (ctx ss) with
  | None => ([], ss)
  | Some err =>
      if exitOnce ss then ([], ss)
      else
        let msgOut :=
          match SSHTerminationMessage err with
          | Some msg =>
              if negb (String.eqb msg EmptyString)
              then [WriteStderr (strings.CRLF ++ strings.CRLF ++ msg
                                 ++ strings.CRLF ++ strings.CRLF)]
              else []
          | None => []
          end in
        ((msgOut ++ [Logf "terminating SSH session from %v: %v"; Kill])%list,
         set_exitOnce ss true)
  end.

End Sessions.

(** ** Session registry *)

(** A Go call that returns or panics. *)
Inductive outcome (A : Type) : Type :=
  | Done (a : A)
  | Panic (msg : string).
Arguments Done {A} a.
Arguments Panic {A} msg.

Section Registry.
Context `{Externals}.

(** The two indices of [server], guarded by [srv.mu]. A nil Go map reads
    as the empty map and [mapSet] makes it on the first insertion. The
    indices hold the session as it was registered; its two IDs, which are
    all the registry reads of it, never change. *)
Record registry : Type := {
  activeSessionByH : gmap string sshSession;
  activeSessionBySharedID : gmap string sshSession
}.

Definition emptyRegistry : registry :=
  {| activeSessionByH := ∅; activeSessionBySharedID := ∅ |}.

Definition startSession (srv : registry) (ss : sshSession)
  : outcome registry :=
  if String.eqb (idH ss) EmptyString then Panic "empty idH"
  else if String.eqb (sharedID ss) EmptyString then Panic "empty sharedID"
  else
    match activeSessionByH srv !! idH ss with
    | Some _ => Panic "dup idH"
    | None =>
        match activeSessionBySharedID srv !! sharedID ss with
        | Some _ => Panic "dup sharedID"
        | None =>
            Done {| activeSessionByH :=
                      <[idH ss := ss]> (activeSessionByH srv);
                    activeSessionBySharedID :=
                      <[sharedID ss := ss]> (activeSessionBySharedID srv) |}
        end
    end.

Definition endSession (srv : registry) (ss : sshSession) : registry :=
  {| activeSessionByH := delete (idH ss) (activeSessionByH srv);
     activeSessionBySharedID :=
       delete (sharedID ss) (activeSessionBySharedID srv) |}.

Definition getSessionForContext (srv : registry) (sessionID : string)
  : option sshSession :=
  activeSessionByH srv !! sessionID.

(** [ss] is in the hash-ID index, in the shared-ID index. *)
Definition inByH (srv : registry) (ss : sshSession) : Prop :=
  activeSessionByH srv !! idH ss = Some ss.

Definition inBySharedID (srv : registry) (ss : sshSession) : Prop :=
  activeSessionBySharedID srv !! sharedID ss = Some ss.

(** The registries the server can be in between two registry
    operations: [run] is the only caller, it registers its session
    first and defers the one [endSession] of that session. *)
Inductive reachable : registry -> Prop :=
  | reachable_empty : reachable emptyRegistry
  | reachable_start srv ss srv' :
      reachable srv ->
      startSession srv ss = Done srv' ->
      reachable srv'
  | reachable_end srv ss :
      reachable srv ->
      inByH srv ss ->
      inBySharedID srv ss ->
      reachable (endSession srv ss).

(** Each index maps an ID to a session that has this ID and is in the
    other index too. *)
Definition indicesAgree (srv : registry) : Prop :=
  (forall h ss, activeSessionByH srv !! h = Some ss ->
                idH ss = h /\ inBySharedID srv ss)
  /\ (forall i ss, activeSessionBySharedID srv !! i = Some ss ->
                   sharedID ss = i /\ inByH srv ss).

End Registry.

(** ** Session runtime *)

Section Runtime.
Context `{Externals}.

(** What [cmd.Wait] returned: nil, an [*exec.ExitError] whose
    [ProcessState.ExitCode()] is [code], or another error. *)
Inductive waitResult : Type :=
  | WaitNil
  | WaitExitError (code : Z)
  | WaitError (err : error).

(** What the operating system and the client decide during [run]. *)
Record runEnv : Type := {
  (** [os.Geteuid()] *)
  euid : Z;
  (** [ss.shouldRecord()] *)
  shouldRecord : bool;
  (** the error of [ss.startNewRecording()], if any *)
  startNewRecording : option error;
  (** the error of [ss.launchProcess(ss.ctx)], if any *)
  launchProcess : option error;
  (** what [ss.cmd.Wait()] returns *)
  cmd_Wait : waitResult
}.

(** [run] from registration to the [Exit] it publishes, with its
    deferred [ctx.CloseWithError(errSessionDone)] and [endSession]; the
    session-duration timer, agent forwarding and the copy goroutines
    publish no exit status and are left to the environment, which
    decides [cmd_Wait]. A panic of [startSession] leaves [run]. *)
Definition run (env : runEnv) (srv : registry) (ss : sshSession)
  : outcome (registry * sshSession * list event) :=
  match startSession srv ss with
  | Panic msg => Panic msg
  | Done srv1 =>
      let body : list event * sshSession :=
        if negb (euid env =? 0)
           && negb (String.eqb (Uid (localUser ss)) (pretty (euid env)))
        then
          ([Logf "can't switch to user %q from process euid %v";
            WriteSession ("can't switch user" ++ String strings.LF EmptyString);
            Exit 1], ss)
        else if shouldRecord env && isErr (startNewRecording env)
        then
          ([WriteSession ("can't start new recording" ++ String strings.LF EmptyString);
            Logf "startNewRecording: %v";
            Exit 1], ss)
        else
          match launchProcess env with
          | Some _ => ([Logf "start failed: %v"; Exit 1], ss)
          | None =>
              (* [ss.exitOnce.Do(func() {})] after [Wait] *)
              let ss' := set_exitOnce ss true in
              match cmd_Wait env with
              | WaitNil => ([Logf "Wait: ok"; Exit 0], ss')
              | WaitExitError code => ([Logf "Wait: code=%v"; Exit code], ss')
              | WaitError _ => ([Logf "Wait: %v"; Exit 1], ss')
              end
          end in
      let '(evs, ss1) := body in
      (* the deferred calls, last first *)
      Done (endSession srv1 ss,
            set_ctx ss1 (CloseWithError (ctx ss1) errSessionDone),
            evs)
  end.

(** [run] gets as far as [cmd.Wait]. *)
Definition reachesWait (env : runEnv) (ss : sshSession) : bool :=
  ((euid env =? 0) || String.eqb (Uid (localUser ss)) (pretty (euid env)))
  && (negb (shouldRecord env) || negb (isErr (startNewRecording env)))
  && negb (isErr (launchProcess env)).

End Runtime.

(** ** Recording writer *)

(** [io.Writer]: a write returns the writer after it, the number of bytes
    written and the error. *)
Class Writer (W : Type) : Type :=
  Write : W -> string -> W * (Z * option error).

(** An [*os.File] open for writing: what was written, and the error its
    writes fail with (a full disk), if any. *)
Record File : Type := { fileData : string; fileErr : option error }.

(** [f.Close()]. *)
Definition File_Close (f : File) : option error := None.

#[global] Instance File_Writer : Writer File := fun f p =>
  match fileErr f with
  | Some err => (f, (0, Some err))
  | None =>
      ({| fileData := fileData f ++ p; fileErr := None |},
       (strings.len p, None))
  end.

(** A writer that keeps what it was given, as [bytes.Buffer] does. *)
Record Buffer : Type := { bufferData : string }.

#[global] Instance Buffer_Writer : Writer Buffer := fun b p =>
  ({| bufferData := bufferData b ++ p |}, (strings.len p, None)).

Section Recording.

(** [recording]: [out] is nil once closed. The [ss] field is not read by
    the modelled methods. *)
Record recording : Type := {
  start : time.Time;
  out : option File
}.

Definition recording_Close (r : recording) : recording * option error :=
  match out r with
  | None => (r, None)
  | Some f => ({| start := start r; out := None |}, File_Close f)
  end.

(** [json.Marshal([]interface{}{seconds, dir, string(p)})] for
    [seconds = elapsed.Seconds()]; how a float is printed is left to
    the encoder. *)
Variable json_Marshal : time.Duration -> string -> string -> result string.

(** [loggingWriter]: the recording [r] is shared between the session's
    writers and is passed beside them. *)
Record loggingWriter (W : Type) : Type := {
  lw_dir : string;
  lw_w : W
}.
Arguments lw_dir {W} _.
Arguments lw_w {W} _.

Definition writeCastLine (r : recording) (j : string)
  : recording * option error :=
  match out r with
  | None => (r, Some (errorString "logger closed"))
  | Some f =>
      let '(f', (_, err)) := Write f j in
      let r' := {| start := start r; out := Some f' |} in
      match err with
      | Some err => (r', Some (errorWrap "logger Write: %w" err))
      | None => (r', None)
      end
  end.

(** [loggingWriter.Write] at the instant [since] after [r.start]. *)
Definition loggingWriter_Write {W} `{Writer W} (r : recording)
    (w : loggingWriter W) (since : time.Duration) (p : string)
  : recording * loggingWriter W * (Z * option error) :=
  match json_Marshal since (lw_dir w) p with
  | Err err => (r, w, (0, Some err))
  | Ok j =>
      let j := j ++ String strings.LF EmptyString in
      match writeCastLine r j with
      | (r', Some _) => (r', w, (0, None))
      | (r', None) =>
          let '(w', res) := Write (lw_w w) p in
          (r', {| lw_dir := lw_dir w; lw_w := w' |}, res)
      end
  end.

(** [recording.writer] for a non-nil recording. *)
Definition recording_writer {W} (dir : string) (w : W) : loggingWriter W :=
  {| lw_dir := dir; lw_w := w |}.

End Recording.

Arguments lw_dir {W} _.
Arguments lw_w {W} _.

(** ** Public-key resolver and its cache *)

Section KeyCache.
Context `{Externals}.

Record pubKeyCacheEntry : Type := {
  lines : list string;
  etag : string;
  at_ : time.Time
}.

Definition pubKeyCacheDuration : time.Duration := time.Minute.
Definition pubKeyCacheEmptyDuration : time.Duration := 15 * time.Second.

(** The request [fetchPublicKeysURL] sends: a GET of [req_url], with an
    [If-None-Match] header unless [req_IfNoneMatch] is empty. *)
Record Request : Type := { req_url : string; req_IfNoneMatch : string }.

(** The response: [res.Body] yields [Body] and then, unless it ends
    well, [BodyErr]. *)
Record Response : Type := {
  StatusCode : Z;
  Status : string;
  Header_Etag : string;
  Body : string;
  BodyErr : option error
}.

(** What the key resolver reads and writes of the [server]: the cache,
    the clock ([timeNow_at k] is what call number [k] of [srv.now()]
    returns, [nowCalls] the calls made), and the HTTP client
    ([pubKeyClient k req] is what its call number [k] returns for
    [req], [requests] the requests sent, latest first). *)
Record keyServer : Type := {
  fetchPublicKeysCache : gmap string pubKeyCacheEntry;
  timeNow_at : nat -> time.Time;
  nowCalls : nat;
  (** the error of [http.NewRequestWithContext], if any *)
  newRequestErr : string -> option error;
  pubKeyClient : nat -> Request -> result Response;
  requests : list Request
}.

Definition set_cache (srv : keyServer) (m : gmap string pubKeyCacheEntry)
  : keyServer :=
  {| fetchPublicKeysCache := m; timeNow_at := timeNow_at srv;
     nowCalls := nowCalls srv; newRequestErr := newRequestErr srv;
     pubKeyClient := pubKeyClient srv; requests := requests srv |}.

(** [srv.now()]. *)
Definition srv_now (srv : keyServer) : time.Time * keyServer :=
  (timeNow_at srv (nowCalls srv),
   {| fetchPublicKeysCache := fetchPublicKeysCache srv;
      timeNow_at := timeNow_at srv;
      nowCalls := S (nowCalls srv); newRequestErr := newRequestErr srv;
      pubKeyClient := pubKeyClient srv; requests := requests srv |}).

(** [srv.pubKeyClient().Do(req)]. *)
Definition client_Do (srv : keyServer) (req : Request)
  : result Response * keyServer :=
  (pubKeyClient srv (length (requests srv)) req,
   {| fetchPublicKeysCache := fetchPublicKeysCache srv;
      timeNow_at := timeNow_at srv;
      nowCalls := nowCalls srv; newRequestErr := newRequestErr srv;
      pubKeyClient := pubKeyClient srv; requests := req :: requests srv |}).

Definition zeroEntry : pubKeyCacheEntry :=
  {| lines := []; etag := EmptyString; at_ := 0 |}.

(** The cleanup loop: [delete(m, k)] for every entry with
    [ce.at.Before(tooOld)]. *)
Definition cleanCache (tooOld : time.Time)
    (m : gmap string pubKeyCacheEntry) : gmap string pubKeyCacheEntry :=
  filter (fun kv => time.Before (at_ (snd kv)) tooOld = false) m.

Definition fetchPublicKeysURLCached (srv : keyServer) (url : string)
  : keyServer * (pubKeyCacheEntry * bool) :=
  let srv :=
    if 50 <? Z.of_nat (size (fetchPublicKeysCache srv)) then
      let '(t, srv) := srv_now srv in
      let tooOld := time.Add t (pubKeyCacheDuration * 10) in
      set_cache srv (cleanCache tooOld (fetchPublicKeysCache srv))
    else srv in
  match fetchPublicKeysCache srv !! url with
  | None => (srv, (zeroEntry, false))
  | Some ce =>
      let maxAge :=
        if (length (lines ce) =? 0)%nat then pubKeyCacheEmptyDuration
        else pubKeyCacheDuration in
      let '(t, srv) := srv_now srv in
      (srv, (ce, time.Sub t (at_ ce) <? maxAge))
  end.

(** [io.ReadAll(io.LimitReader(res.Body, 4<<10))]: at most 4096 bytes,
    and the body's error if it comes before that. *)
Definition readBody (res : Response) : string * option error :=
  if strings.len (Body res) <? 4096
  then (Body res, BodyErr res)
  else (String.substring 0 4096 (Body res), None).

(** [fetchPublicKeysURL] returns [(lines, err)]. *)
Definition fetchPublicKeysURL_srv (srv : keyServer) (url : string)
  : keyServer * (list string * option error) :=
  if negb (strings.HasPrefix url "https://") then
    (srv, ([], Some (errorString "invalid URL scheme")))
  else
    let '(srv, (ce, ok)) := fetchPublicKeysURLCached srv url in
    if ok then (srv, (lines ce, None))
    else
      match newRequestErr srv url with
      | Some err => (srv, ([], Some err))
      | None =>
          let req := {| req_url := url; req_IfNoneMatch := etag ce |} in
          let '(res, srv) := client_Do srv req in
          match res with
          | Err err => (srv, ([], Some err))
          | Ok res =>
              let '(lines', etag', err) :=
                if StatusCode res =? 304 then (lines ce, etag ce, None)
                else if StatusCode res =? 200 then
                  let '(all, err) := readBody res in
                  let s := TrimSpace all in
                  (if negb (String.eqb s EmptyString)
                   then strings.Split s strings.LF else [],
                   Header_Etag res, err)
                else
                  ([], EmptyString,
                   Some (errorString ("unexpected status " ++ Status res))) in
              let '(t, srv) := srv_now srv in
              (set_cache srv
                 (<[url := {| at_ := t; lines := lines'; etag := etag' |}]>
                    (fetchPublicKeysCache srv)),
               (lines', err))
          end
      end.

End KeyCache.

(** ** Policy evaluation with the key fetcher's state

    The conn info's [fetchPublicKeysURL] is a Go func value, and a call of
    it may read and change state of its own: the one that [evaluatePolicy]
    stores is the method value [srv.fetchPublicKeysURL], which reads the
    clock, asks the network and writes the server's key cache. The field
    [fetchPublicKeysURL] of [sshConnInfo] above holds the answers of such
    a function where a single state is looked at; here the function is
    [fetch], on a state [St] that is passed from one call to the next, as
    the matcher's loops make them. *)

Section FetcherState.
Context `{Externals}.

(** The state the fetcher works on. *)
Context {St : Type}.
(** [ci.fetchPublicKeysURL]: [None] is nil; it returns [(lines, err)]. *)
Variable fetch : option (St -> string -> St * (list string * option error)).

Definition principalMatchesPubKey_st (p : SSHPrincipal) (ci : sshConnInfo)
    (st : St) : St * bool :=
  match PubKeys p with
  | [] => (st, true)
  | _ =>
      match pubKey ci with
      | None => (st, false)
      | Some key =>
          let '(st, resolved) :=
            match PubKeys p with
            | [u] =>
                if strings.HasPrefix u "https://" then
                  match fetch with
                  | None => (st, Err (errorString "no fetchPublicKeysURL"))
                  | Some fetch =>
                      let '(st, (pubKeys, err)) := fetch st u in
                      match err with
                      | Some err => (st, Err err)
                      | None => (st, Ok pubKeys)
                      end
                  end
                else (st, Ok [u])
            | pubKeys => (st, Ok pubKeys)
            end in
          match resolved with
          | Err _ => (st, false)
          | Ok pubKeys =>
              (st, existsb (pubKeyMatchesAuthorizedKey key) pubKeys)
          end
      end
  end.

Definition principalMatches_st (p : SSHPrincipal) (ci : sshConnInfo)
    (st : St) : St * bool :=
  if principalMatchesTailscaleIdentity p ci
  then principalMatchesPubKey_st p ci st
  else (st, false).

Fixpoint anyPrincipalMatches_st (ps : list (option SSHPrincipal))
    (ci : sshConnInfo) (st : St) : St * bool :=
  match ps with
  | [] => (st, false)
  | None :: ps' => anyPrincipalMatches_st ps' ci st
  | Some p :: ps' =>
      let '(st, matches) := principalMatches_st p ci st in
      if matches then (st, true) else anyPrincipalMatches_st ps' ci st
  end.

Definition matchRule_st (r : option SSHRule) (ci : sshConnInfo) (st : St)
  : St * result (SSHAction * string) :=
  match r with
  | None => (st, Err errNilRule)
  | Some r =>
      match Action r with
      | None => (st, Err errNilAction)
      | Some a =>
          if ruleExpired ci r then (st, Err errRuleExpired)
          else
            let needUser :=
              negb (Reject a)
              || match SSHUsers r with Some _ => true | None => false end in
            let localUser :=
              if needUser then mapLocalUser (SSHUsers r) (sshUser ci)
              else EmptyString in
            if needUser && String.eqb localUser EmptyString
            then (st, Err errUserMatch)
            else
              let '(st, matches) :=
                anyPrincipalMatches_st (Principals r) ci st in
              if negb matches then (st, Err errPrincipalMatch)
              else (st, Ok (a, localUser))
      end
  end.

(** The loop of [evalSSHPolicy] over [pol.Rules]. *)
Fixpoint evalSSHPolicy_loop_st (rules : list (option SSHRule))
    (ci : sshConnInfo) (st : St) : St * option (SSHAction * string) :=
  match rules with
  | [] => (st, None)
  | r :: rules' =>
      let '(st, res) := matchRule_st r ci st in
      match res with
      | Ok res => (st, Some res)
      | Err _ => evalSSHPolicy_loop_st rules' ci st
      end
  end.

Definition evalSSHPolicy_st (pol : SSHPolicy) (ci : sshConnInfo) (st : St)
  : St * option (SSHAction * string) :=
  evalSSHPolicy_loop_st (Rules pol) ci st.


(** The conn info with the answers that the fetcher gives in the state
    [st] as its [fetchPublicKeysURL]. *)
Definition answersIn (st : St) (ci : sshConnInfo) : sshConnInfo :=
  {| now := now ci;
     fetchPublicKeysURL :=
       match fetch with
       | None => None
       | Some fetch =>
           Some (fun url =>
                   match snd (fetch st url) with
                   | (_, Some err) => Err err
                   | (pubKeys, None) => Ok pubKeys
                   end)
       end;
     sshUser := sshUser ci; src := src ci; dst := dst ci;
     node := node ci; uprof := uprof ci; pubKey := pubKey ci |}.

End FetcherState.

(** ** Further definitions for the policy matcher and the front door *)

(** [strings.IndexByte(s, c) >= 0]. *)
Fixpoint containsByte (s : string) (c : ascii) : bool :=
  match s with
  | EmptyString => false
  | String c' s' => Ascii.eqb c' c || containsByte s' c
  end.

Section FrontDoorMore.
Context `{Externals}.

(** The server with another [fetchPublicKeysURL] behaviour. *)
Definition withKeyFetcher (srv : server)
    (fetch : string -> result (list string)) : server :=
  {| NetMap := NetMap srv; WhoIs := WhoIs srv; timeNow := timeNow srv;
     srv_fetchPublicKeysURL := fetch;
     debugPolicyFile := debugPolicyFile srv;
     debugIgnoreTailnetSSHPolicy := debugIgnoreTailnetSSHPolicy srv;
     readDebugPolicy := readDebugPolicy srv |}.

(** A rule of [requiresPubKey]'s scan that asks for a key: it has not
    expired, it maps the requested user, and one of its principals matches
    the caller's mesh identity and lists keys. *)
Definition ruleWantsPubKey (ci : sshConnInfo) (sshUser : string)
    (r : SSHRule) : Prop :=
  ruleExpired ci r = false
  /\ mapLocalUser (SSHUsers r) sshUser <> EmptyString
  /\ exists p, In (Some p) (Principals r)
               /\ principalMatchesTailscaleIdentity p ci = true
               /\ PubKeys p <> [].

(** No rule and no principal of the rules is nil. *)
Definition noNilRules (rules : list (option SSHRule)) : Prop :=
  Forall (fun r => match r with
                   | Some r => Forall (fun p => p <> None) (Principals r)
                   | None => False
                   end) rules.

End FrontDoorMore.

(** ** Fetching the next action from the control plane *)

Section ControlPlane.
Context `{Externals}.

(** The response to [srv.lb.DoNoiseRequest]: its status code and body. *)
Record noiseResponse : Type := {
  noise_StatusCode : Z;
  noise_Body : string
}.

(** [ctx_Err i] is [ctx.Err()] at the start of iteration [i] of the loop,
    for the context with the 30-minute deadline; [DoNoiseRequest i] is
    what the request of iteration [i] returns. *)
Variable ctx_Err : nat -> option error.
(** The error of [http.NewRequestWithContext] for the URL, if any. *)
Variable newRequest_err : option error.
Variable DoNoiseRequest : nat -> result noiseResponse.
(** [json.NewDecoder(res.Body).Decode(a)]. *)
Variable json_Decode : string -> result SSHAction.

(** The loop of [fetchSSHAction] from iteration [i] on, [fuel]
    iterations of it; [None] when it has not returned within them. The
    backoff between two iterations only waits. *)
Fixpoint fetchSSHAction (fuel : nat) (i : nat) : option (result SSHAction) :=
  match fuel with
  | O => None
  | S fuel' =>
      match ctx_Err i with
      | Some err => Some (Err err)
      | None =>
          match newRequest_err with
          | Some err => Some (Err err)
          | None =>
              match DoNoiseRequest i with
              | Err _ => fetchSSHAction fuel' (S i)
              | Ok res =>
                  if negb (noise_StatusCode res =? 200)
                  then fetchSSHAction fuel' (S i)
                  else
                    match json_Decode (noise_Body res) with
                    | Err _ => fetchSSHAction fuel' (S i)
                    | Ok a => Some (Ok a)
                    end
              end
          end
      end
  end.

(** The action that the request of iteration [i] yields: the decoded body
    of a response with status 200, if there is one. *)
Definition answerOf (i : nat) : option SSHAction :=
  match DoNoiseRequest i with
  | Err _ => None
  | Ok res =>
      if noise_StatusCode res =? 200 then
        match json_Decode (noise_Body res) with
        | Ok a => Some a
        | Err _ => None
        end
      else None
  end.

End ControlPlane.

(** ** Handling a connection *)

Section HandleSSH.
Context `{Externals}.

(** What [handleSSH] reads of the [ssh.Session]. *)
Record sshRequest : Type := {
  s_User : string;
  s_LocalAddr : IPPort;
  s_RemoteAddr : IPPort;
  s_PublicKey : option PublicKey;
  (** [s.Context()]: the session ID of the [ssh.Context] it is, [None]
      when it is a [context.Context] of another type *)
  s_Context : option string
}.

(** [user.Lookup]. *)
Variable user_Lookup : string -> result user_User.
(** What call number [n] of [srv.fetchSSHAction] returns for a URL. *)
Variable fetchAction : nat -> string -> result SSHAction.
(** [rand.Read(b)] for the five bytes of [randBytes(5)]: the bytes, or
    the error. *)
Variable rand_Read : result string.
(** [fmt.Sprintf("%s-%02x", now.UTC().Format("20060102T150405"), b)]. *)
Variable fmt_sharedID : time.Time -> string -> string.

(** [newSSHSession]: the two IDs of the session it makes, whose other
    fields are the conn info and the local user it is given and a new
    context. [randBytes] panics with the error of [rand.Read], and the
    type assertion [s.Context().(ssh.Context)] panics for a context of
    another type. *)
Definition newSSHSession (s : sshRequest) (ci : sshConnInfo)
  : outcome (string * string) :=
  match rand_Read with
  | Err _ => Panic "rand.Read"
  | Ok b =>
      let sharedID := fmt_sharedID (now ci) b in
      match s_Context s with
      | None => Panic "interface conversion"
      | Some idH => Done (idH, sharedID)
      end
  end.

(** An action that only holds: the loop of [resolveTerminalAction] goes
    on to [expandDelegateURL] for it. *)
Definition onlyHolds (a : SSHAction) : bool :=
  negb (Accept a || Reject a)
  && negb (String.eqb (HoldAndDelegate a) EmptyString).

(** [handleSSH] for the session [s], with [fuel] iterations of the
    resolver's loop: the registry after it, the events, and the session as
    [run] left it when [run] was called. [None] while the resolver's loop
    has not returned; [Panic] for a panic of [newSSHSession] or of
    [startSession] and for a dereference of a nil conn info or of the nil
    [localUser] of a session whose policy gave no local user. *)
Definition handleSSH (srv : server) (reg : registry) (env : runEnv)
    (fuel : nat) (s : sshRequest)
  : option (outcome (registry * list event * option sshSession)) :=
  match evaluatePolicy srv (s_User s) (s_LocalAddr s) (s_RemoteAddr s)
          (s_PublicKey s) with
  | (_, Err _) => Some (Done (reg, [Logf "%s"; Exit 1], None))
  | (None, Ok _) => Some (Panic "nil connInfo")
  | (Some ci, Ok (action, localUser)) =>
      let lookup : result (option user_User) :=
        if negb (String.eqb localUser EmptyString) then
          match user_Lookup localUser with
          | Ok u => Ok (Some u)
          | Err err => Err err
          end
        else Ok None in
      match lookup with
      | Err _ => Some (Done (reg, [Logf "ssh: user Lookup %q: %v"; Exit 1], None))
      | Ok lu =>
          match newSSHSession s ci with
          | Panic msg => Some (Panic msg)
          | Done (idH, sharedID) =>
                let hello :=
                  [Logf "handling new SSH connection from %v (%v) to ssh-user %q"] in
                if onlyHolds action
                   && match lu with None => true | Some _ => false end
                then Some (Panic "nil localUser")
                else
                  match resolveTerminalAction fetchAction fuel 0 action with
                  | (_, None) => None
                  | (out, Some (Err _)) =>
                      Some (Done (reg,
                                  (hello ++ out
                                   ++ [Logf "resolveTerminalAction: %v";
                                       WriteStderr
                                         ("Access denied: failed to resolve SSHAction."
                                          ++ String strings.LF EmptyString);
                                       Exit 1])%list,
                                  None))
                  | (out, Some (Ok a)) =>
                      if Reject a || negb (Accept a) then
                        Some (Done (reg,
                                    (hello ++ out
                                     ++ [Logf "access denied for %v (%v)"; Exit 1])%list,
                                    None))
                      else
                        match lu with
                        | None => Some (Panic "nil localUser")
                        | Some u =>
                            let ss :=
                              {| idH := idH; sharedID := sharedID;
                                 ctx := newSSHContext; connInfo := ci;
                                 action := Some a; localUser := u;
                                 exitOnce := false |} in
                            match run env reg ss with
                            | Panic msg => Some (Panic msg)
                            | Done (reg', ss', evs) =>
                                Some (Done (reg',
                                            (hello ++ out
                                             ++ [Logf "access granted for %v (%v) to ssh-user %q"]
                                             ++ evs)%list,
                                            Some ss'))
                            end
                        end
                  end
          end
      end
  end.

(** [mayForwardLocalPortTo] for the session ID of the context; a
    registered session without an action would be dereferenced. *)
Definition mayForwardLocalPortTo (reg : registry) (sessionID : string)
  : outcome bool :=
  match getSessionForContext reg sessionID with
  | None => Done false
  | Some ss =>
      match action ss with
      | Some a => Done (AllowLocalPortForwarding a)
      | None => Panic "nil action"
      end
  end.

End HandleSSH.

(** ** Operating-system effects of a session's setup *)

(** What the setup of a recording and of agent forwarding asks of the
    operating system, in order. *)
Inductive osEvent : Type :=
  (** [os.MkdirAll(dir, perm)] *)
  | MkdirAll (dir : string) (perm : Z)
  (** [ioutil.TempFile(dir, pattern)] *)
  | TempFile (dir pattern : string)
  (** [f.Close()] of the recording's file *)
  | FileClose
  (** [ssh.NewAgentListener()], listening on [socket] *)
  | AgentListen (socket : string)
  (** [ln.Close()] *)
  | ListenerClose
  (** [os.Chown(path, uid, gid)] *)
  | Chown (path : string) (uid gid : Z)
  (** [os.Chmod(path, perm)] *)
  | Chmod (path : string) (perm : Z)
  (** [go ssh.ForwardAgentConnections(ln, s)] *)
  | ForwardAgentConnections.

(** [envEq] on the platforms this file is built for (Linux and macOS,
    by its build constraint), where [runtime.GOOS] is not "windows". *)
Definition envEq (a b : string) : bool := String.eqb a b.

Fixpoint envValFromList (env : list string) (wantKey : string) : string :=
  match env with
  | [] => EmptyString
  | kv :: env' =>
      let '(thisKey, v, ok) := strings.Cut kv "="%char in
      if ok && envEq thisKey wantKey then v
      else envValFromList env' wantKey
  end.

(** [strconv.ParseUint(s, 10, 32)]: a non-empty string of decimal digits
    whose value is below 2^32, or an error. *)
Fixpoint parseDigits (s : string) (acc : Z) : option Z :=
  match s with
  | EmptyString => Some acc
  | String c s' =>
      let d := Z.of_nat (nat_of_ascii c) in
      if (48 <=? d) && (d <=? 57) then parseDigits s' (acc * 10 + (d - 48))
      else None
  end.

Definition ParseUint32 (s : string) : result Z :=
  match s with
  | EmptyString => Err (errorString "strconv.ParseUint: invalid syntax")
  | _ =>
      match parseDigits s 0 with
      | None => Err (errorString "strconv.ParseUint: invalid syntax")
      | Some n =>
          if n <? 2 ^ 32 then Ok n
          else Err (errorString "strconv.ParseUint: value out of range")
      end
  end.

Section SessionSetup.
Context `{Externals}.

(** [filepath.Dir] and [filepath.Join]. *)
Variable filepath_Dir : string -> string.
Variable filepath_Join : string -> string -> string.

(** What the client and the operating system decide during
    [handleSSHAgentForwarding]. *)
Record agentEnv : Type := {
  (** [ssh.AgentRequested(ss)] *)
  AgentRequested : bool;
  (** [ssh.NewAgentListener()]: the socket it listens on, or an error *)
  NewAgentListener : result string;
  Chown_err : option error;
  Chmod_err : option error
}.

(** [handleSSHAgentForwarding]: what it asks of the operating system, the
    listener assigned to [ss.agentListener] (its socket), and the error
    returned. The deferred function closes the listener when the
    function's variable [err] is not nil: that is the error of
    [NewAgentListener] and of the two [strconv.ParseUint] calls, which
    assign it; the errors of [os.Chown] and [os.Chmod] are in variables of
    their own [if] statements and leave it nil. A session without an
    action would be dereferenced. *)
Definition handleSSHAgentForwarding (env : agentEnv) (ss : sshSession)
    (lu : user_User)
  : outcome (list osEvent * option string * option error) :=
  match action ss with
  | None => if AgentRequested env then Panic "nil action"
            else Done ([], None, None)
  | Some a =>
      if negb (AgentRequested env) || negb (AllowAgentForwarding a)
      then Done ([], None, None)
      else
        match NewAgentListener env with
        | Err err => Done ([], None, Some err)
        | Ok socket =>
            match ParseUint32 (Uid lu) with
            | Err err => Done ([AgentListen socket; ListenerClose], None, Some err)
            | Ok uid =>
                match ParseUint32 (Gid lu) with
                | Err err =>
                    Done ([AgentListen socket; ListenerClose], None, Some err)
                | Ok gid =>
                    let dir := filepath_Dir socket in
                    match Chown_err env with
                    | Some err =>
                        Done ([AgentListen socket; Chown socket uid gid],
                              None, Some err)
                    | None =>
                        match Chmod_err env with
                        | Some err =>
                            Done ([AgentListen socket; Chown socket uid gid;
                                   Chmod dir 493],
                                  None, Some err)
                        | None =>
                            Done ([AgentListen socket; Chown socket uid gid;
                                   Chmod dir 493; ForwardAgentConnections],
                                  Some socket, None)
                        end
                    end
                end
            end
        end
  end.

(** What the client and the operating system decide during
    [startNewRecording]. *)
Record recordingEnv : Type := {
  (** [ss.Pty()]: the window's width and height when a pty was requested *)
  Pty_Window : option (Z * Z);
  (** [ss.Environ()] *)
  Environ : list string;
  (** [time.Now()] *)
  time_Now : time.Time;
  (** [ss.srv.lb.TailscaleVarRoot()] *)
  TailscaleVarRoot : string;
  MkdirAll_err : option error;
  TempFile_err : option error;
  (** the error the new file's writes fail with, if any *)
  Write_err : option error
}.

(** [json.Marshal(CastHeader{...})] for a width, a height, a timestamp in
    seconds and the value of TERM. *)
Variable json_Marshal_header : Z -> Z -> Z -> string -> result string.

(** The TERM of the header: the client's, or "xterm-256color". *)
Definition recordingTerm (env : recordingEnv) : string :=
  let term := envValFromList (Environ env) "TERM" in
  if String.eqb term EmptyString then "xterm-256color" else term.

(** [startNewRecording]: what it asks of the operating system, and the
    recording or the error. 448 is 0700. *)
Definition startNewRecording_os (env : recordingEnv)
  : list osEvent * result recording :=
  let '(width, height) :=
    match Pty_Window env with Some w => w | None => (0, 0) end in
  let term := recordingTerm env in
  let now := time_Now env in
  let varRoot := TailscaleVarRoot env in
  if String.eqb varRoot EmptyString then
    ([], Err (errorString "no var root for recording storage"))
  else
    let dir := filepath_Join varRoot "ssh-sessions" in
    let mkdir := MkdirAll dir 448 in
    match MkdirAll_err env with
    | Some err => ([mkdir], Err err)
    | None =>
        let temp :=
          TempFile dir ("ssh-session-" ++ pretty now ++ "-*.cast") in
        match TempFile_err env with
        | Some err => ([mkdir; temp], Err err)
        | None =>
            let f := {| fileData := EmptyString; fileErr := Write_err env |} in
            match json_Marshal_header width height (now / time.Second) term with
            | Err err => ([mkdir; temp; FileClose], Err err)
            | Ok j =>
                let j := j ++ String strings.LF EmptyString in
                match Write f j with
                | (_, (_, Some err)) => ([mkdir; temp; FileClose], Err err)
                | (f', (_, None)) =>
                    ([mkdir; temp], Ok {| start := now; out := Some f' |})
                end
            end
        end
    end.

End SessionSetup.

(** The cast line of a write reaches the file: it could be encoded, the
    file is open and its writes succeed. *)
Definition castLineWritten (r : recording) (j : result string) : bool :=
  match j, out r with
  | Ok _, Some f => negb (isErr (fileErr f))
  | _, _ => false
  end.

(** ** tlsdial: the TLS configuration for outgoing connections
    (net/tlsdial/tlsdial.go)

    Certificates and their verification are [crypto/x509]'s and are an
    interface here; a [tls.Config] is the record of the fields the package
    reads and writes, its hooks being functions. *)

Module tlsdial.

(** The roots a verification trusts: the system's ([opts.Roots] nil) or
    the pool of [bakedInRoots()]. *)
Inductive certPool : Type := systemRoots | bakedInRoots.

Section TLS.
(** [*x509.Certificate]. *)
Variable Certificate : Type.

Record VerifyOptions : Type := {
  DNSName : string;
  Intermediates : list Certificate;
  Roots : certPool;
  CurrentTime : option time.Time
}.

(** The error of [cert.Verify(opts)], if any. *)
Variable Verify : Certificate -> VerifyOptions -> option error.
(** [x509.ParseCertificate]. *)
Variable ParseCertificate : string -> result Certificate.

(** [tls.ConnectionState]. *)
Record ConnectionState : Type := {
  cs_ServerName : string;
  PeerCertificates : list Certificate
}.

(** [tls.Config]. [VerifyConnection] returns its error and what it adds
    to [counterFallbackOK], or panics; [VerifyPeerCertificate] is given
    the reading of [time.Now()] and the raw certificates. *)
Record Config_ : Type := {
  ServerName : string;
  InsecureSkipVerify : bool;
  VerifyConnection : option (ConnectionState -> outcome (option error * Z));
  VerifyPeerCertificate : option (time.Time -> list string -> option error);
  KeyLogWriter : option string
}.

(** [new(tls.Config)]. *)
Definition zeroConfig : Config_ :=
  {| ServerName := EmptyString; InsecureSkipVerify := false;
     VerifyConnection := None; VerifyPeerCertificate := None;
     KeyLogWriter := None |}.

(** The hook that [Config] installs: verification against the system's
    roots and, if that fails, against the baked-in roots. Slicing the
    certificates of a connection without any panics. *)
Definition configVerifyConnection (cs : ConnectionState)
  : outcome (option error * Z) :=
  match PeerCertificates cs with
  | [] => Panic "slice bounds out of range"
  | leaf :: rest =>
      let opts := {| DNSName := cs_ServerName cs; Intermediates := rest;
                     Roots := systemRoots; CurrentTime := None |} in
      match Verify leaf opts with
      | None => Done (None, 0)
      | Some errSys =>
          let opts := {| DNSName := cs_ServerName cs; Intermediates := rest;
                         Roots := bakedInRoots; CurrentTime := None |} in
          match Verify leaf opts with
          | None => Done (None, 1)
          | Some _ => Done (Some errSys, 0)
          end
      end
  end.

(** How a call of [Config] ends: it returns, panics, or ends the process
    with [log.Fatal]. *)
Inductive configResult : Type :=
  | Returned (conf : Config_)
  | Panicked (msg : string)
  | Fatal (err : error).

(** [Config(host, base)], with the value of SSLKEYLOGFILE and the error
    of opening that file, if any. *)
Definition Config (sslKeyLogFile : string) (OpenFile_err : option error)
    (host : string) (base : option Config_) : configResult :=
  let conf := match base with None => zeroConfig | Some b => b end in
  let keyLog : result (option string) :=
    if negb (String.eqb sslKeyLogFile EmptyString) then
      match OpenFile_err with
      | Some err => Err err
      | None => Ok (Some sslKeyLogFile)
      end
    else Ok (KeyLogWriter conf) in
  match keyLog with
  | Err err => Fatal err
  | Ok keyLogWriter =>
      if InsecureSkipVerify conf
      then Panicked "unexpected base.InsecureSkipVerify"
      else
        match VerifyConnection conf with
        | Some _ => Panicked "unexpected base.VerifyConnection"
        | None =>
            Returned {| ServerName := host;
                        InsecureSkipVerify := true;
                        VerifyConnection := Some configVerifyConnection;
                        VerifyPeerCertificate := VerifyPeerCertificate conf;
                        KeyLogWriter := keyLogWriter |}
        end
  end.

(** The loop of the hook of [SetConfigExpectedCert] that parses the raw
    certificates: the certificates, or the first error. *)
Fixpoint parseCertificates (rawCerts : list string)
  : result (list Certificate) :=
  match rawCerts with
  | [] => Ok []
  | asn1Data :: rawCerts' =>
      match ParseCertificate asn1Data with
      | Err err => Err err
      | Ok cert =>
          match parseCertificates rawCerts' with
          | Err err => Err err
          | Ok certs => Ok (cert :: certs)
          end
      end
  end.

(** The hook that [SetConfigExpectedCert] installs. *)
Definition expectedCertVerify (certDNSName : string) (now : time.Time)
    (rawCerts : list string) : option error :=
  match rawCerts with
  | [] => Some (errorString "no certs presented")
  | _ =>
      match parseCertificates rawCerts with
      | Err err => Some err
      | Ok [] => Some (errorString "no certs presented")
      | Ok (leaf :: rest) =>
          let opts := {| DNSName := certDNSName; Intermediates := rest;
                         Roots := systemRoots; CurrentTime := Some now |} in
          match Verify leaf opts with
          | None => None
          | Some errSys =>
              let opts := {| DNSName := certDNSName; Intermediates := rest;
                             Roots := bakedInRoots;
                             CurrentTime := Some now |} in
              match Verify leaf opts with
              | None => None
              | Some _ => Some errSys
              end
          end
      end
  end.

(** [SetConfigExpectedCert(c, certDNSName)]: the configuration after it,
    or its panic. *)
Definition SetConfigExpectedCert (c : Config_) (certDNSName : string)
  : outcome Config_ :=
  if String.eqb (ServerName c) certDNSName then Done c
  else if String.eqb (ServerName c) EmptyString then
    Done {| ServerName := certDNSName;
            InsecureSkipVerify := InsecureSkipVerify c;
            VerifyConnection := VerifyConnection c;
            VerifyPeerCertificate := VerifyPeerCertificate c;
            KeyLogWriter := KeyLogWriter c |}
  else
    match VerifyPeerCertificate c with
    | Some _ => Panic "refusing to override tls.Config.VerifyPeerCertificate"
    | None =>
        Done {| ServerName := ServerName c;
                InsecureSkipVerify := true;
                VerifyConnection := None;
                VerifyPeerCertificate := Some (expectedCertVerify certDNSName);
                KeyLogWriter := KeyLogWriter c |}
    end.

End TLS.

End tlsdial.

(** ** Test data

    A concrete instance of the collaborators and concrete policies,
    sessions and caches, on which the definitions above evaluate. *)

Module testdata.

Definition b64val (c : ascii) : option nat :=
  let n := nat_of_ascii c in
  if (65 <=? n)%nat && (n <=? 90)%nat then Some (n - 65)%nat
  else if (97 <=? n)%nat && (n <=? 122)%nat then Some (n - 71)%nat
  else if (48 <=? n)%nat && (n <=? 57)%nat then Some (n + 4)%nat
  else if (n =? 43)%nat then Some 62%nat
  else if (n =? 47)%nat then Some 63%nat
  else None.

(** Base64 in the standard alphabet, four characters at a time; decoding
    stops at padding or at a character outside the alphabet and keeps the
    bytes decoded so far. *)
Fixpoint base64_decode (s : string) : string :=
  match s with
  | String a (String b (String c (String d rest))) =>
      match b64val a, b64val b with
      | Some x, Some y =>
          let b1 := ascii_of_nat (x * 4 + y / 16) in
          match b64val c with
          | Some z =>
              let b2 := ascii_of_nat ((y mod 16) * 16 + z / 4) in
              match b64val d with
              | Some w =>
                  String b1 (String b2
                    (String (ascii_of_nat ((z mod 4) * 64 + w))
                       (base64_decode rest)))
              | None => String b1 (String b2 EmptyString)
              end
          | None => String b1 EmptyString
          end
      | _, _ => EmptyString
      end
  | _ => EmptyString
  end.

Definition isSpace (c : ascii) : bool :=
  let n := nat_of_ascii c in
  (n =? 32)%nat || ((9 <=? n)%nat && (n <=? 13)%nat).

Fixpoint trimLeft (s : string) : string :=
  match s with
  | String c s' => if isSpace c then trimLeft s' else s
  | EmptyString => EmptyString
  end.

Definition trimSpace (s : string) : string :=
  String.rev (trimLeft (String.rev (trimLeft s))).

(** Addresses as text; the mesh range is the one that starts with 100. *)
Definition externals : Externals :=
  {| IP := string;
     ParseIP := fun s => s;
     IsTailscaleIP := fun ip => strings.HasPrefix ip "100.";
     DecodeString := base64_decode;
     TrimSpace := trimSpace;
     expandDelegateURL := fun url => url |}.

#[local] Existing Instance externals.

Definition aliceKey : PublicKey :=
  {| Type_ := "ssh-ed25519"; Marshal := "ABC" |}.

Definition accept : SSHAction :=
  {| Message := EmptyString; Reject := false; Accept := true;
     SesssionDuration := 0; AllowAgentForwarding := false;
     HoldAndDelegate := EmptyString; AllowLocalPortForwarding := false |}.

Definition reject : SSHAction :=
  {| Message := EmptyString; Reject := true; Accept := false;
     SesssionDuration := 0; AllowAgentForwarding := false;
     HoldAndDelegate := EmptyString; AllowLocalPortForwarding := false |}.

Definition hold (url msg : string) : SSHAction :=
  {| Message := msg; Reject := false; Accept := false;
     SesssionDuration := 0; AllowAgentForwarding := false;
     HoldAndDelegate := url; AllowLocalPortForwarding := false |}.

(** An action with none of [Accept], [Reject] and [HoldAndDelegate]. *)
Definition blank : SSHAction := hold EmptyString EmptyString.

Definition anyone : SSHPrincipal :=
  {| Node := EmptyString; NodeIP := EmptyString; UserLogin := EmptyString;
     Any := true; PubKeys := [] |}.

Definition anyoneWithKey : SSHPrincipal :=
  {| Node := EmptyString; NodeIP := EmptyString; UserLogin := EmptyString;
     Any := true; PubKeys := ["ssh-ed25519 QUJD alice@laptop"] |}.

Definition anyoneWithKeyURL : SSHPrincipal :=
  {| Node := EmptyString; NodeIP := EmptyString; UserLogin := EmptyString;
     Any := true; PubKeys := ["https://keys.example/alice.keys"] |}.

Definition bob : SSHPrincipal :=
  {| Node := EmptyString; NodeIP := EmptyString; UserLogin := "bob@example.com";
     Any := false; PubKeys := [] |}.

Definition sameUser : option (gmap string string) := Some {[ "alice" := "=" ]}.

Definition rule (ps : list (option SSHPrincipal)) (a : SSHAction) : SSHRule :=
  {| RuleExpires := None; Principals := ps; SSHUsers := sameUser;
     Action := Some a |}.

Definition expiredRule : SSHRule :=
  {| RuleExpires := Some 5; Principals := [Some anyone]; SSHUsers := sameUser;
     Action := Some accept |}.

Definition keyLines (url : string) : result (list string) :=
  if String.eqb url "https://keys.example/alice.keys"
  then Ok ["ssh-rsa QUJE root@laptop"; "ssh-ed25519 QUJD alice@laptop"]
  else Err (errorString "unexpected status 404 Not Found").

Definition aliceNode : tailcfg_Node := {| ID := 7; StableID := "nAlice" |}.
Definition aliceProfile : UserProfile := {| LoginName := "alice@example.com" |}.

Definition addr (ip : string) : IPPort := {| IPPort_IP := ip; IPPort_Port := 22 |}.

Definition ci (key : option PublicKey) : sshConnInfo :=
  {| now := 10; fetchPublicKeysURL := Some keyLines; sshUser := "alice";
     src := addr "100.64.0.2"; dst := addr "100.64.0.1";
     node := Some aliceNode; uprof := Some aliceProfile; pubKey := key |}.

(** Two rules that do not match [ci], then one that accepts. *)
Definition policy : SSHPolicy :=
  {| Rules := [None; Some expiredRule; Some (rule [Some bob] reject);
               Some (rule [Some anyone] accept)] |}.

(** A rule that asks for a key, and after it one that accepts anyone. *)
Definition keyThenOpenPolicy : SSHPolicy :=
  {| Rules := [Some (rule [Some anyoneWithKey] accept);
               Some (rule [Some anyone] accept)] |}.

Definition rejectAll : SSHPolicy :=
  {| Rules := [Some (rule [Some anyone] reject)] |}.

Definition srv (pol : SSHPolicy) : server :=
  {| NetMap := Some {| nm_SSHPolicy := Some pol; SelfNode_ID := 1 |};
     WhoIs := fun _ => Some (aliceNode, aliceProfile);
     timeNow := 10;
     srv_fetchPublicKeysURL := keyLines;
     debugPolicyFile := EmptyString;
     debugIgnoreTailnetSSHPolicy := false;
     readDebugPolicy := fun _ => Err (errorString "no file") |}.

Definition alice : user_User :=
  {| Uid := "1000"; Gid := "1000"; Username := "alice" |}.

Definition session (h i : string) : sshSession :=
  {| idH := h; sharedID := i; ctx := newSSHContext; connInfo := ci None;
     action := Some accept; localUser := alice; exitOnce := false |}.

Definition session1 : sshSession := session "H1" "20220401T120000-0a0b0c0d0e".

(** The control plane holds once more and then accepts with a message. *)
Definition welcome : SSHAction :=
  {| Message := "welcome" ++ String strings.LF EmptyString;
     Reject := false; Accept := true;
     SesssionDuration := 0; AllowAgentForwarding := false;
     HoldAndDelegate := EmptyString; AllowLocalPortForwarding := false |}.

Definition controlPlane (n : nat) (url : string) : result SSHAction :=
  match n with
  | O => Ok (hold "https://control/again" EmptyString)
  | _ => Ok welcome
  end.

Definition holdStart : SSHAction := hold "https://control/start" "visit".

Definition registered1 : registry :=
  {| activeSessionByH := <[idH session1 := session1]> ∅;
     activeSessionBySharedID := <[sharedID session1 := session1]> ∅ |}.

Definition asRoot : runEnv :=
  {| euid := 0; shouldRecord := false; startNewRecording := None;
     launchProcess := None; cmd_Wait := WaitExitError 3 |}.

(** A recording that has been closed, and a JSON encoder for cast lines
    that prints the time in whole nanoseconds. *)
Definition closedRecording : recording :=
  fst (recording_Close
         {| start := 0;
            out := Some {| fileData := "{}"; fileErr := None |} |}).

Definition marshalCast (since : time.Duration) (dir p : string)
  : result string :=
  Ok ("[" ++ pretty since ++ "," ++ dir ++ "," ++ p ++ "]").

(** A key endpoint that answers every request with status 500. *)
Definition status500 : Response :=
  {| StatusCode := 500; Status := "500 Internal Server Error";
     Header_Etag := EmptyString; Body := "oops"; BodyErr := None |}.

Definition freshEntry (t : time.Time) : pubKeyCacheEntry :=
  {| lines := ["ssh-ed25519 QUJD alice@laptop"]; etag := EmptyString;
     at_ := t |}.

(** [n] entries for as many other URLs, all written at the instant [t]. *)
Definition otherEntries (n : nat) (t : time.Time)
  : gmap string pubKeyCacheEntry :=
  list_to_map
    (map (fun i => ("https://keys.example/user" ++ pretty i, freshEntry t))
         (seq 0 n)).

(** A server whose clock stands at 100 s and whose cache holds [n]
    entries written at that instant. *)
Definition keyServerWith (n : nat) : keyServer :=
  {| fetchPublicKeysCache := otherEntries n (100 * time.Second);
     timeNow_at := fun _ => 100 * time.Second;
     nowCalls := 0;
     newRequestErr := fun _ => None;
     pubKeyClient := fun _ _ => Ok status500;
     requests := [] |}.

Definition aliceKeysURL : string := "https://keys.example/alice.keys".

(** Further test data: a policy that only accepts with a key, one with a
    nil rule, an address outside the mesh, a session handled from the
    start, agent forwarding, and key endpoints that answer 304, 200 or
    not at all. *)

Definition keyOnlyPolicy : SSHPolicy :=
  {| Rules := [Some (rule [Some anyoneWithKey] accept)] |}.

Definition nilRulePolicy : SSHPolicy := {| Rules := [None] |}.

Definition outsideAddr : IPPort := addr "192.168.1.5".

Definition lookupAlice (name : string) : result user_User :=
  if String.eqb name "alice" then Ok alice
  else Err (errorString "user: unknown user").

Definition request1 : sshRequest :=
  {| s_User := "alice"; s_LocalAddr := addr "100.64.0.1";
     s_RemoteAddr := addr "100.64.0.2"; s_PublicKey := None;
     s_Context := Some "H1" |}.

(** The same over a context that is no [ssh.Context]. *)
Definition requestOtherContext : sshRequest :=
  {| s_User := "alice"; s_LocalAddr := addr "100.64.0.1";
     s_RemoteAddr := addr "100.64.0.2"; s_PublicKey := None;
     s_Context := None |}.

(** The shared ID of a session: the time in seconds and the random bytes
    as they are. *)
Definition sharedIDOf (t : time.Time) (b : string) : string :=
  pretty (t / time.Second) ++ "-" ++ b.

Definition acceptWithAgent : SSHAction :=
  {| Message := EmptyString; Reject := false; Accept := true;
     SesssionDuration := 0; AllowAgentForwarding := true;
     HoldAndDelegate := EmptyString; AllowLocalPortForwarding := true |}.

Definition agentSession : sshSession :=
  {| idH := "H2"; sharedID := "20220401T120001-0102030405";
     ctx := newSSHContext; connInfo := ci None;
     action := Some acceptWithAgent; localUser := alice;
     exitOnce := false |}.

Definition agentSocket : string := "/tmp/auth-agent123/listener.sock".

Definition dirOf (path : string) : string := "/tmp/auth-agent123".

Definition agentOK : agentEnv :=
  {| AgentRequested := true; NewAgentListener := Ok agentSocket;
     Chown_err := None; Chmod_err := None |}.

Definition agentChownFails : agentEnv :=
  {| AgentRequested := true; NewAgentListener := Ok agentSocket;
     Chown_err := Some (errorString "chown: operation not permitted");
     Chmod_err := None |}.

Definition staleEntry : pubKeyCacheEntry :=
  {| lines := ["ssh-ed25519 QUJD alice@laptop"]; etag := "v1"; at_ := 0 |}.

Definition status304 : Response :=
  {| StatusCode := 304; Status := "304 Not Modified";
     Header_Etag := EmptyString; Body := EmptyString; BodyErr := None |}.

Definition status200 : Response :=
  {| StatusCode := 200; Status := "200 OK"; Header_Etag := "v2";
     Body := "ssh-rsa QUJE root@laptop" ++ String strings.LF EmptyString
             ++ "ssh-ed25519 QUJD alice@laptop" ++ String strings.LF EmptyString;
     BodyErr := None |}.

(** A server whose clock stands at 100 s, whose cache holds an entry for
    alice's URL written at 0 s, and whose key endpoint answers as given. *)
Definition keyServerStale (answer : result Response) : keyServer :=
  {| fetchPublicKeysCache := {[ aliceKeysURL := staleEntry ]};
     timeNow_at := fun _ => 100 * time.Second;
     nowCalls := 0;
     newRequestErr := fun _ => None;
     pubKeyClient := fun _ _ => answer;
     requests := [] |}.

(** The same with an entry written at 90 s, which is still fresh. *)
Definition keyServerFresh : keyServer :=
  {| fetchPublicKeysCache := {[ aliceKeysURL := freshEntry (90 * time.Second) ]};
     timeNow_at := fun _ => 100 * time.Second;
     nowCalls := 0;
     newRequestErr := fun _ => None;
     pubKeyClient := fun _ _ => Err (errorString "dial tcp: timeout");
     requests := [] |}.

(** A server whose clock stands at 100 s and whose cache holds 50 entries
    written at that instant, the one for alice's URL among them; its key
    endpoint answers every request with status 500. *)
Definition keyServerFull : keyServer :=
  {| fetchPublicKeysCache :=
       <[aliceKeysURL := freshEntry (100 * time.Second)]>
         (otherEntries 49 (100 * time.Second));
     timeNow_at := fun _ => 100 * time.Second;
     nowCalls := 0;
     newRequestErr := fun _ => None;
     pubKeyClient := fun _ _ => Ok status500;
     requests := [] |}.

Definition anyoneWithBobURL : SSHPrincipal :=
  {| Node := EmptyString; NodeIP := EmptyString; UserLogin := EmptyString;
     Any := true; PubKeys := ["https://keys.example/bob.keys"] |}.

(** A mesh of two nodes: alice's laptop at 100.64.0.2 and this node, at
    100.64.0.1, which belongs to admin; and two policies, one that accepts
    alice and one that accepts only admin. *)
Definition thisNode : tailcfg_Node := {| ID := 1; StableID := "nServer" |}.
Definition adminProfile : UserProfile := {| LoginName := "admin@example.com" |}.

Definition meshWhoIs (a : IPPort) : option (tailcfg_Node * UserProfile) :=
  if String.eqb (IPPort_IP a) "100.64.0.2" then Some (aliceNode, aliceProfile)
  else if String.eqb (IPPort_IP a) "100.64.0.1" then Some (thisNode, adminProfile)
  else None.

Definition meshSrv (pol : SSHPolicy) : server :=
  {| NetMap := Some {| nm_SSHPolicy := Some pol; SelfNode_ID := 1 |};
     WhoIs := meshWhoIs;
     timeNow := 10;
     srv_fetchPublicKeysURL := keyLines;
     debugPolicyFile := EmptyString;
     debugIgnoreTailnetSSHPolicy := false;
     readDebugPolicy := fun _ => Err (errorString "no file") |}.

Definition login (name : string) : SSHPrincipal :=
  {| Node := EmptyString; NodeIP := EmptyString; UserLogin := name;
     Any := false; PubKeys := [] |}.

Definition aliceOnlyPolicy : SSHPolicy :=
  {| Rules := [Some (rule [Some (login "alice@example.com")] accept)] |}.

Definition adminOnlyPolicy : SSHPolicy :=
  {| Rules := [Some (rule [Some (login "admin@example.com")] accept)] |}.

End testdata.

(** * Properties *)

Local Open Scope list_scope.

(** ** Policy matcher *)

Section PolicyProperties.
Context `{Externals}.

Lemma noMatch_Err ci r : noMatch ci r <-> exists e, matchRule r ci = Err e.
Proof.
  unfold noMatch. destruct (matchRule r ci) as [res|e]; simpl.
  - split; [discriminate | intros [e ?]; discriminate].
  - split; eauto.
Qed.

Lemma evalSSHPolicy_loop_cons_noMatch ci r rules :
  noMatch ci r ->
  evalSSHPolicy_loop (r :: rules) ci = evalSSHPolicy_loop rules ci.
Proof.
  intros [e He]%noMatch_Err. simpl. now rewrite He.
Qed.

Lemma evalSSHPolicy_loop_skip ci pre post :
  Forall (noMatch ci) pre ->
  evalSSHPolicy_loop (pre ++ post) ci = evalSSHPolicy_loop post ci.
Proof.
  induction 1 as [|r pre Hr _ IH]; [reflexivity|].
  rewrite <- app_comm_cons, evalSSHPolicy_loop_cons_noMatch by assumption.
  exact IH.
Qed.

Lemma evalSSHPolicy_loop_Some ci rules res :
  evalSSHPolicy_loop rules ci = Some res <->
  exists pre r post,
    rules = pre ++ r :: post /\ Forall (noMatch ci) pre
    /\ matchRule r ci = Ok res.
Proof.
  split.
  - induction rules as [|r rules IH]; simpl; [discriminate|].
    destruct (matchRule r ci) as [res'|e] eqn:Hr.
    + intros [= <-]. exists [], r, rules. auto.
    + intros (pre & r' & post & -> & Hpre & Hr')%IH.
      exists (r :: pre), r', post. repeat split; [|assumption].
      constructor; [|assumption]. apply noMatch_Err; eauto.
  - intros (pre & r & post & -> & Hpre & Hr).
    rewrite evalSSHPolicy_loop_skip by assumption. simpl. now rewrite Hr.
Qed.

Lemma evalSSHPolicy_loop_None ci rules :
  evalSSHPolicy_loop rules ci = None <-> Forall (noMatch ci) rules.
Proof.
  induction rules as [|r rules IH]; simpl.
  - split; [constructor | reflexivity].
  - destruct (matchRule r ci) as [res|e] eqn:Hr.
    + split; [discriminate|]. intros Hall. inversion Hall as [|?? Hno _]; subst.
      unfold noMatch in Hno. rewrite Hr in Hno. discriminate.
    + rewrite IH. split.
      * intros Hall. constructor; [apply noMatch_Err; eauto | assumption].
      * intros Hall. now inversion Hall.
Qed.

(** On the answers that the key fetcher gives in one state, [evalSSHPolicy]
    returns the action and the local user of the first rule, in order,
    that matches: the rules before it do not match; it returns no-match
    exactly when no rule matches; and a policy without a prefix of rules
    that do not match evaluates to the same result. *)
Theorem evalSSHPolicy_first_match (pol : SSHPolicy) (ci : sshConnInfo) :
  (forall a localUser,
      evalSSHPolicy pol ci = Some (a, localUser) <->
      exists pre r post,
        Rules pol = pre ++ r :: post /\ Forall (noMatch ci) pre
        /\ matchRule r ci = Ok (a, localUser))
  /\ (evalSSHPolicy pol ci = None <-> Forall (noMatch ci) (Rules pol))
  /\ (forall pre post,
        Rules pol = pre ++ post -> Forall (noMatch ci) pre ->
        evalSSHPolicy {| Rules := post |} ci = evalSSHPolicy pol ci).
Proof.
  unfold evalSSHPolicy. repeat split.
  - apply evalSSHPolicy_loop_Some.
  - apply evalSSHPolicy_loop_Some.
  - apply evalSSHPolicy_loop_None.
  - apply evalSSHPolicy_loop_None.
  - intros pre post -> Hpre. simpl. symmetry.
    now apply evalSSHPolicy_loop_skip.
Qed.

Lemma pubKeyMatchesAuthorizedKey_spec (key : PublicKey) (line : string) :
  Marshal key <> EmptyString ->
  pubKeyMatchesAuthorizedKey key line = true <-> spec_keyLineMatches key line.
Proof.
  intros Hwire. unfold pubKeyMatchesAuthorizedKey, spec_keyLineMatches.
  destruct (strings.Cut line strings.SP) as [[keyType rest] found].
  destruct found; simpl.
  2:{ split; [discriminate | intros (?&?&[=]&_)]. }
  destruct (String.eqb_spec (Type_ key) keyType) as [Heq|Hne]; simpl.
  2:{ split; [discriminate|]. intros (?&?&[= <- <-]&->&_). congruence. }
  destruct (strings.Cut rest strings.SP) as [[b64 after] found'] eqn:Hcut.
  simpl. rewrite andb_true_iff, Z.ltb_lt, String.eqb_eq. split.
  - intros [_ Hm]. exists keyType, rest. rewrite Hcut. simpl. auto.
  - intros (?&?&[= <- <-]&_&Hdec). rewrite Hcut in Hdec. simpl in Hdec.
    split; [|congruence].
    rewrite Hdec. unfold strings.len.
    destruct (Marshal key); [congruence | simpl; lia].
Qed.

Lemma existsb_keyLine (key : PublicKey) (keyLines : list string) :
  Marshal key <> EmptyString ->
  existsb (pubKeyMatchesAuthorizedKey key) keyLines = true <->
  exists line, In line keyLines /\ spec_keyLineMatches key line.
Proof.
  intros Hwire. rewrite existsb_exists. split.
  - intros (line & Hin & Hm). exists line.
    now rewrite <- pubKeyMatchesAuthorizedKey_spec.
  - intros (line & Hin & Hm). exists line.
    now rewrite pubKeyMatchesAuthorizedKey_spec.
Qed.

(** C5. For a client key whose wire marshaling is not empty, the key
    predicate holds exactly when the principal's key list is empty, or
    the client presented a key and one of the resolved lines has the key's
    type as first token and a second token that decodes to the key's wire
    marshaling; a list of exactly one [https://] URL resolves to the lines
    fetched from it, any other list to itself. *)
Theorem principalMatchesPubKey_iff (p : SSHPrincipal) (ci : sshConnInfo) :
  (forall key, pubKey ci = Some key -> Marshal key <> EmptyString) ->
  principalMatchesPubKey p ci = true <->
  PubKeys p = []
  \/ exists key keyLines,
       pubKey ci = Some key /\ spec_resolvedKeys p ci keyLines
       /\ exists line, In line keyLines /\ spec_keyLineMatches key line.
Proof.
  intros Hwire. unfold principalMatchesPubKey, spec_resolvedKeys.
  destruct (PubKeys p) as [|u [|u' us]] eqn:Hkeys.
  - split; auto.
  - destruct (pubKey ci) as [key|] eqn:Hkey.
    2:{ split; [discriminate|]. intros [[=]|(?&?&[=]&_)]. }
    specialize (Hwire key eq_refl).
    destruct (strings.HasPrefix u "https://") eqn:Hurl.
    + destruct (fetchPublicKeysURL ci) as [fetch|] eqn:Hfetch.
      2:{ split; [discriminate|].
          intros [[=]|(?&?&_&[(?&?&_&_&[=]&_)|[Hlit _]]&_)].
          specialize (Hlit u eq_refl). congruence. }
      destruct (fetch u) as [keyLines|e] eqn:Hres.
      * rewrite existsb_keyLine by assumption. split.
        -- intros Hm. right. exists key, keyLines. split; [reflexivity|].
           split; [|assumption]. left. exists u, fetch. auto.
        -- intros [[=]|(?&keyLines'&[= <-]&[(?&?&[= <-]&_&[= <-]&Hres')|[Hlit _]]&Hm)].
           ++ rewrite Hres in Hres'. injection Hres' as <-. assumption.
           ++ specialize (Hlit u eq_refl). congruence.
      * split; [discriminate|].
        intros [[=]|(?&?&_&[(?&?&[= <-]&_&[= <-]&Hres')|[Hlit _]]&_)].
        -- congruence.
        -- specialize (Hlit u eq_refl). congruence.
    + rewrite existsb_keyLine by assumption. split.
      * intros Hm. right. exists key, [u]. split; [reflexivity|].
        split; [|assumption]. right. split; [|reflexivity].
        intros ? [= <-]. assumption.
      * intros [[=]|(?&?&[= <-]&[(?&?&[= <-]&Hp&_)|[_ ->]]&Hm)].
        -- congruence.
        -- assumption.
  - destruct (pubKey ci) as [key|] eqn:Hkey.
    2:{ split; [discriminate|]. intros [[=]|(?&?&[=]&_)]. }
    specialize (Hwire key eq_refl).
    rewrite existsb_keyLine by assumption. split.
    + intros Hm. right. exists key, (u :: u' :: us). split; [reflexivity|].
      split; [|assumption]. right. split; [|reflexivity]. intros ? [=].
    + intros [[=]|(?&?&[= <-]&[(?&?&[=]&_)|[_ ->]]&Hm)]. assumption.
Qed.

(** C10. When the evaluation of the policy without a client key yields an
    action that accepts or holds, [requiresPubKey] returns false, whatever
    keys the rules' principals list. *)
Theorem requiresPubKey_false_when_none_accepted (srv : server)
    (sshUser : string) (localAddr remoteAddr : IPPort)
    (ci : option sshConnInfo) (a : SSHAction) (localUser : string) :
  evaluatePolicy srv sshUser localAddr remoteAddr None = (ci, Ok (a, localUser)) ->
  acceptOrHold a = true ->
  requiresPubKey srv sshUser localAddr remoteAddr = Some false.
Proof.
  intros Heval Ha. unfold requiresPubKey.
  destruct (sshPolicy srv) as [pol|]; [|reflexivity].
  rewrite Heval, Ha. reflexivity.
Qed.

End PolicyProperties.

(** ** Policy evaluation with the key fetcher's state *)

Section FetcherStateProperties.
Context `{Externals} {St : Type}.
Variable fetch : option (St -> string -> St * (list string * option error)).

(** One principal's key check makes one call of the fetcher at most, so
    its answer is the one of the matcher above on the fetcher's answers in
    the state of the call. *)
Lemma principalMatchesPubKey_st_answer (p : SSHPrincipal) (ci : sshConnInfo)
    (st : St) :
  snd (principalMatchesPubKey_st fetch p ci st)
  = principalMatchesPubKey p (answersIn fetch st ci).
Proof.
  unfold principalMatchesPubKey_st, principalMatchesPubKey. cbn [answersIn pubKey
    fetchPublicKeysURL].
  destruct (PubKeys p) as [|u [|u' us]]; [reflexivity| |];
    destruct (pubKey ci) as [key|]; try reflexivity.
  destruct (strings.HasPrefix u "https://"); [|reflexivity].
  destruct fetch as [f|]; [|reflexivity].
  destruct (f st u) as [st1 [pubKeys [err|]]]; reflexivity.
Qed.

(** Without a client key, or without a fetcher, the state is not
    touched. *)
Lemma principalMatchesPubKey_st_no_fetch (p : SSHPrincipal)
    (ci : sshConnInfo) (st : St) :
  pubKey ci = None \/ fetch = None ->
  fst (principalMatchesPubKey_st fetch p ci st) = st.
Proof.
  intros Hno. unfold principalMatchesPubKey_st.
  destruct (PubKeys p) as [|u [|u' us]]; [reflexivity| |];
    destruct (pubKey ci) as [key|]; try reflexivity.
  destruct (strings.HasPrefix u "https://"); [|reflexivity].
  destruct fetch as [f|]; [|reflexivity].
  now destruct Hno.
Qed.




(** Without a client key, or without a fetcher, the evaluation leaves the
    state as it is and gives what the matcher above gives. *)
Lemma evalSSHPolicy_st_no_fetch (pol : SSHPolicy) (ci : sshConnInfo)
    (st : St) :
  pubKey ci = None \/ fetch = None ->
  evalSSHPolicy_st fetch pol ci st
  = (st, evalSSHPolicy pol (answersIn fetch st ci)).
Proof.
  intros Hno.
  assert (forall ps,
             anyPrincipalMatches_st fetch ps ci st
             = (st, anyPrincipalMatches ps (answersIn fetch st ci))) as Hps.
  { induction ps as [|[p|] ps IH]; simpl; [reflexivity| |exact IH].
    unfold principalMatches_st, principalMatches.
    change (principalMatchesTailscaleIdentity p (answersIn fetch st ci))
      with (principalMatchesTailscaleIdentity p ci).
    destruct (principalMatchesTailscaleIdentity p ci); [|exact IH].
    pose proof (principalMatchesPubKey_st_no_fetch p ci st Hno) as Hst.
    pose proof (principalMatchesPubKey_st_answer p ci st) as Hans.
    destruct (principalMatchesPubKey_st fetch p ci st) as [st1 m].
    cbn in Hst, Hans. subst st1. rewrite <- Hans. cbn [andb].
    now destruct m. }
  assert (forall r,
             matchRule_st fetch r ci st
             = (st, matchRule r (answersIn fetch st ci))) as Hrule.
  { intros [r|]; [|reflexivity]. unfold matchRule_st, matchRule.
    destruct (Action r) as [a|]; [|reflexivity].
    change (ruleExpired (answersIn fetch st ci) r) with (ruleExpired ci r).
    destruct (ruleExpired ci r); [reflexivity|]. cbv zeta.
    change (sshUser (answersIn fetch st ci)) with (sshUser ci).
    match goal with
    | |- context [if ?c then (st, Err errUserMatch) else _] => destruct c
    end; [reflexivity|].
    rewrite Hps.
    now destruct (anyPrincipalMatches (Principals r) (answersIn fetch st ci)). }
  unfold evalSSHPolicy_st, evalSSHPolicy.
  induction (Rules pol) as [|r rules IH]; simpl; [reflexivity|].
  rewrite Hrule.
  now destruct (matchRule r (answersIn fetch st ci)).
Qed.





End FetcherStateProperties.

(** ** Action resolver *)

Section ResolverProperties.
Context `{Externals}.
Variable fetch : nat -> string -> result SSHAction.

Lemma resolveTerminalAction_returned fuel :
  forall n action out a',
    resolveTerminalAction fetch fuel n action = (out, Some (Ok a')) ->
    Accept a' = true \/ Reject a' = true.
Proof.
  induction fuel as [|fuel IH]; intros n action out a'; simpl; [discriminate|].
  destruct (Accept action || Reject action) eqn:Hterm.
  - intros [= _ <-]. now apply orb_true_iff.
  - destruct (String.eqb (HoldAndDelegate action) EmptyString); [discriminate|].
    destruct (fetch n _) as [action'|e]; [|discriminate].
    destruct (resolveTerminalAction fetch fuel (S n) action') as [out' r] eqn:Hrec.
    intros [= _ ->]. eapply IH, Hrec.
Qed.

Lemma resolveTerminalAction_lacked fuel n action :
  Accept action = false -> Reject action = false ->
  HoldAndDelegate action = EmptyString ->
  snd (resolveTerminalAction fetch (S fuel) n action) = Some (Err errLackedAll).
Proof.
  intros Ha Hr Hh. simpl. rewrite Ha, Hr, Hh. reflexivity.
Qed.

(** One iteration of the loop. *)
Lemma resolveTerminalAction_S fuel n action :
  resolveTerminalAction fetch (S fuel) n action =
    let out :=
      if negb (String.eqb (Message action) EmptyString)
      then [WriteStderr (strings.ReplaceLF (Message action))]
      else [] in
    if Accept action || Reject action then (out, Some (Ok action))
    else if String.eqb (HoldAndDelegate action) EmptyString
    then (out, Some (Err errLackedAll))
    else
      match fetch n (expandDelegateURL (HoldAndDelegate action)) with
      | Err err =>
          (out, Some (Err (errorWrap "fetching SSHAction from %s: %w" err)))
      | Ok action' =>
          (out ++ fst (resolveTerminalAction fetch fuel (S n) action'),
           snd (resolveTerminalAction fetch fuel (S n) action'))
      end.
Proof.
  cbn [resolveTerminalAction]. cbv zeta.
  destruct (Accept action || Reject action); [reflexivity|].
  destruct (String.eqb (HoldAndDelegate action) EmptyString); [reflexivity|].
  destruct (fetch n _); [|reflexivity].
  now destruct (resolveTerminalAction fetch fuel (S n) _).
Qed.

Lemma resolveTerminalAction_ends k :
  forall n action,
    (forall url, endsLoop (fetch (n + k)%nat url) = true) ->
    exists out r,
      resolveTerminalAction fetch (S (S k)) n action = (out, Some r).
Proof.
  induction k as [|k IH]; intros n action Hend;
    rewrite resolveTerminalAction_S; cbv zeta;
    (destruct (Accept action || Reject action); [eauto|]);
    (destruct (String.eqb (HoldAndDelegate action) EmptyString); [eauto|]);
    specialize (Hend (expandDelegateURL (HoldAndDelegate action))) as Hanswer;
    (destruct (fetch n _) as [action'|e] eqn:Hfetch; [|eauto]).
  - rewrite Nat.add_0_r, Hfetch in Hanswer. simpl in Hanswer.
    rewrite resolveTerminalAction_S. cbv zeta.
    destruct (Accept action' || Reject action'); [eauto|].
    simpl in Hanswer. rewrite Hanswer. eauto.
  - destruct (IH (S n) action') as (out' & r & Hrec).
    { intros url. rewrite Nat.add_succ_l, <- Nat.add_succ_r. apply Hend. }
    rewrite Hrec. eauto.
Qed.

(** C3. What [resolveTerminalAction] returns is an error or an action
    with [Accept] or [Reject] set, never an action that only holds and,
    the result being an action or an error, never neither; an action
    without [Accept], [Reject] and [HoldAndDelegate] gives an error; and
    the loop returns as soon as the control plane answers with an error or
    with an action that is not only a [HoldAndDelegate]. *)
Theorem resolveTerminalAction_terminal :
  (forall fuel n action out a',
      resolveTerminalAction fetch fuel n action = (out, Some (Ok a')) ->
      Accept a' = true \/ Reject a' = true)
  /\ (forall fuel n action,
        Accept action = false -> Reject action = false ->
        HoldAndDelegate action = EmptyString ->
        snd (resolveTerminalAction fetch (S fuel) n action)
        = Some (Err errLackedAll))
  /\ (forall k n action,
        (forall url, endsLoop (fetch (n + k)%nat url) = true) ->
        exists out r,
          resolveTerminalAction fetch (S (S k)) n action = (out, Some r)).
Proof.
  split; [|split].
  - intros fuel. apply resolveTerminalAction_returned.
  - intros fuel n action. apply resolveTerminalAction_lacked.
  - intros k. apply resolveTerminalAction_ends.
Qed.

End ResolverProperties.

(** ** Revalidation and the session runtime *)

Section SessionProperties.
Context `{Externals}.

(** When the check of [checkStillValid] fails for a session whose
    context is open and whose child has not been reaped, the context is
    closed with the user-visible cause and the watcher then writes
    CR LF CR LF, "Access revoked." and a line feed, CR LF CR LF to the
    client's stderr, and after that kills the child. *)
Lemma checkStillValid_revokes (srv : server) (ss : sshSession) :
  ctx_err (ctx ss) = None ->
  exitOnce ss = false ->
  stillValid srv ss = false ->
  let ss1 := snd (checkStillValid srv ss) in
  let '(evs, ss2) := killProcessOnContextDone ss1 in
  ctx_err (ctx ss1) = Some (userVisibleError accessRevoked context_Canceled)
  /\ evs = [WriteStderr (strings.CRLF ++ strings.CRLF ++ "Access revoked."
                         ++ String strings.LF EmptyString
                         ++ strings.CRLF ++ strings.CRLF)%string;
            Logf "terminating SSH session from %v: %v";
            Kill]
  /\ exitOnce ss2 = true.
Proof.
  intros Hopen Hnot Hfail.
  unfold checkStillValid. rewrite Hfail. cbn [snd].
  unfold killProcessOnContextDone, CloseWithError. rewrite Hopen.
  cbn. rewrite Hnot. cbn. auto.
Qed.

(** A session that passes the check is left alone: nothing is logged,
    the context stays as it is, and the watcher of an open context neither
    writes nor kills. *)
Lemma checkStillValid_keeps (srv : server) (ss : sshSession) :
  ctx_err (ctx ss) = None ->
  stillValid srv ss = true ->
  checkStillValid srv ss = ([], ss)
  /\ killProcessOnContextDone (snd (checkStillValid srv ss)) = ([], ss).
Proof.
  intros Hopen Hvalid. unfold checkStillValid. rewrite Hvalid. cbn [snd].
  unfold killProcessOnContextDone. now rewrite Hopen.
Qed.

(** The check asks [WhoIs] for the conn info's [dst] and never for its
    [src]: two servers that differ only in what [WhoIs] answers for other
    addresses than [dst] decide alike, whoever the caller at [src] is. *)
Lemma stillValid_asks_destination (srv : server) (ss : sshSession)
    (whoIs : IPPort -> option (tailcfg_Node * UserProfile)) :
  whoIs (dst (connInfo ss)) = WhoIs srv (dst (connInfo ss)) ->
  stillValid {| NetMap := NetMap srv; WhoIs := whoIs; timeNow := timeNow srv;
                srv_fetchPublicKeysURL := srv_fetchPublicKeysURL srv;
                debugPolicyFile := debugPolicyFile srv;
                debugIgnoreTailnetSSHPolicy := debugIgnoreTailnetSSHPolicy srv;
                readDebugPolicy := readDebugPolicy srv |} ss
  = stillValid srv ss.
Proof.
  intros Hdst. unfold stillValid, evaluatePolicy, sshPolicy. cbn.
  now rewrite Hdst.
Qed.

(** C8. When [run] gets as far as [cmd.Wait], the one exit status it
    publishes is 0 if [Wait] returned nil, the child's exit code if it
    returned an [ExitError], and 1 for another error. *)
Theorem run_publishes_exit_code (env : runEnv) (srv srv' : registry)
    (ss ss' : sshSession) (evs : list event) :
  run env srv ss = Done (srv', ss', evs) ->
  reachesWait env ss = true ->
  exitCodes evs =
    [match cmd_Wait env with
     | WaitNil => 0
     | WaitExitError code => code
     | WaitError _ => 1
     end].
Proof.
  unfold run, reachesWait. intros Hrun Hwait.
  apply andb_true_iff in Hwait as [Hwait Hlaunch].
  apply andb_true_iff in Hwait as [Huid Hrec].
  destruct (startSession srv ss) as [srv1|msg]; [|discriminate].
  assert (negb (euid env =? 0)
          && negb (String.eqb (Uid (localUser ss)) (pretty (euid env))) = false)
    as Huid'.
  { apply orb_true_iff in Huid as [->| ->]; [reflexivity | apply andb_false_r]. }
  assert (shouldRecord env && isErr (startNewRecording env) = false) as Hrec'.
  { apply orb_true_iff in Hrec as [Hr|Hr]; apply negb_true_iff in Hr;
      rewrite Hr; [reflexivity | apply andb_false_r]. }
  rewrite Huid', Hrec' in Hrun.
  apply negb_true_iff in Hlaunch.
  destruct (launchProcess env); [discriminate|].
  destruct (cmd_Wait env); injection Hrun as _ _ <-; reflexivity.
Qed.

(** [run] leaves the registry as one its callers can be in. *)
Lemma run_reachable (env : runEnv) (srv srv' : registry)
    (ss ss' : sshSession) (evs : list event) :
  reachable srv -> run env srv ss = Done (srv', ss', evs) -> reachable srv'.
Proof.
  unfold run. intros Hsrv Hrun.
  destruct (startSession srv ss) as [srv1|msg] eqn:Hstart; [|discriminate].
  assert (reachable srv1) as Hsrv1 by (eapply reachable_start; eassumption).
  assert (inByH srv1 ss /\ inBySharedID srv1 ss) as [HinH HinI].
  { unfold startSession in Hstart.
    destruct (String.eqb (idH ss) EmptyString); [discriminate|].
    destruct (String.eqb (sharedID ss) EmptyString); [discriminate|].
    destruct (activeSessionByH srv !! idH ss); [discriminate|].
    destruct (activeSessionBySharedID srv !! sharedID ss); [discriminate|].
    injection Hstart as <-. unfold inByH, inBySharedID. simpl.
    now rewrite !lookup_insert_eq. }
  match type of Hrun with
  | (let '(_, _) := ?body in _) = _ => destruct body as [evs1 ss1]
  end.
  injection Hrun as <- _ _. now apply reachable_end.
Qed.

End SessionProperties.

(** ** Session registry *)

Section RegistryProperties.
Context `{Externals}.

Lemma startSession_Done_iff (srv srv' : registry) (ss : sshSession) :
  startSession srv ss = Done srv' <->
  idH ss <> EmptyString /\ sharedID ss <> EmptyString
  /\ activeSessionByH srv !! idH ss = None
  /\ activeSessionBySharedID srv !! sharedID ss = None
  /\ srv' = {| activeSessionByH := <[idH ss := ss]> (activeSessionByH srv);
               activeSessionBySharedID :=
                 <[sharedID ss := ss]> (activeSessionBySharedID srv) |}.
Proof.
  unfold startSession.
  destruct (String.eqb_spec (idH ss) EmptyString) as [Hh|Hh].
  { split; [discriminate | intros [? _]; contradiction]. }
  destruct (String.eqb_spec (sharedID ss) EmptyString) as [Hi|Hi].
  { split; [discriminate | intros (_ & ? & _); contradiction]. }
  destruct (activeSessionByH srv !! idH ss) as [other|].
  { split; [discriminate | intros (_ & _ & [=] & _)]. }
  destruct (activeSessionBySharedID srv !! sharedID ss) as [other|].
  { split; [discriminate | intros (_ & _ & _ & [=] & _)]. }
  split.
  - intros [= <-]. auto.
  - intros (_ & _ & _ & _ & ->). reflexivity.
Qed.

Lemma startSession_Panic_iff (srv : registry) (ss : sshSession) :
  (exists msg, startSession srv ss = Panic msg) <->
  idH ss = EmptyString \/ sharedID ss = EmptyString
  \/ is_Some (activeSessionByH srv !! idH ss)
  \/ is_Some (activeSessionBySharedID srv !! sharedID ss).
Proof.
  unfold startSession.
  destruct (String.eqb_spec (idH ss) EmptyString) as [Hh|Hh].
  { split; eauto. }
  destruct (String.eqb_spec (sharedID ss) EmptyString) as [Hi|Hi].
  { split; eauto. }
  destruct (activeSessionByH srv !! idH ss) as [other|].
  { split; eauto 6. }
  destruct (activeSessionBySharedID srv !! sharedID ss) as [other|].
  { split; eauto 6. }
  split.
  - intros [msg [=]].
  - intros [?|[?|[[? [=]]|[? [=]]]]]; contradiction.
Qed.

Lemma indicesAgree_empty : indicesAgree emptyRegistry.
Proof.
  split; intros k ss; simpl; rewrite lookup_empty; discriminate.
Qed.

Lemma indicesAgree_start (srv srv' : registry) (ss : sshSession) :
  indicesAgree srv -> startSession srv ss = Done srv' -> indicesAgree srv'.
Proof.
  intros [HbyH HbyI] (_ & _ & HfreeH & HfreeI & ->)%startSession_Done_iff.
  unfold indicesAgree, inByH, inBySharedID. simpl. split.
  - intros h s. rewrite lookup_insert. case_decide as Hh.
    + intros [= <-]. split; [assumption|]. now rewrite lookup_insert_eq.
    + intros Hs. destruct (HbyH h s Hs) as [Hid Hin]. split; [assumption|].
      rewrite lookup_insert_ne; [exact Hin|].
      intros Heq. unfold inBySharedID in Hin. rewrite <- Heq in Hin. congruence.
  - intros i s. rewrite lookup_insert. case_decide as Hi.
    + intros [= <-]. split; [assumption|]. now rewrite lookup_insert_eq.
    + intros Hs. destruct (HbyI i s Hs) as [Hid Hin]. split; [assumption|].
      rewrite lookup_insert_ne; [exact Hin|].
      intros Heq. unfold inByH in Hin. rewrite <- Heq in Hin. congruence.
Qed.

Lemma indicesAgree_end (srv : registry) (ss : sshSession) :
  indicesAgree srv -> inByH srv ss -> inBySharedID srv ss ->
  indicesAgree (endSession srv ss).
Proof.
  intros [HbyH HbyI] HinH HinI.
  unfold indicesAgree, inByH, inBySharedID in *. simpl. split.
  - intros h s. rewrite lookup_delete. case_decide as Hh; [discriminate|].
    intros Hs. destruct (HbyH h s Hs) as [Hid Hin]. split; [assumption|].
    rewrite lookup_delete_ne; [exact Hin|].
    intros Heq. rewrite <- Heq in Hin. congruence.
  - intros i s. rewrite lookup_delete. case_decide as Hi; [discriminate|].
    intros Hs. destruct (HbyI i s Hs) as [Hid Hin]. split; [assumption|].
    rewrite lookup_delete_ne; [exact Hin|].
    intros Heq. rewrite <- Heq in Hin. congruence.
Qed.

Lemma reachable_indicesAgree (srv : registry) :
  reachable srv -> indicesAgree srv.
Proof.
  induction 1 as [|srv ss srv' _ IH Hstart|srv ss _ IH HinH HinI].
  - apply indicesAgree_empty.
  - eapply indicesAgree_start; eassumption.
  - now apply indicesAgree_end.
Qed.

Lemma endSession_twice (srv : registry) (ss : sshSession) :
  endSession (endSession srv ss) ss = endSession srv ss.
Proof.
  unfold endSession. simpl. f_equal; apply delete_delete_eq.
Qed.

(** C7. [startSession] panics exactly when one of the session's two IDs
    is empty or already in its index, and otherwise inserts the session
    under both IDs; in every registry reached by registering sessions and
    deregistering registered ones, a session is in the hash-ID index
    exactly when it is in the shared-ID index; [endSession] removes both
    IDs, and a second [endSession] of the same session changes nothing. *)
Theorem registry_both_or_neither :
  (forall srv ss,
      (exists msg, startSession srv ss = Panic msg) <->
      idH ss = EmptyString \/ sharedID ss = EmptyString
      \/ is_Some (activeSessionByH srv !! idH ss)
      \/ is_Some (activeSessionBySharedID srv !! sharedID ss))
  /\ (forall srv ss srv',
        startSession srv ss = Done srv' ->
        srv' = {| activeSessionByH := <[idH ss := ss]> (activeSessionByH srv);
                  activeSessionBySharedID :=
                    <[sharedID ss := ss]> (activeSessionBySharedID srv) |}
        /\ inByH srv' ss /\ inBySharedID srv' ss)
  /\ (forall srv, reachable srv -> forall ss, inByH srv ss <-> inBySharedID srv ss)
  /\ (forall srv ss,
        activeSessionByH (endSession srv ss) !! idH ss = None
        /\ activeSessionBySharedID (endSession srv ss) !! sharedID ss = None)
  /\ (forall srv ss, endSession (endSession srv ss) ss = endSession srv ss).
Proof.
  split; [exact startSession_Panic_iff|].
  split.
  { intros srv ss srv' (_ & _ & _ & _ & ->)%startSession_Done_iff.
    unfold inByH, inBySharedID. simpl. now rewrite !lookup_insert_eq. }
  split.
  { intros srv [HbyH HbyI]%reachable_indicesAgree ss. split.
    - intros Hin. now destruct (HbyH _ _ Hin).
    - intros Hin. now destruct (HbyI _ _ Hin). }
  split.
  { intros srv ss. simpl. now rewrite !lookup_delete_eq. }
  exact endSession_twice.
Qed.

End RegistryProperties.

(** ** Recording writer *)

Section RecordingProperties.
Variable json_Marshal : time.Duration -> string -> string -> result string.

Lemma recording_Close_closed (r : recording) :
  out (fst (recording_Close r)) = None.
Proof.
  unfold recording_Close. destruct (out r) eqn:Hout; [reflexivity | assumption].
Qed.

Lemma recording_Close_twice (r : recording) :
  recording_Close (fst (recording_Close r)) = (fst (recording_Close r), None).
Proof.
  unfold recording_Close at 1. now rewrite recording_Close_closed.
Qed.

(** After [Close], a write through the recording's writer hands nothing
    to the writer below it and reports zero bytes written. *)
Lemma loggingWriter_Write_closed {W} `{Writer W} (r : recording)
    (w : loggingWriter W) (since : time.Duration) (p : string) :
  out r = None ->
  fst (loggingWriter_Write json_Marshal r w since p) = (r, w)
  /\ fst (snd (loggingWriter_Write json_Marshal r w since p)) = 0.
Proof.
  intros Hclosed. unfold loggingWriter_Write, writeCastLine.
  destruct (json_Marshal since (lw_dir w) p); rewrite ?Hclosed; auto.
Qed.

(** While the file is open and can be written, the cast line goes to the
    file and the payload to the writer below. *)
Lemma loggingWriter_Write_open {W} `{Writer W} (r : recording)
    (w : loggingWriter W) (since : time.Duration) (p j data : string) :
  out r = Some {| fileData := data; fileErr := None |} ->
  json_Marshal since (lw_dir w) p = Ok j ->
  loggingWriter_Write json_Marshal r w since p =
    ({| start := start r;
        out := Some {| fileData := (data ++ j ++ String strings.LF EmptyString)%string;
                       fileErr := None |} |},
     {| lw_dir := lw_dir w; lw_w := fst (Write (lw_w w) p) |},
     snd (Write (lw_w w) p)).
Proof.
  intros Hopen Hj. unfold loggingWriter_Write, writeCastLine.
  rewrite Hj, Hopen. cbn. now destruct (Write (lw_w w) p).
Qed.

(** C2, where the code departs from it. Once the recording is closed,
    a write of any payload through its writer hands nothing to the writer
    below, which stays as it was, and reports zero bytes written; when the
    cast line could be encoded it reports no error either. *)
Theorem loggingWriter_Write_after_Close {W} `{Writer W} (r : recording)
    (w : loggingWriter W) (since : time.Duration) (p : string) :
  let closed := fst (recording_Close r) in
  let '(r', w', (n, err)) := loggingWriter_Write json_Marshal closed w since p in
  r' = closed /\ w' = w /\ n = 0
  /\ (is_Ok (json_Marshal since (lw_dir w) p) = true <-> err = None).
Proof.
  intros closed.
  pose proof (recording_Close_closed r) as Hclosed. fold closed in Hclosed.
  unfold loggingWriter_Write, writeCastLine. rewrite Hclosed.
  destruct (json_Marshal since (lw_dir w) p) as [j|e]; simpl.
  - repeat split; reflexivity.
  - repeat split; discriminate.
Qed.

End RecordingProperties.

(** ** Public-key cache *)

Section KeyCacheProperties.
Context `{Externals}.

Lemma cleanCache_lookup tooOld (m : gmap string pubKeyCacheEntry) k e :
  cleanCache tooOld m !! k = Some e <->
  m !! k = Some e /\ ~ at_ e < tooOld.
Proof.
  unfold cleanCache. rewrite map_lookup_filter_Some. simpl.
  unfold time.Before. now rewrite Z.ltb_nlt.
Qed.

Lemma cleanCache_all_old tooOld (m : gmap string pubKeyCacheEntry) :
  (forall k e, m !! k = Some e -> at_ e < tooOld) ->
  cleanCache tooOld m = ∅.
Proof.
  intros Hold. apply map_empty. intros k.
  destruct (cleanCache tooOld m !! k) as [e|] eqn:Hk; [|reflexivity].
  apply cleanCache_lookup in Hk as [Hk Hkeep]. now apply Hold in Hk.
Qed.

(** The lookup leaves the HTTP side of the server alone. *)
Lemma fetchPublicKeysURLCached_frame (srv : keyServer) (url : string) :
  let srv' := fst (fetchPublicKeysURLCached srv url) in
  timeNow_at srv' = timeNow_at srv /\ newRequestErr srv' = newRequestErr srv
  /\ pubKeyClient srv' = pubKeyClient srv /\ requests srv' = requests srv.
Proof.
  unfold fetchPublicKeysURLCached.
  destruct (50 <? Z.of_nat (size (fetchPublicKeysCache srv))); cbn;
    match goal with |- context [?m !! url] => destruct (m !! url) end;
    cbn; auto.
Qed.

Lemma fetchPublicKeysURLCached_small (srv : keyServer) (url : string) :
  Z.of_nat (size (fetchPublicKeysCache srv)) <= 50 ->
  fetchPublicKeysURLCached srv url =
    match fetchPublicKeysCache srv !! url with
    | None => (srv, (zeroEntry, false))
    | Some ce =>
        (snd (srv_now srv),
         (ce, time.Sub (timeNow_at srv (nowCalls srv)) (at_ ce)
              <? (if (length (lines ce) =? 0)%nat
                  then pubKeyCacheEmptyDuration else pubKeyCacheDuration)))
    end.
Proof.
  intros Hsmall. unfold fetchPublicKeysURLCached.
  apply Z.ltb_ge in Hsmall. rewrite Hsmall.
  destruct (fetchPublicKeysCache srv !! url); reflexivity.
Qed.

(** C9. A lookup that finds more than 50 entries computes its threshold
    as the clock's reading plus ten cache durations and keeps exactly the
    entries that are not before it; when no entry is stamped later than
    the clock reads, as for entries the server wrote itself, every entry is
    deleted, fresh or not, and the lookup misses. *)
Theorem fetchPublicKeysURLCached_cleans_all (srv : keyServer) (url : string) :
  50 < Z.of_nat (size (fetchPublicKeysCache srv)) ->
  let t := timeNow_at srv (nowCalls srv) in
  let tooOld := time.Add t (pubKeyCacheDuration * 10) in
  let srv' := fst (fetchPublicKeysURLCached srv url) in
  t < tooOld
  /\ (forall k e,
        fetchPublicKeysCache srv' !! k = Some e <->
        fetchPublicKeysCache srv !! k = Some e /\ ~ at_ e < tooOld)
  /\ ((forall k e, fetchPublicKeysCache srv !! k = Some e -> at_ e <= t) ->
      fetchPublicKeysCache srv' = ∅
      /\ snd (fetchPublicKeysURLCached srv url) = (zeroEntry, false)).
Proof.
  intros Hbig t tooOld srv'.
  assert (t < tooOld) as Hfuture.
  { subst tooOld. unfold time.Add, pubKeyCacheDuration, time.Minute, time.Second. lia. }
  assert (fetchPublicKeysCache srv' = cleanCache tooOld (fetchPublicKeysCache srv))
    as Hcache.
  { subst srv'. unfold fetchPublicKeysURLCached.
    apply Z.ltb_lt in Hbig. rewrite Hbig. cbn.
    match goal with |- context [?m !! url] => destruct (m !! url) end;
      reflexivity. }
  split; [assumption|]. split.
  - intros k e. rewrite Hcache. apply cleanCache_lookup.
  - intros Hstamps.
    assert (cleanCache tooOld (fetchPublicKeysCache srv) = ∅) as Hempty.
    { apply cleanCache_all_old. intros k e Hk. apply Hstamps in Hk. lia. }
    split; [now rewrite Hcache|].
    unfold fetchPublicKeysURLCached.
    apply Z.ltb_lt in Hbig. rewrite Hbig. cbn.
    fold t. fold tooOld. rewrite Hempty, lookup_empty. reflexivity.
Qed.

(** A status other than 200 and 304 gives an error, and an entry without
    lines, stamped with the clock's reading, is stored for the URL. *)
Lemma fetchPublicKeysURL_other_status (srv : keyServer) (url : string)
    (res : Response) :
  strings.HasPrefix url "https://" = true ->
  let '(srv1, (ce, ok)) := fetchPublicKeysURLCached srv url in
  ok = false ->
  newRequestErr srv url = None ->
  pubKeyClient srv (length (requests srv))
    {| req_url := url; req_IfNoneMatch := etag ce |} = Ok res ->
  StatusCode res <> 200 -> StatusCode res <> 304 ->
  let '(srv2, (keyLines, err)) := fetchPublicKeysURL_srv srv url in
  keyLines = [] /\ err <> None
  /\ fetchPublicKeysCache srv2 !! url
     = Some {| lines := []; etag := EmptyString;
               at_ := timeNow_at srv1 (nowCalls srv1) |}
  /\ requests srv2
     = {| req_url := url; req_IfNoneMatch := etag ce |} :: requests srv.
Proof.
  intros Hurl. unfold fetchPublicKeysURL_srv. rewrite Hurl. cbn [negb].
  pose proof (fetchPublicKeysURLCached_frame srv url) as Hframe.
  destruct (fetchPublicKeysURLCached srv url) as [srv1 [ce ok]].
  cbn in Hframe. destruct Hframe as (Hclock & Hnew & Hclient & Hreqs).
  intros -> Hnewreq Hdo H200 H304.
  rewrite Hnew, Hnewreq. unfold client_Do. rewrite Hclient, Hreqs, Hdo.
  apply Z.eqb_neq in H200, H304. rewrite H304, H200. cbn.
  rewrite lookup_insert_eq. repeat split. discriminate.
Qed.

(** With at most 50 entries in the cache, a URL whose entry is younger
    than its maximal age is answered from the cache, without a request. *)
Lemma fetchPublicKeysURL_cached (srv : keyServer) (url : string)
    (ce : pubKeyCacheEntry) :
  strings.HasPrefix url "https://" = true ->
  Z.of_nat (size (fetchPublicKeysCache srv)) <= 50 ->
  fetchPublicKeysCache srv !! url = Some ce ->
  time.Sub (timeNow_at srv (nowCalls srv)) (at_ ce)
  < (if (length (lines ce) =? 0)%nat
     then pubKeyCacheEmptyDuration else pubKeyCacheDuration) ->
  fetchPublicKeysURL_srv srv url = (snd (srv_now srv), (lines ce, None)).
Proof.
  intros Hurl Hsmall Hce Hage. unfold fetchPublicKeysURL_srv.
  rewrite Hurl, fetchPublicKeysURLCached_small, Hce by assumption.
  apply Z.ltb_lt in Hage. cbn [negb]. now rewrite Hage.
Qed.

End KeyCacheProperties.

(** ** More on the policy matcher *)

Section MatcherProperties.
Context `{Externals}.

Lemma Cut_found (before after : string) (sep : ascii) :
  containsByte before sep = false ->
  strings.Cut (before ++ String sep after)%string sep = (before, after, true).
Proof.
  induction before as [|c before IH]; simpl.
  - now rewrite Ascii.eqb_refl.
  - intros [Hc Hrest]%orb_false_iff. rewrite Hc, IH by assumption. reflexivity.
Qed.

Lemma Cut_not_found (s : string) (sep : ascii) :
  containsByte s sep = false ->
  strings.Cut s sep = (s, EmptyString, false).
Proof.
  induction s as [|c s IH]; simpl; [reflexivity|].
  intros [Hc Hrest]%orb_false_iff. rewrite Hc, IH by assumption. reflexivity.
Qed.

Lemma anyPrincipalMatches_true_iff ps ci :
  anyPrincipalMatches ps ci = true <->
  exists p, In (Some p) ps /\ principalMatches p ci = true.
Proof.
  induction ps as [|[p|] ps IH]; simpl.
  - split; [discriminate | intros (_ & [] & _)].
  - destruct (principalMatches p ci) eqn:Hp.
    + split; [|reflexivity]. intros _. exists p. auto.
    + rewrite IH. split.
      * intros (q & Hin & Hq). exists q. auto.
      * intros (q & [[= <-]|Hin] & Hq); [congruence|]. exists q. auto.
  - rewrite IH. split.
    + intros (q & Hin & Hq). exists q. auto.
    + intros (q & [[=]|Hin] & Hq). exists q. auto.
Qed.

(** X1. A rule matches, with action [a] and local user [lu], exactly
    when it is not nil, [a] is its action, it has not expired, [lu] is the
    non-empty local user its user map gives the requested user (or the
    empty string, for a rejecting rule whose user map is nil) and one of
    its principals that is not nil matches. *)
Theorem matchRule_Ok_iff (r : option SSHRule) (ci : sshConnInfo)
    (a : SSHAction) (lu : string) :
  matchRule r ci = Ok (a, lu) <->
  exists rule,
    r = Some rule /\ Action rule = Some a /\ ruleExpired ci rule = false
    /\ ((Reject a = true /\ SSHUsers rule = None /\ lu = EmptyString)
        \/ ((Reject a = false \/ SSHUsers rule <> None)
            /\ lu = mapLocalUser (SSHUsers rule) (sshUser ci)
            /\ lu <> EmptyString))
    /\ exists p, In (Some p) (Principals rule) /\ principalMatches p ci = true.
Proof.
  split.
  - unfold matchRule. destruct r as [rule|]; [|discriminate].
    destruct (Action rule) as [a'|] eqn:Hact; [|discriminate].
    destruct (ruleExpired ci rule) eqn:Hexp; [discriminate|]. cbv zeta.
    destruct (anyPrincipalMatches (Principals rule) ci) eqn:Hany.
    2:{ match goal with
        | |- context [if ?c then Err errUserMatch else _] => destruct c
        end; discriminate. }
    apply anyPrincipalMatches_true_iff in Hany.
    destruct (Reject a') eqn:Hrej, (SSHUsers rule) as [users|] eqn:Husers;
      cbn [negb orb andb].
    2:{ intros [= <- <-]. exists rule. repeat split; auto. }
    all: match goal with
         | |- context [mapLocalUser ?m ?u] =>
             destruct (String.eqb_spec (mapLocalUser m u) EmptyString)
               as [Hlu|Hlu]; [discriminate|]
         end.
    all: intros [= <- <-]; exists rule; repeat split; auto.
    all: right; repeat split; auto; try (now rewrite Husers).
    right. congruence.
  - intros (rule & -> & Hact & Hexp & Huser & Hp).
    apply anyPrincipalMatches_true_iff in Hp.
    unfold matchRule. rewrite Hact, Hexp, Hp. cbv zeta. cbn [negb].
    destruct Huser as [(Hrej & Hnil & ->)|(Hneed & -> & Hlu)].
    + rewrite Hrej, Hnil. reflexivity.
    + apply String.eqb_neq in Hlu.
      destruct Hneed as [Hrej|Hmap].
      * rewrite Hrej. cbn [negb orb andb]. rewrite Hlu. reflexivity.
      * destruct (SSHUsers rule); [|congruence].
        rewrite orb_true_r. cbn [andb]. rewrite Hlu. reflexivity.
Qed.

Lemma ruleExpired_false_iff ci rule :
  ruleExpired ci rule = false <->
  match RuleExpires rule with Some t => now ci <= t | None => True end.
Proof.
  unfold ruleExpired, time.Before. destruct (RuleExpires rule); [|tauto].
  apply Z.ltb_ge.
Qed.

(** X2. What [evalSSHPolicy] returns comes from a rule of the policy
    that is not nil, has this action and has not expired (its expiry, if
    any, is not before [now]); unless the action rejects, the local user
    is not empty and is the one the rule's user map gives. *)
Theorem evalSSHPolicy_sound (pol : SSHPolicy) (ci : sshConnInfo)
    (a : SSHAction) (lu : string) :
  evalSSHPolicy pol ci = Some (a, lu) ->
  exists rule,
    In (Some rule) (Rules pol) /\ Action rule = Some a
    /\ match RuleExpires rule with Some t => now ci <= t | None => True end
    /\ (Reject a = false ->
        lu <> EmptyString /\ lu = mapLocalUser (SSHUsers rule) (sshUser ci))
    /\ exists p, In (Some p) (Principals rule) /\ principalMatches p ci = true.
Proof.
  unfold evalSSHPolicy.
  intros (pre & r & post & Hrules & _ & Hr)%evalSSHPolicy_loop_Some.
  apply matchRule_Ok_iff in Hr as (rule & -> & Hact & Hexp & Huser & Hp).
  exists rule. split; [rewrite Hrules; apply in_elt|].
  split; [assumption|]. split; [now apply ruleExpired_false_iff|].
  split; [|assumption].
  intros Hrej. destruct Huser as [(Hr & _)|(_ & Hlu & Hne)]; [congruence|auto].
Qed.

(** X3. The user map: an entry for the requested user decides alone,
    also when it maps to the empty string; without one the entry for "*"
    decides; "=" stands for the requested user; a nil or empty map gives
    the empty string. *)
Theorem mapLocalUser_cases (req : string) :
  (forall m v, m !! req = Some v ->
     mapLocalUser (Some m) req = if String.eqb v "=" then req else v)
  /\ (forall m v, m !! req = None -> m !! "*"%string = Some v ->
        mapLocalUser (Some m) req = if String.eqb v "=" then req else v)
  /\ (forall m, m !! req = None -> m !! "*"%string = None ->
        mapLocalUser (Some m) req = EmptyString)
  /\ mapLocalUser None req = EmptyString.
Proof.
  unfold mapLocalUser, mapIndex. repeat split.
  - intros m v ->. reflexivity.
  - intros m v -> ->. reflexivity.
  - intros m -> ->. reflexivity.
Qed.

Lemma pubKeyMatchesAuthorizedKey_two_tokens key keyType b64 after :
  containsByte keyType strings.SP = false ->
  strings.Cut after strings.SP = (b64, EmptyString, false)
  \/ (exists rest, strings.Cut after strings.SP = (b64, rest, true)) ->
  pubKeyMatchesAuthorizedKey key (keyType ++ String strings.SP after)%string
  = String.eqb (Type_ key) keyType
    && (0 <? strings.len (DecodeString b64))
    && String.eqb (Marshal key) (DecodeString b64).
Proof.
  intros Hty Hcut. unfold pubKeyMatchesAuthorizedKey.
  rewrite Cut_found by assumption. cbn [negb].
  destruct (String.eqb (Type_ key) keyType); [|reflexivity]. cbn [negb andb].
  destruct Hcut as [-> | [rest ->]]; reflexivity.
Qed.

(** X4. The comment of an authorized-key line is ignored: a line of a
    key type, a space, the base64 text, a space and any further text
    matches a client key exactly when the line without the last space and
    that text does. *)
Theorem pubKeyMatchesAuthorizedKey_comment (key : PublicKey)
    (keyType b64 comment : string) :
  containsByte keyType strings.SP = false ->
  containsByte b64 strings.SP = false ->
  pubKeyMatchesAuthorizedKey key
    (keyType ++ String strings.SP (b64 ++ String strings.SP comment))%string
  = pubKeyMatchesAuthorizedKey key (keyType ++ String strings.SP b64)%string.
Proof.
  intros Hty Hb64.
  rewrite (pubKeyMatchesAuthorizedKey_two_tokens key keyType b64) by
    (try assumption; right; exists comment; now apply Cut_found).
  rewrite (pubKeyMatchesAuthorizedKey_two_tokens key keyType b64) by
    (try assumption; left; now apply Cut_not_found).
  reflexivity.
Qed.

End MatcherProperties.

(** ** More on the front door *)

Section FrontDoorProperties.
Context `{Externals}.

(** Two conn infos that differ at most in their key fetcher. *)
Let sameCaller (ci ci' : sshConnInfo) : Prop :=
  now ci = now ci' /\ sshUser ci = sshUser ci' /\ src ci = src ci'
  /\ node ci = node ci' /\ uprof ci = uprof ci' /\ pubKey ci = pubKey ci'.

Lemma principalMatches_no_key ci ci' p :
  sameCaller ci ci' -> pubKey ci = None ->
  principalMatches p ci = principalMatches p ci'.
Proof.
  intros (Hnow & Huser & Hsrc & Hnode & Huprof & Hkey) Hnone.
  unfold principalMatches, principalMatchesTailscaleIdentity,
    principalMatchesPubKey.
  rewrite <- Hsrc, <- Hnode, <- Huprof, <- Hkey, Hnone. reflexivity.
Qed.

Lemma matchRule_no_key ci ci' r :
  sameCaller ci ci' -> pubKey ci = None -> matchRule r ci = matchRule r ci'.
Proof.
  intros Hsame Hnone. unfold matchRule, ruleExpired.
  assert (forall ps, anyPrincipalMatches ps ci = anyPrincipalMatches ps ci')
    as Hany.
  { induction ps as [|[p|] ps IH]; simpl; [reflexivity| |assumption].
    now rewrite (principalMatches_no_key ci ci'), IH. }
  destruct Hsame as (Hnow & Huser & _).
  destruct r as [rule|]; [|reflexivity].
  now rewrite Hnow, Huser, Hany.
Qed.

Lemma evalSSHPolicy_no_key ci ci' pol :
  sameCaller ci ci' -> pubKey ci = None ->
  evalSSHPolicy pol ci = evalSSHPolicy pol ci'.
Proof.
  intros Hsame Hnone. unfold evalSSHPolicy.
  induction (Rules pol) as [|r rules IH]; simpl; [reflexivity|].
  now rewrite (matchRule_no_key ci ci'), IH.
Qed.

Lemma anyRuleWantsPubKey_sameCaller ci ci' rules u :
  sameCaller ci ci' ->
  anyRuleWantsPubKey rules ci u = anyRuleWantsPubKey rules ci' u.
Proof.
  intros (Hnow & Huser & Hsrc & Hnode & Huprof & Hkey).
  assert (forall ps, anyPrincipalWantsPubKey ps ci = anyPrincipalWantsPubKey ps ci')
    as Hany.
  { induction ps as [|[p|] ps IH]; simpl; [reflexivity| |reflexivity].
    unfold principalMatchesTailscaleIdentity.
    now rewrite <- Hsrc, <- Hnode, <- Huprof, IH. }
  induction rules as [|[rule|] rules IH]; simpl; [reflexivity| |reflexivity].
  unfold ruleExpired. now rewrite <- Hnow, Hany, IH.
Qed.

(** X5. Asking whether "none" authentication must be refused never
    depends on the key fetcher: [requiresPubKey] gives the same answer
    whatever [fetchPublicKeysURL] would return, since without a client key
    no key list is resolved. *)
Theorem requiresPubKey_ignores_key_fetcher (srv : server)
    (fetch : string -> result (list string))
    (sshUser : string) (localAddr remoteAddr : IPPort) :
  requiresPubKey (withKeyFetcher srv fetch) sshUser localAddr remoteAddr
  = requiresPubKey srv sshUser localAddr remoteAddr.
Proof.
  unfold requiresPubKey.
  change (sshPolicy (withKeyFetcher srv fetch)) with (sshPolicy srv).
  destruct (sshPolicy srv) as [pol|] eqn:Hpol; [|reflexivity].
  unfold evaluatePolicy.
  change (sshPolicy (withKeyFetcher srv fetch)) with (sshPolicy srv).
  rewrite Hpol. cbn [WhoIs timeNow srv_fetchPublicKeysURL withKeyFetcher].
  destruct (negb (IsTailscaleIP (IPPort_IP remoteAddr))); [reflexivity|].
  destruct (negb (IsTailscaleIP (IPPort_IP localAddr))); [reflexivity|].
  destruct (WhoIs srv remoteAddr) as [[n up]|]; [|reflexivity].
  match goal with
  | |- context [evalSSHPolicy pol ?c] =>
      match goal with
      | |- context [evalSSHPolicy pol ?c'] =>
          lazymatch c with
          | c' => fail
          | _ =>
              assert (sameCaller c c') as Hsame by (repeat split);
              rewrite (evalSSHPolicy_no_key c c' pol Hsame eq_refl);
              destruct (evalSSHPolicy pol c') as [[a lu]|];
              [ destruct (acceptOrHold a); [reflexivity|] | ];
              apply (anyRuleWantsPubKey_sameCaller c c'), Hsame
          end
      end
  end.
Qed.

(** X6. A connection whose remote or local address is not a mesh
    address is turned down before the policy's rules or the caller's
    identity are looked at: [evaluatePolicy] gives an error and no conn
    info, no key is accepted and none is required. *)
Theorem evaluatePolicy_non_mesh_address (srv : server) (sshUser : string)
    (localAddr remoteAddr : IPPort) (key : option PublicKey) :
  IsTailscaleIP (IPPort_IP remoteAddr) = false
  \/ IsTailscaleIP (IPPort_IP localAddr) = false ->
  (exists e, evaluatePolicy srv sshUser localAddr remoteAddr key = (None, Err e))
  /\ acceptPubKey srv sshUser localAddr remoteAddr key = false
  /\ requiresPubKey srv sshUser localAddr remoteAddr = Some false.
Proof.
  intros Haddr.
  assert (forall k, exists e,
             evaluatePolicy srv sshUser localAddr remoteAddr k = (None, Err e))
    as Heval.
  { intros k. unfold evaluatePolicy.
    destruct (sshPolicy srv); [|eauto].
    destruct (IsTailscaleIP (IPPort_IP remoteAddr)); cbn [negb]; [|eauto].
    destruct Haddr as [[=]| ->]. cbn [negb]. eauto. }
  split; [apply Heval|]. split.
  - unfold acceptPubKey. destruct (Heval key) as [e ->]. reflexivity.
  - unfold requiresPubKey. destruct (sshPolicy srv); [|reflexivity].
    destruct (Heval None) as [e ->]. reflexivity.
Qed.

Lemma anyPrincipalWantsPubKey_spec ci ps :
  Forall (fun p => p <> None) ps ->
  exists b, anyPrincipalWantsPubKey ps ci = Some b
    /\ (b = true <->
        exists p, In (Some p) ps
                  /\ principalMatchesTailscaleIdentity p ci = true
                  /\ PubKeys p <> []).
Proof.
  induction 1 as [|[p|] ps Hp _ IH]; simpl; [| |congruence].
  - exists false. split; [reflexivity|].
    split; [discriminate | intros (_ & [] & _)].
  - destruct (principalMatchesTailscaleIdentity p ci) eqn:Hid; cbn [andb].
    + destruct (PubKeys p) as [|k ks] eqn:Hkeys; cbn.
      * destruct IH as (b & -> & Hb). exists b. split; [reflexivity|].
        rewrite Hb. split.
        -- intros (q & Hin & Hq). exists q. auto.
        -- intros (q & [[= <-]|Hin] & Hq & Hne); [congruence|].
           exists q. auto.
      * exists true. split; [reflexivity|]. split; [|reflexivity].
        intros _. exists p. rewrite Hkeys. repeat split; auto; discriminate.
    + destruct IH as (b & -> & Hb). exists b. split; [reflexivity|].
      rewrite Hb. split.
      * intros (q & Hin & Hq). exists q. auto.
      * intros (q & [[= <-]|Hin] & Hq & Hne); [congruence|].
        exists q. auto.
Qed.

Lemma anyRuleWantsPubKey_spec ci u rules :
  noNilRules rules ->
  exists b, anyRuleWantsPubKey rules ci u = Some b
    /\ (b = true <->
        exists rule, In (Some rule) rules /\ ruleWantsPubKey ci u rule).
Proof.
  unfold noNilRules.
  induction 1 as [|[rule|] rules Hrule _ IH]; simpl; [| |contradiction].
  - exists false. split; [reflexivity|].
    split; [discriminate | intros (_ & [] & _)].
  - destruct IH as (b & Hrest & Hb).
    assert (b = true <->
            exists rule0, In (Some rule0) rules /\ ruleWantsPubKey ci u rule0)
      as Hb' by exact Hb.
    destruct (ruleExpired ci rule) eqn:Hexp.
    { exists b. split; [assumption|]. rewrite Hb'. split.
      - intros (q & Hin & Hq). exists q. auto.
      - intros (q & [[= <-]|Hin] & Hq); [|exists q; auto].
        destruct Hq as (Hq & _). congruence. }
    destruct (String.eqb_spec (mapLocalUser (SSHUsers rule) u) EmptyString)
      as [Hlu|Hlu].
    { exists b. split; [assumption|]. rewrite Hb'. split.
      - intros (q & Hin & Hq). exists q. auto.
      - intros (q & [[= <-]|Hin] & Hq); [|exists q; auto].
        destruct Hq as (_ & Hq & _). congruence. }
    destruct (anyPrincipalWantsPubKey_spec ci (Principals rule) Hrule)
      as (bp & -> & Hbp).
    destruct bp.
    + exists true. split; [reflexivity|]. split; [|reflexivity].
      intros _. exists rule. split; [now left|].
      repeat split; auto. now apply Hbp.
    + exists b. split; [assumption|]. rewrite Hb'. split.
      * intros (q & Hin & Hq). exists q. auto.
      * intros (q & [[= <-]|Hin] & Hq); [|exists q; auto].
        destruct Hq as (_ & _ & Hq). apply Hbp in Hq. discriminate.
Qed.

(** X7. For a policy without nil rules and principals, a key is
    required exactly when the evaluation without a key does not accept or
    hold, the caller's mesh identity was resolved, and some rule that has
    not expired and maps the requested user has a principal that matches
    that identity and lists keys. *)
Theorem requiresPubKey_true_iff (srv : server) (pol : SSHPolicy)
    (sshUser : string) (localAddr remoteAddr : IPPort) :
  sshPolicy srv = Some pol ->
  noNilRules (Rules pol) ->
  requiresPubKey srv sshUser localAddr remoteAddr = Some true <->
  acceptPubKey srv sshUser localAddr remoteAddr None = false
  /\ exists ci,
       fst (evaluatePolicy srv sshUser localAddr remoteAddr None) = Some ci
       /\ exists rule, In (Some rule) (Rules pol)
                       /\ ruleWantsPubKey ci sshUser rule.
Proof.
  intros Hpol Hnil. unfold requiresPubKey, acceptPubKey. rewrite Hpol.
  destruct (evaluatePolicy srv sshUser localAddr remoteAddr None) as [ci r].
  cbn [fst snd].
  destruct (match r with Ok (a, _) => acceptOrHold a | Err _ => false end)
    eqn:Haccept.
  { split; [discriminate|]. intros [Hno _].
    destruct r as [[a lu]|e]; congruence. }
  destruct ci as [ci|].
  2:{ split; [discriminate | intros (_ & ? & [=] & _)]. }
  destruct (anyRuleWantsPubKey_spec ci sshUser (Rules pol) Hnil)
    as (b & -> & Hb).
  split.
  - intros [= ->]. split.
    + reflexivity.
    + exists ci. split; [reflexivity|]. now apply Hb.
  - intros (_ & ci' & [= <-] & Hrule). f_equal. now apply Hb.
Qed.

Lemma anyRuleWantsPubKey_skip ci u pre post :
  noNilRules pre ->
  (forall rule, In (Some rule) pre -> ~ ruleWantsPubKey ci u rule) ->
  anyRuleWantsPubKey (pre ++ post) ci u = anyRuleWantsPubKey post ci u.
Proof.
  induction pre as [|r pre IH]; intros Hnil Hnone; [reflexivity|].
  inversion Hnil as [|? ? Hr Hpre]; subst.
  destruct (anyRuleWantsPubKey_spec ci u [r]) as (b & Hb & Hiff).
  { constructor; [assumption | constructor]. }
  assert (b = false) as ->.
  { destruct b; [|reflexivity]. exfalso.
    destruct (proj1 Hiff eq_refl) as (rule & [Heq|[]] & Hwants). subst r.
    apply (Hnone rule); [now left | assumption]. }
  specialize (IH Hpre (fun rule Hin => Hnone rule (or_intror Hin))).
  destruct r as [rule|]; [|contradiction]. simpl in Hb |- *.
  destruct (ruleExpired ci rule); [assumption|].
  destruct (String.eqb (mapLocalUser (SSHUsers rule) u) EmptyString);
    [assumption|].
  destruct (anyPrincipalWantsPubKey (Principals rule) ci) as [[|]|];
    [discriminate | assumption | discriminate].
Qed.

(** X8. A nil rule, which [evalSSHPolicy] passes over, makes
    [requiresPubKey] panic: when the evaluation without a key does not
    accept or hold and has resolved the caller, and no rule before the nil
    one asks for a key, the scan dereferences the nil rule. *)
Theorem requiresPubKey_nil_rule (srv : server) (pol : SSHPolicy)
    (sshUser : string) (localAddr remoteAddr : IPPort)
    (ci : sshConnInfo) (pre post : list (option SSHRule)) :
  sshPolicy srv = Some pol ->
  Rules pol = pre ++ None :: post ->
  noNilRules pre ->
  (forall rule, In (Some rule) pre -> ~ ruleWantsPubKey ci sshUser rule) ->
  fst (evaluatePolicy srv sshUser localAddr remoteAddr None) = Some ci ->
  acceptPubKey srv sshUser localAddr remoteAddr None = false ->
  requiresPubKey srv sshUser localAddr remoteAddr = None
  /\ matchRule None ci = Err errNilRule.
Proof.
  intros Hpol Hrules Hnil Hnone Hci Hno. split; [|reflexivity].
  unfold requiresPubKey, acceptPubKey in *. rewrite Hpol.
  destruct (evaluatePolicy srv sshUser localAddr remoteAddr None) as [ci' r].
  cbn [fst snd] in *. subst ci'.
  assert (match r with Ok (a, _) => acceptOrHold a | Err _ => false end = false)
    as -> by (destruct r as [[a lu]|e]; [assumption | reflexivity]).
  rewrite Hrules, anyRuleWantsPubKey_skip by assumption. reflexivity.
Qed.

End FrontDoorProperties.

(** ** Fetching the next action *)

Section ControlPlaneProperties.
Context `{Externals}.
Variable ctx_Err : nat -> option error.
Variable newRequest_err : option error.
Variable DoNoiseRequest : nat -> result noiseResponse.
Variable json_Decode : string -> result SSHAction.

Let fetchLoop := fetchSSHAction ctx_Err newRequest_err DoNoiseRequest json_Decode.
Let answer := answerOf DoNoiseRequest json_Decode.

Lemma fetchSSHAction_S fuel i :
  fetchLoop (S fuel) i =
    match ctx_Err i with
    | Some err => Some (Err err)
    | None =>
        match newRequest_err with
        | Some err => Some (Err err)
        | None =>
            match answer i with
            | Some a => Some (Ok a)
            | None => fetchLoop fuel (S i)
            end
        end
    end.
Proof.
  unfold fetchLoop, answer, answerOf. cbn [fetchSSHAction].
  destruct (ctx_Err i); [reflexivity|].
  destruct newRequest_err; [reflexivity|].
  destruct (DoNoiseRequest i) as [res|e]; [|reflexivity].
  destruct (noise_StatusCode res =? 200); [|reflexivity].
  now destruct (json_Decode (noise_Body res)).
Qed.

(** X9. [fetchSSHAction] returns an action exactly when some iteration
    gets a response with status 200 whose body decodes to it, no earlier
    iteration got such a response, the context was not done at the start
    of any iteration up to that one, and the request could be built:
    transport errors, other statuses and bodies that do not decode are
    retried. *)
Theorem fetchSSHAction_first_answer (fuel i : nat) (a : SSHAction) :
  fetchSSHAction ctx_Err newRequest_err DoNoiseRequest json_Decode fuel i
  = Some (Ok a) <->
  exists k,
    (k < fuel)%nat
    /\ answerOf DoNoiseRequest json_Decode (i + k) = Some a
    /\ (forall j, (j < k)%nat ->
                  answerOf DoNoiseRequest json_Decode (i + j) = None)
    /\ (forall j, (j <= k)%nat -> ctx_Err (i + j) = None)
    /\ newRequest_err = None.
Proof.
  fold fetchLoop. fold answer. revert i.
  induction fuel as [|fuel IH]; intros i.
  { split; [discriminate | intros (k & Hk & _); lia]. }
  rewrite fetchSSHAction_S. split.
  - destruct (ctx_Err i) eqn:Hctx; [discriminate|].
    destruct newRequest_err eqn:Hreq; [discriminate|].
    destruct (answer i) as [a'|] eqn:Hans.
    + intros [= <-]. exists 0%nat. rewrite Nat.add_0_r.
      repeat split; [lia | assumption | intros; lia |].
      intros j Hj. replace j with 0%nat by lia. now rewrite Nat.add_0_r.
    + intros (k & Hk & Hyes & Hno & Hopen & _)%IH.
      exists (S k). rewrite Nat.add_succ_r. repeat split;
        [lia | assumption | |].
      * intros [|j] Hj; [now rewrite Nat.add_0_r|].
        rewrite Nat.add_succ_r. apply Hno. lia.
      * intros [|j] Hj; [now rewrite Nat.add_0_r|].
        rewrite Nat.add_succ_r. apply Hopen. lia.
  - intros (k & Hk & Hyes & Hno & Hopen & ->).
    pose proof (Hopen 0%nat (Nat.le_0_l k)) as Hctx.
    rewrite Nat.add_0_r in Hctx. rewrite Hctx.
    destruct k as [|k].
    + rewrite Nat.add_0_r in Hyes. now rewrite Hyes.
    + pose proof (Hno 0%nat (Nat.lt_0_succ k)) as Hans.
      rewrite Nat.add_0_r in Hans. rewrite Hans.
      apply IH. exists k. rewrite Nat.add_succ_r in Hyes.
      repeat split; [lia | assumption | |].
      * intros j Hj. specialize (Hno (S j)). rewrite Nat.add_succ_r in Hno.
        apply Hno. lia.
      * intros j Hj. specialize (Hopen (S j)). rewrite Nat.add_succ_r in Hopen.
        apply Hopen. lia.
Qed.

(** X10. An error of [fetchSSHAction] is the context's error or the
    request builder's, never the one of a failed attempt; and once the
    context is done at the start of iteration [i + k], the loop started at
    [i] has returned within [k + 1] iterations. *)
Theorem fetchSSHAction_ends (i : nat) :
  (forall fuel e,
      fetchSSHAction ctx_Err newRequest_err DoNoiseRequest json_Decode fuel i
      = Some (Err e) ->
      newRequest_err = Some e \/ exists k, ctx_Err (i + k) = Some e)
  /\ (forall k,
        ctx_Err (i + k) <> None ->
        fetchSSHAction ctx_Err newRequest_err DoNoiseRequest json_Decode
          (S k) i <> None).
Proof.
  fold fetchLoop. split.
  - intros fuel. revert i. induction fuel as [|fuel IH]; intros i e;
      [discriminate|].
    rewrite fetchSSHAction_S.
    destruct (ctx_Err i) eqn:Hctx.
    { intros [= <-]. right. exists 0%nat. now rewrite Nat.add_0_r. }
    destruct newRequest_err; [intros [= <-]; now left|].
    destruct (answer i); [discriminate|].
    intros [Hreq|[k Hk]]%IH; [now left|]. right. exists (S k).
    now rewrite Nat.add_succ_r.
  - intros k. revert i. induction k as [|k IH]; intros i Hdone;
      rewrite fetchSSHAction_S.
    + rewrite Nat.add_0_r in Hdone.
      destruct (ctx_Err i); [discriminate | contradiction].
    + destruct (ctx_Err i); [discriminate|].
      destruct newRequest_err; [discriminate|].
      destruct (answer i); [discriminate|].
      apply IH. now rewrite Nat.add_succ_r in Hdone.
Qed.

End ControlPlaneProperties.

(** ** Handling a connection *)

Section HandleSSHProperties.
Context `{Externals}.
Variable user_Lookup : string -> result user_User.
Variable fetchAction : nat -> string -> result SSHAction.
Variable rand_Read : result string.
Variable fmt_sharedID : time.Time -> string -> string.

Lemma exitCodes_app (evs evs' : list event) :
  exitCodes (evs ++ evs') = exitCodes evs ++ exitCodes evs'.
Proof.
  induction evs as [|[] evs IH]; simpl; rewrite ?IH; reflexivity.
Qed.

Lemma resolveTerminalAction_no_exit fuel :
  forall n a, exitCodes (fst (resolveTerminalAction fetchAction fuel n a)) = [].
Proof.
  induction fuel as [|fuel IH]; intros n a; [reflexivity|].
  rewrite resolveTerminalAction_S. cbv zeta.
  assert (exitCodes
            (if negb (String.eqb (Message a) EmptyString)
             then [WriteStderr (strings.ReplaceLF (Message a))] else []) = [])
    as Hout by (now destruct (negb _)).
  destruct (Accept a || Reject a); [exact Hout|].
  destruct (String.eqb (HoldAndDelegate a) EmptyString); [exact Hout|].
  destruct (fetchAction n _); [|exact Hout].
  cbn [fst]. now rewrite exitCodes_app, Hout, IH.
Qed.

(** X11. [run] leaves the registry as it found it: when it returns, the
    session it registered is deregistered and no other entry has changed;
    and it publishes exactly one exit status, which is 1 whenever it did
    not get as far as [cmd.Wait]. *)
Theorem run_restores_registry (env : runEnv) (reg reg' : registry)
    (ss ss' : sshSession) (evs : list event) :
  run env reg ss = Done (reg', ss', evs) ->
  reg' = reg
  /\ exists code, exitCodes evs = [code]
                  /\ (reachesWait env ss = false -> code = 1).
Proof.
  unfold run, reachesWait. intros Hrun.
  destruct (startSession reg ss) as [reg1|msg] eqn:Hstart; [|discriminate].
  apply startSession_Done_iff in Hstart as (_ & _ & HfreeH & HfreeI & ->).
  match type of Hrun with
  | (let '(_, _) := ?body in _) = _ => destruct body as [evs1 ss1] eqn:Hbody
  end.
  injection Hrun as <- _ <-. split.
  - unfold endSession. cbn. rewrite !delete_insert_id by assumption.
    now destruct reg.
  - destruct (negb (euid env =? 0)
              && negb (String.eqb (Uid (localUser ss)) (pretty (euid env))))
      eqn:Huid.
    { injection Hbody as <- _. exists 1. split; [reflexivity|]. reflexivity. }
    destruct (shouldRecord env && isErr (startNewRecording env)) eqn:Hrec.
    { injection Hbody as <- _. exists 1. split; reflexivity. }
    destruct (launchProcess env) eqn:Hlaunch.
    { injection Hbody as <- _. exists 1. split; reflexivity. }
    assert ((euid env =? 0)
            || String.eqb (Uid (localUser ss)) (pretty (euid env)) = true)
      as -> by (destruct (euid env =? 0), (String.eqb _ _); auto).
    assert (negb (shouldRecord env) || negb (isErr (startNewRecording env))
            = true)
      as -> by (destruct (shouldRecord env), (isErr _); auto).
    cbn [isErr negb andb].
    destruct (cmd_Wait env); injection Hbody as <- _;
      eexists; (split; [reflexivity | discriminate]).
Qed.

(** X12. The child is killed at most once: a second run of the watcher
    does nothing, and after a [run] that got as far as [cmd.Wait] the
    watcher neither writes to the client nor kills. *)
Theorem killProcessOnContextDone_once (ss : sshSession) :
  killProcessOnContextDone (snd (killProcessOnContextDone ss))
  = ([], snd (killProcessOnContextDone ss))
  /\ forall env reg reg' ss' evs,
       run env reg ss = Done (reg', ss', evs) ->
       reachesWait env ss = true ->
       killProcessOnContextDone ss' = ([], ss').
Proof.
  split.
  - unfold killProcessOnContextDone.
    destruct (ctx_err (ctx ss)) as [err|] eqn:Hctx; cbn [snd].
    + destruct (exitOnce ss) eqn:Honce; cbn [snd].
      * now rewrite Hctx, Honce.
      * cbn. now rewrite Hctx.
    + now rewrite Hctx.
  - unfold run, reachesWait. intros env reg reg' ss' evs Hrun Hwait.
    apply andb_true_iff in Hwait as [Hwait Hlaunch].
    apply andb_true_iff in Hwait as [Huid Hrec].
    destruct (startSession reg ss) as [reg1|msg]; [|discriminate].
    assert (negb (euid env =? 0)
            && negb (String.eqb (Uid (localUser ss)) (pretty (euid env)))
            = false) as Huid'
      by (destruct (euid env =? 0), (String.eqb _ _); auto).
    assert (shouldRecord env && isErr (startNewRecording env) = false) as Hrec'
      by (destruct (shouldRecord env), (isErr _); auto).
    rewrite Huid', Hrec' in Hrun.
    destruct (launchProcess env); [discriminate|].
    unfold killProcessOnContextDone.
    destruct (cmd_Wait env); injection Hrun as _ <- _; cbn;
      now destruct (ctx_err (CloseWithError (ctx ss) errSessionDone)).
Qed.

(** The local user that the policy gives with an action that does not
    reject is never empty. *)
Lemma evaluatePolicy_local_user srv u l r key ci a lu :
  evaluatePolicy srv u l r key = (ci, Ok (a, lu)) ->
  ci <> None /\ (Reject a = false -> lu <> EmptyString).
Proof.
  unfold evaluatePolicy.
  destruct (sshPolicy srv) as [pol|]; [|discriminate].
  destruct (negb (IsTailscaleIP (IPPort_IP r))); [discriminate|].
  destruct (negb (IsTailscaleIP (IPPort_IP l))); [discriminate|].
  destruct (WhoIs srv r) as [[n up]|]; [|discriminate].
  destruct (evalSSHPolicy pol _) as [[a' lu']|] eqn:Heval; [|discriminate].
  intros [= <- <- <-]. split; [discriminate|].
  apply evalSSHPolicy_sound in Heval as (rule & _ & _ & _ & Hlu & _).
  intros Hrej. now apply Hlu.
Qed.

Lemma run_keeps_session (env : runEnv) (reg reg' : registry)
    (ss ss' : sshSession) (evs : list event) :
  run env reg ss = Done (reg', ss', evs) ->
  idH ss' = idH ss /\ sharedID ss' = sharedID ss /\ action ss' = action ss
  /\ localUser ss' = localUser ss /\ connInfo ss' = connInfo ss.
Proof.
  unfold run. intros Hrun.
  destruct (startSession reg ss) as [reg1|msg]; [|discriminate].
  match type of Hrun with
  | (let '(_, _) := ?body in _) = _ => destruct body as [evs1 ss1] eqn:Hbody
  end.
  injection Hrun as _ <- _.
  assert (ss1 = ss \/ ss1 = set_exitOnce ss true) as [-> | ->];
    [|now repeat split..].
  destruct (_ && _) in Hbody; [injection Hbody as _ <-; now left|].
  destruct (_ && _) in Hbody; [injection Hbody as _ <-; now left|].
  destruct (launchProcess env); [injection Hbody as _ <-; now left|].
  destruct (cmd_Wait env); injection Hbody as _ <-; now right.
Qed.

(** X13. [handleSSH] never dereferences a nil local user or conn info:
    it panics only in [newSSHSession], when [rand.Read] fails or the
    session's context is no [ssh.Context], and in [startSession] for the
    session made from that context's ID and the random bytes. A session
    whose policy gave no local user has an action that rejects, which ends
    the handler before the local user is read. *)
Theorem handleSSH_panics_only_in_session_setup (srv : server)
    (reg : registry) (env : runEnv) (fuel : nat) (s : sshRequest)
    (msg : string) :
  handleSSH user_Lookup fetchAction rand_Read fmt_sharedID srv reg env fuel s
  = Some (Panic msg) ->
  (exists e, rand_Read = Err e)
  \/ s_Context s = None
  \/ exists ss b,
       s_Context s = Some (idH ss) /\ rand_Read = Ok b
       /\ sharedID ss = fmt_sharedID (now (connInfo ss)) b
       /\ startSession reg ss = Panic msg.
Proof.
  unfold handleSSH.
  destruct (evaluatePolicy srv _ _ _ _) as [ci [[a lu]|e]] eqn:Heval.
  2:{ destruct ci; discriminate. }
  apply evaluatePolicy_local_user in Heval as [Hci Hlu].
  destruct ci as [ci|]; [|contradiction]. cbv zeta.
  destruct (String.eqb_spec lu EmptyString) as [->|Hne]; cbn [negb].
  - unfold newSSHSession.
    destruct rand_Read as [b|e] eqn:Hrand; [|eauto].
    destruct (s_Context s) as [id|] eqn:Hctx; [|auto].
    assert (Reject a = true) as Hrej
      by (destruct (Reject a); [reflexivity | now destruct Hlu]).
    unfold onlyHolds. rewrite Hrej, orb_true_r. cbn [negb andb].
    destruct fuel as [|fuel']; [discriminate|].
    rewrite resolveTerminalAction_S. cbv zeta.
    rewrite Hrej, orb_true_r. simpl. rewrite Hrej. discriminate.
  - destruct (user_Lookup lu) as [u|e]; [|discriminate].
    unfold newSSHSession.
    destruct rand_Read as [b|e] eqn:Hrand; [|eauto].
    destruct (s_Context s) as [id|] eqn:Hctx; [|auto].
    rewrite andb_false_r.
    destruct (resolveTerminalAction fetchAction fuel 0 a)
      as [out [[a'|e]|]]; [|discriminate..].
    destruct (Reject a' || negb (Accept a')); [discriminate|].
    match goal with
    | |- context [run env reg ?ss0] =>
        intros Hrun; right; right; exists ss0, b;
        repeat split; unfold run in Hrun;
        destruct (startSession reg ss0) as [reg1|msg'] eqn:Hstart
    end.
    + match type of Hrun with
      | context [let '(_, _) := ?body in _] => destruct body
      end. discriminate.
    + now injection Hrun as <-.
Qed.

(** X14. When [handleSSH] returns, it has published exactly one exit
    status and the registry is as before; the status is 1 unless the
    session was run, and a session is run only with an action that has
    [Accept] set and [Reject] not set. *)
Theorem handleSSH_one_exit_status (srv : server) (reg reg' : registry)
    (env : runEnv) (fuel : nat) (s : sshRequest)
    (evs : list event) (ran : option sshSession) :
  handleSSH user_Lookup fetchAction rand_Read fmt_sharedID srv reg env fuel s
  = Some (Done (reg', evs, ran)) ->
  reg' = reg
  /\ (exists code, exitCodes evs = [code] /\ (ran = None -> code = 1))
  /\ (forall ss', ran = Some ss' ->
        exists a, action ss' = Some a /\ Accept a = true /\ Reject a = false).
Proof.
  unfold handleSSH.
  destruct (evaluatePolicy srv _ _ _ _) as [ci [[a lu]|e]] eqn:Heval.
  2:{ destruct ci; intros [= <- <- <-];
        (repeat split; [eexists; split; reflexivity | discriminate]). }
  destruct ci as [ci|]; [|discriminate]. cbv zeta.
  match goal with
  | |- context [if ?c then match user_Lookup lu with _ => _ end else _] =>
      destruct c
  end.
  1: destruct (user_Lookup lu) as [u|e'].
  2:{ intros [= <- <- <-]. repeat split; [eexists; split; reflexivity|].
      discriminate. }
  all: destruct (newSSHSession rand_Read fmt_sharedID s ci)
         as [[id newID]|msg0]; [|discriminate].
  all: match goal with
       | |- context [if ?c then Some (Panic _) else _] => destruct c
       end; [discriminate|].
  all: pose proof (resolveTerminalAction_no_exit fuel 0%nat a) as Hout.
  all: destruct (resolveTerminalAction fetchAction fuel 0 a)
         as [out [[a'|e']|]]; cbn [fst] in Hout; [| |discriminate].
  all: try (intros [= <- <- <-]; repeat split;
            [ eexists; split;
              [ cbn [app exitCodes]; rewrite exitCodes_app, Hout; reflexivity
              | reflexivity ]
            | discriminate ]).
  all: destruct (Reject a' || negb (Accept a')) eqn:Hdeny.
  all: try (intros [= <- <- <-]; repeat split;
            [ eexists; split;
              [ cbn [app exitCodes]; rewrite exitCodes_app, Hout; reflexivity
              | reflexivity ]
            | discriminate ]).
  2: discriminate.
  match goal with
  | |- context [run env reg ?ss0] =>
      destruct (run env reg ss0) as [[[reg1 ss1] evs1]|msg'] eqn:Hrun;
        [|discriminate]
  end.
  intros [= <- <- <-].
  pose proof (run_restores_registry _ _ _ _ _ _ Hrun) as (-> & code & Hcode & _).
  pose proof (run_keeps_session _ _ _ _ _ _ Hrun) as (_ & _ & Hact & _).
  apply orb_false_iff in Hdeny as [Hrej Hacc]. apply negb_false_iff in Hacc.
  repeat split.
  - exists code. split; [|discriminate].
    cbn [app exitCodes]. rewrite !exitCodes_app, Hout. exact Hcode.
  - intros ss' [= <-]. exists a'. now rewrite Hact.
Qed.

(** X15. Local port forwarding is allowed for a context exactly as the
    action of the session registered under its ID says: it is refused for
    an ID that is not registered, in particular after [endSession], and
    registering or deregistering another session does not change it. *)
Theorem mayForwardLocalPortTo_registry (reg : registry) (ss : sshSession) :
  mayForwardLocalPortTo emptyRegistry (idH ss) = Done false
  /\ mayForwardLocalPortTo (endSession reg ss) (idH ss) = Done false
  /\ (forall reg' a,
        startSession reg ss = Done reg' -> action ss = Some a ->
        mayForwardLocalPortTo reg' (idH ss)
        = Done (AllowLocalPortForwarding a))
  /\ (forall reg' id,
        id <> idH ss ->
        (startSession reg ss = Done reg' ->
         mayForwardLocalPortTo reg' id = mayForwardLocalPortTo reg id)
        /\ mayForwardLocalPortTo (endSession reg ss) id
           = mayForwardLocalPortTo reg id).
Proof.
  unfold mayForwardLocalPortTo, getSessionForContext. repeat split.
  - cbn. now rewrite lookup_delete_eq.
  - intros reg' a (_ & _ & _ & _ & ->)%startSession_Done_iff Hact.
    cbn. now rewrite lookup_insert_eq, Hact.
  - intros (_ & _ & _ & _ & ->)%startSession_Done_iff.
    cbn. now rewrite lookup_insert_ne by congruence.
  - cbn. now rewrite lookup_delete_ne by congruence.
Qed.

End HandleSSHProperties.

(** ** Setting up a session *)

Section SessionSetupProperties.
Context `{Externals}.
Variable filepath_Dir : string -> string.
Variable filepath_Join : string -> string -> string.
Variable json_Marshal_header : Z -> Z -> Z -> string -> result string.

(** An entry of the environment that is not of the form [key=value]. *)
Let notFor (key kv : string) : Prop :=
  let '(thisKey, _, ok) := strings.Cut kv "="%char in
  ok = false \/ thisKey <> key.

Lemma envValFromList_skip (key : string) (pre env : list string) :
  Forall (notFor key) pre ->
  envValFromList (pre ++ env) key = envValFromList env key.
Proof.
  induction 1 as [|kv pre Hkv _ IH]; [reflexivity|]. simpl.
  unfold notFor in Hkv.
  destruct (strings.Cut kv "="%char) as [[thisKey v] ok].
  destruct Hkv as [-> | Hne]; [exact IH|].
  unfold envEq. apply String.eqb_neq in Hne. rewrite Hne, andb_false_r.
  exact IH.
Qed.

(** X16. [envValFromList] gives the value of the first entry [key=value]
    for the wanted key, whatever follows it and whatever the value holds,
    an "=" included; entries without "=" and entries for other keys are
    passed over, and without an entry for the key the result is empty. *)
Theorem envValFromList_first (key : string) :
  (forall env, Forall (fun kv =>
                         let '(thisKey, _, ok) := strings.Cut kv "="%char in
                         ok = false \/ thisKey <> key) env ->
               envValFromList env key = EmptyString)
  /\ (forall pre v post,
        containsByte key "="%char = false ->
        Forall (fun kv =>
                  let '(thisKey, _, ok) := strings.Cut kv "="%char in
                  ok = false \/ thisKey <> key) pre ->
        envValFromList (pre ++ (key ++ String "="%char v)%string :: post) key
        = v).
Proof.
  split.
  - intros env Henv.
    rewrite <- (app_nil_r env). now rewrite (envValFromList_skip key env []).
  - intros pre v post Hkey Hpre.
    rewrite (envValFromList_skip key pre) by exact Hpre. simpl.
    rewrite Cut_found by assumption. unfold envEq.
    now rewrite String.eqb_refl.
Qed.

(** X17. [startNewRecording] returns a recording only with a var root:
    the recording starts now and its open file holds the header line,
    made from the window, the time in seconds and the client's TERM (or
    "xterm-256color"), and a line feed; the directory was made with mode
    0700 before the file. On every error after the file was made the file
    is closed, and without a var root nothing is touched. *)
Theorem startNewRecording_os_result (env : recordingEnv) :
  let '(evs, r) :=
    startNewRecording_os filepath_Join json_Marshal_header env in
  let dir := filepath_Join (TailscaleVarRoot env) "ssh-sessions" in
  let window := match Pty_Window env with Some w => w | None => (0, 0) end in
  match r with
  | Ok rec =>
      TailscaleVarRoot env <> EmptyString
      /\ (exists j,
            json_Marshal_header (fst window) (snd window)
              (time_Now env / time.Second) (recordingTerm env) = Ok j
            /\ rec = {| start := time_Now env;
                        out := Some {| fileData :=
                                         (j ++ String strings.LF EmptyString)%string;
                                       fileErr := None |} |})
      /\ evs = [MkdirAll dir 448;
                TempFile dir ("ssh-session-" ++ pretty (time_Now env)
                              ++ "-*.cast")%string]
  | Err _ =>
      (TailscaleVarRoot env = EmptyString -> evs = [])
      /\ (forall d pattern,
            In (TempFile d pattern) evs -> TempFile_err env = None ->
            last evs = Some FileClose)
  end.
Proof.
  unfold startNewRecording_os.
  destruct (Pty_Window env) as [[width height]|]; cbv zeta;
    (destruct (String.eqb_spec (TailscaleVarRoot env) EmptyString) as [Hroot|Hroot];
     [ split; [reflexivity | intros ? ? []] |]);
    (destruct (MkdirAll_err env);
     [ split; [contradiction | intros ? ? [[=]|[]]] |]);
    (destruct (TempFile_err env);
     [ split; [contradiction | intros ? ? _ [=]] |]);
    (match goal with
     | |- context [json_Marshal_header ?w ?h ?t ?term] =>
         destruct (json_Marshal_header w h t term) as [j|e] eqn:Hj
     end;
     [| split; [contradiction | intros ? ? _ _; cbn; auto] ]);
    unfold Write, File_Writer; cbn [fileErr fileData];
    (destruct (Write_err env);
     [ split; [contradiction | intros ? ? _ _; cbn; auto] |]);
    (split; [assumption|]); (split; [|reflexivity]);
    exists j; split; [assumption | reflexivity | assumption | reflexivity].
Qed.

Lemma parseDigits_nonneg (s : string) :
  forall acc n, 0 <= acc -> parseDigits s acc = Some n -> 0 <= n.
Proof.
  induction s as [|c s IH]; simpl; intros acc n Hacc.
  - intros [= <-]. assumption.
  - destruct ((48 <=? Z.of_nat (nat_of_ascii c))
              && (Z.of_nat (nat_of_ascii c) <=? 57)) eqn:Hd; [|discriminate].
    apply andb_true_iff in Hd as [Hlo _]. apply Z.leb_le in Hlo.
    apply IH. lia.
Qed.

Lemma ParseUint32_range (s : string) (n : Z) :
  ParseUint32 s = Ok n -> 0 <= n < 2 ^ 32.
Proof.
  unfold ParseUint32. destruct s as [|c s]; [discriminate|].
  destruct (parseDigits (String c s) 0) as [m|] eqn:Hm; [|discriminate].
  destruct (m <? 2 ^ 32) eqn:Hlt; [|discriminate].
  intros [= <-]. apply Z.ltb_lt in Hlt.
  split; [|assumption]. eapply parseDigits_nonneg; [|exact Hm]. lia.
Qed.

(** X18. Agent forwarding is set up only when the client asked for it
    and the action allows it, and a listener is assigned to the session
    only when every step succeeded: then the socket was given to the
    user's uid and gid, both below 2^32, its directory was set to mode
    0755, in this order, and the forwarding was started. Otherwise no
    forwarding is started. *)
Theorem handleSSHAgentForwarding_assigned (env : agentEnv)
    (ss : sshSession) (lu : user_User) (evs : list osEvent)
    (ln : option string) (err : option error) :
  handleSSHAgentForwarding filepath_Dir env ss lu = Done (evs, ln, err) ->
  (forall socket,
      ln = Some socket ->
      err = None /\ AgentRequested env = true
      /\ (exists a, action ss = Some a /\ AllowAgentForwarding a = true)
      /\ NewAgentListener env = Ok socket
      /\ exists uid gid,
           ParseUint32 (Uid lu) = Ok uid /\ ParseUint32 (Gid lu) = Ok gid
           /\ 0 <= uid < 2 ^ 32 /\ 0 <= gid < 2 ^ 32
           /\ evs = [AgentListen socket; Chown socket uid gid;
                     Chmod (filepath_Dir socket) 493;
                     ForwardAgentConnections])
  /\ (ln = None -> ~ In ForwardAgentConnections evs)
  /\ (AgentRequested env = false
      \/ (exists a, action ss = Some a /\ AllowAgentForwarding a = false) ->
      evs = [] /\ ln = None /\ err = None).
Proof.
  clear filepath_Join json_Marshal_header.
  unfold handleSSHAgentForwarding.
  assert (forall evs0 err0,
             ~ In ForwardAgentConnections evs0 ->
             (AgentRequested env = false
              \/ (exists a, action ss = Some a /\ AllowAgentForwarding a = false) ->
              evs0 = [] /\ err0 = None) ->
             Done (evs0, @None string, err0) = Done (evs, ln, err) ->
             (forall socket,
                 ln = Some socket ->
                 err = None /\ AgentRequested env = true
                 /\ (exists a, action ss = Some a /\ AllowAgentForwarding a = true)
                 /\ NewAgentListener env = Ok socket
                 /\ exists uid gid,
                      ParseUint32 (Uid lu) = Ok uid /\ ParseUint32 (Gid lu) = Ok gid
                      /\ 0 <= uid < 2 ^ 32 /\ 0 <= gid < 2 ^ 32
                      /\ evs = [AgentListen socket; Chown socket uid gid;
                                Chmod (filepath_Dir socket) 493;
                                ForwardAgentConnections])
             /\ (ln = None -> ~ In ForwardAgentConnections evs)
             /\ (AgentRequested env = false
                 \/ (exists a, action ss = Some a /\ AllowAgentForwarding a = false) ->
                 evs = [] /\ ln = None /\ err = None)) as Hearly.
  { intros evs0 err0 Hnofwd Hoff [= <- <- <-].
    split; [discriminate|]. split; [auto|].
    intros Hcase. destruct (Hoff Hcase) as [-> ->]. auto. }
  destruct (action ss) as [a|] eqn:Hact.
  2:{ destruct (AgentRequested env) eqn:Hreq; [discriminate|].
      apply Hearly; [intros [] | auto]. }
  destruct (AgentRequested env) eqn:Hreq, (AllowAgentForwarding a) eqn:Hallow;
    cbn [negb orb].
  2-4: apply Hearly; [intros [] | auto].
  assert (true = false
          \/ (exists a0, Some a = Some a0 /\ AllowAgentForwarding a0 = false) ->
          False) as Hon.
  { intros [[=]|(a' & [= <-] & Hno)]. congruence. }
  destruct (NewAgentListener env) as [socket|e] eqn:Hln.
  2:{ apply Hearly; [intros [] | intros []%Hon]. }
  destruct (ParseUint32 (Uid lu)) as [uid|e] eqn:Huid.
  2:{ apply Hearly; [cbn; intuition discriminate | intros []%Hon]. }
  destruct (ParseUint32 (Gid lu)) as [gid|e] eqn:Hgid.
  2:{ apply Hearly; [cbn; intuition discriminate | intros []%Hon]. }
  destruct (Chown_err env).
  { apply Hearly; [cbn; intuition discriminate | intros []%Hon]. }
  destruct (Chmod_err env).
  { apply Hearly; [cbn; intuition discriminate | intros []%Hon]. }
  intros [= <- <- <-]. split; [|split].
  - intros ? [= <-]. repeat split; eauto.
    exists uid, gid. pose proof (ParseUint32_range _ _ Huid).
    pose proof (ParseUint32_range _ _ Hgid). repeat split; auto; lia.
  - discriminate.
  - intros []%Hon.
Qed.

(** X19. When [handleSSHAgentForwarding] fails after the listener was
    made, the listener is closed exactly when the uid or the gid of the
    user could not be parsed; after a failed chown or chmod the error is
    returned with the listener still open and not assigned. *)
Theorem handleSSHAgentForwarding_failed_listener (env : agentEnv)
    (ss : sshSession) (lu : user_User) (evs : list osEvent)
    (ln : option string) (e : error) (socket : string) :
  handleSSHAgentForwarding filepath_Dir env ss lu = Done (evs, ln, Some e) ->
  In (AgentListen socket) evs ->
  ln = None
  /\ (In ListenerClose evs <->
      ~ (exists uid gid, ParseUint32 (Uid lu) = Ok uid
                         /\ ParseUint32 (Gid lu) = Ok gid)).
Proof.
  unfold handleSSHAgentForwarding.
  destruct (action ss) as [a|].
  2:{ destruct (AgentRequested env); discriminate. }
  destruct (negb (AgentRequested env) || negb (AllowAgentForwarding a));
    [discriminate|].
  destruct (NewAgentListener env) as [sock|e0]; [|intros [= <- <- <-] []].
  destruct (ParseUint32 (Uid lu)) as [uid|e0].
  2:{ intros [= <- <- <-] _. split; [reflexivity|]. split.
      - intros _ (? & ? & [=] & _).
      - intros _. cbn. auto. }
  destruct (ParseUint32 (Gid lu)) as [gid|e0].
  2:{ intros [= <- <- <-] _. split; [reflexivity|]. split.
      - intros _ (? & ? & _ & [=]).
      - intros _. cbn. auto. }
  destruct (Chown_err env).
  { intros [= <- <- <-] _. split; [reflexivity|]. split.
    - intros [[=]|[[=]|[]]].
    - intros Hno. exfalso. apply Hno. eauto. }
  destruct (Chmod_err env); [|discriminate].
  intros [= <- <- <-] _. split; [reflexivity|]. split.
  - intros [[=]|[[=]|[[=]|[]]]].
  - intros Hno. exfalso. apply Hno. eauto.
Qed.

End SessionSetupProperties.

(** ** More on the recording writer *)

Section RecordingMoreProperties.
Variable json_Marshal : time.Duration -> string -> string -> result string.

(** X20. [Close] is idempotent: after a [Close] the recording is closed,
    and a further [Close] returns nil and leaves it as it is. *)
Theorem recording_Close_idempotent (r : recording) :
  let closed := fst (recording_Close r) in
  out closed = None /\ start closed = start r
  /\ recording_Close closed = (closed, None).
Proof.
  cbv zeta. split; [apply recording_Close_closed|]. split.
  - unfold recording_Close. now destruct (out r).
  - apply recording_Close_twice.
Qed.

(** X21. A write through the recording's writer hands the payload to
    the writer below exactly when the cast line reached the file: then
    the file has grown by the line and a line feed, and the write returns
    what the writer below returned; in every other case the writer below
    and the file's content are as before and zero bytes are reported. *)
Theorem loggingWriter_Write_forwards_iff {W} `{Writer W} (r : recording)
    (w : loggingWriter W) (since : time.Duration) (p : string) :
  let '(r', w', res) := loggingWriter_Write json_Marshal r w since p in
  if castLineWritten r (json_Marshal since (lw_dir w) p) then
    (exists j data,
        json_Marshal since (lw_dir w) p = Ok j
        /\ out r = Some {| fileData := data; fileErr := None |}
        /\ out r' = Some {| fileData :=
                              (data ++ j ++ String strings.LF EmptyString)%string;
                            fileErr := None |})
    /\ lw_w w' = fst (Write (lw_w w) p) /\ res = snd (Write (lw_w w) p)
  else
    w' = w /\ fst res = 0
    /\ (fileData <$> out r') = (fileData <$> out r).
Proof.
  unfold loggingWriter_Write, writeCastLine, castLineWritten.
  destruct (json_Marshal since (lw_dir w) p) as [j|e]; [|now cbn].
  destruct (out r) as [[data [ferr|]]|] eqn:Hout; cbn.
  - auto.
  - destruct (Write (lw_w w) p) as [w1 res1]. cbn.
    split; [|now split]. exists j, data. auto.
  - rewrite Hout. auto.
Qed.

End RecordingMoreProperties.

(** ** More on the public-key cache *)

Section KeyCacheMoreProperties.
Context `{Externals}.

Lemma fetchPublicKeysURLCached_cache (srv : keyServer) (url : string) :
  fetchPublicKeysCache (fst (fetchPublicKeysURLCached srv url)) =
    if 50 <? Z.of_nat (size (fetchPublicKeysCache srv))
    then cleanCache
           (time.Add (timeNow_at srv (nowCalls srv)) (pubKeyCacheDuration * 10))
           (fetchPublicKeysCache srv)
    else fetchPublicKeysCache srv.
Proof.
  unfold fetchPublicKeysURLCached.
  destruct (50 <? Z.of_nat (size (fetchPublicKeysCache srv))); cbn;
    match goal with |- context [?m !! url] => destruct (m !! url) end;
    reflexivity.
Qed.

(** The entry the lookup returns is the one in the cache after it. *)
Lemma fetchPublicKeysURLCached_entry (srv : keyServer) (url : string) :
  let '(srv1, (ce, ok)) := fetchPublicKeysURLCached srv url in
  match fetchPublicKeysCache srv1 !! url with
  | Some e => ce = e
  | None => ce = zeroEntry /\ ok = false
  end.
Proof.
  unfold fetchPublicKeysURLCached.
  destruct (50 <? Z.of_nat (size (fetchPublicKeysCache srv))); cbn;
    match goal with |- context [?m !! url] => destruct (m !! url) eqn:Hm end;
    cbn; rewrite ?Hm; auto.
Qed.

(** X22. A call of [fetchPublicKeysURL] sends at most one request, and
    sends it only for a URL that starts with "https://" and has no fresh
    entry: a GET of that URL whose [If-None-Match] is the etag of the
    entry the lookup found, none when there is no entry. *)
Theorem fetchPublicKeysURL_one_request (srv : keyServer) (url : string) :
  let srv' := fst (fetchPublicKeysURL_srv srv url) in
  let '(ce, ok) := snd (fetchPublicKeysURLCached srv url) in
  requests srv' = requests srv
  \/ (strings.HasPrefix url "https://" = true /\ ok = false
      /\ requests srv'
         = {| req_url := url; req_IfNoneMatch := etag ce |} :: requests srv).
Proof.
  unfold fetchPublicKeysURL_srv.
  pose proof (fetchPublicKeysURLCached_frame srv url) as Hframe.
  destruct (fetchPublicKeysURLCached srv url) as [srv1 [ce ok]].
  cbn in Hframe. destruct Hframe as (_ & _ & _ & Hreqs). cbn [snd].
  destruct (strings.HasPrefix url "https://"); cbn [negb]; [|now left].
  destruct ok; [now left|].
  destruct (newRequestErr srv1 url); [now left|].
  unfold client_Do.
  destruct (pubKeyClient srv1 _ _) as [res|e]; cbn.
  - right. rewrite <- Hreqs.
    destruct (StatusCode res =? 304); [auto|].
    destruct (StatusCode res =? 200); [|auto].
    destruct (readBody res). auto.
  - right. rewrite <- Hreqs. auto.
Qed.

Lemma substring_0_length (n : nat) (s : string) :
  String.length (String.substring 0 n s) = Nat.min n (String.length s).
Proof.
  revert n. induction s as [|c s IH]; intros [|n]; simpl; auto.
Qed.

Lemma substring_0_prefix (n : nat) (s : string) :
  String.prefix (String.substring 0 n s) s = true.
Proof.
  revert n. induction s as [|c s IH]; intros [|n]; simpl; auto.
  destruct (ascii_dec c c); [apply IH | contradiction].
Qed.

Lemma prefix_refl (s : string) : String.prefix s s = true.
Proof.
  induction s as [|c s IH]; simpl; [reflexivity|].
  destruct (ascii_dec c c); [apply IH | contradiction].
Qed.

Lemma readBody_bounds (res : Response) :
  strings.len (fst (readBody res)) <= 4096
  /\ String.prefix (fst (readBody res)) (Body res) = true
  /\ (4096 <= strings.len (Body res) ->
      strings.len (fst (readBody res)) = 4096 /\ snd (readBody res) = None).
Proof.
  unfold readBody, strings.len.
  destruct (Z.ltb_spec (Z.of_nat (String.length (Body res))) 4096) as [Hlt|Hge];
    cbn [fst snd].
  - split; [lia|]. split; [apply prefix_refl | lia].
  - change (Z.to_nat 4096) with 4096%nat.
    rewrite substring_0_length. split; [lia|].
    split; [apply substring_0_prefix|]. intros _. split; [lia | reflexivity].
Qed.

(** The three ways a response is turned into lines, an etag and an
    error. *)
Lemma fetchPublicKeysURL_response (srv : keyServer) (url : string)
    (res : Response) :
  strings.HasPrefix url "https://" = true ->
  let '(srv1, (ce, ok)) := fetchPublicKeysURLCached srv url in
  ok = false ->
  newRequestErr srv url = None ->
  pubKeyClient srv (length (requests srv))
    {| req_url := url; req_IfNoneMatch := etag ce |} = Ok res ->
  let '(keyLines, tag, err) :=
    if StatusCode res =? 304 then (lines ce, etag ce, None)
    else if StatusCode res =? 200 then
      (if negb (String.eqb (TrimSpace (fst (readBody res))) EmptyString)
       then strings.Split (TrimSpace (fst (readBody res))) strings.LF else [],
       Header_Etag res, snd (readBody res))
    else ([], EmptyString,
          Some (errorString ("unexpected status " ++ Status res)%string)) in
  fetchPublicKeysURL_srv srv url =
    (set_cache
       (snd (srv_now (snd (client_Do srv1
                             {| req_url := url; req_IfNoneMatch := etag ce |}))))
       (<[url := {| lines := keyLines; etag := tag;
                    at_ := timeNow_at srv1 (nowCalls srv1) |}]>
          (fetchPublicKeysCache srv1)),
     (keyLines, err)).
Proof.
  intros Hurl. unfold fetchPublicKeysURL_srv. rewrite Hurl. cbn [negb].
  pose proof (fetchPublicKeysURLCached_frame srv url) as Hframe.
  destruct (fetchPublicKeysURLCached srv url) as [srv1 [ce ok]].
  cbn in Hframe. destruct Hframe as (Hclock & Hnew & Hclient & Hreqs).
  intros -> Hnewreq Hdo.
  rewrite Hnew, Hnewreq. unfold client_Do. rewrite Hclient, Hreqs, Hdo.
  destruct (StatusCode res =? 304); [reflexivity|].
  destruct (StatusCode res =? 200); [|reflexivity].
  now destruct (readBody res).
Qed.

(** X23. On a 304 the lines and the etag of the entry the lookup found
    are kept, returned without error and stored again with the clock's
    reading as their time. *)
Theorem fetchPublicKeysURL_not_modified (srv : keyServer) (url : string)
    (res : Response) :
  strings.HasPrefix url "https://" = true ->
  StatusCode res = 304 ->
  let '(srv1, (ce, ok)) := fetchPublicKeysURLCached srv url in
  ok = false ->
  newRequestErr srv url = None ->
  pubKeyClient srv (length (requests srv))
    {| req_url := url; req_IfNoneMatch := etag ce |} = Ok res ->
  let '(srv2, r) := fetchPublicKeysURL_srv srv url in
  r = (lines ce, None)
  /\ fetchPublicKeysCache srv2 !! url
     = Some {| lines := lines ce; etag := etag ce;
               at_ := timeNow_at srv1 (nowCalls srv1) |}.
Proof.
  intros Hurl H304.
  pose proof (fetchPublicKeysURL_response srv url res Hurl) as Hres.
  destruct (fetchPublicKeysURLCached srv url) as [srv1 [ce ok]].
  intros Hok Hnew Hdo. specialize (Hres Hok Hnew Hdo).
  rewrite H304 in Hres. cbn in Hres. rewrite Hres. cbn.
  now rewrite lookup_insert_eq.
Qed.

(** X24. On a 200 at most the first 4096 bytes of the body are read: the
    lines returned and stored are the lines of that text without the
    white space around it, none if nothing is left, together with the
    response's Etag; a longer body is cut, not refused. *)
Theorem fetchPublicKeysURL_ok (srv : keyServer) (url : string)
    (res : Response) :
  strings.HasPrefix url "https://" = true ->
  StatusCode res = 200 ->
  let '(srv1, (ce, ok)) := fetchPublicKeysURLCached srv url in
  ok = false ->
  newRequestErr srv url = None ->
  pubKeyClient srv (length (requests srv))
    {| req_url := url; req_IfNoneMatch := etag ce |} = Ok res ->
  let '(srv2, (keyLines, err)) := fetchPublicKeysURL_srv srv url in
  exists text,
    String.prefix text (Body res) = true /\ strings.len text <= 4096
    /\ (4096 <= strings.len (Body res) ->
        strings.len text = 4096 /\ err = None)
    /\ keyLines = (if String.eqb (TrimSpace text) EmptyString then []
                   else strings.Split (TrimSpace text) strings.LF)
    /\ fetchPublicKeysCache srv2 !! url
       = Some {| lines := keyLines; etag := Header_Etag res;
                 at_ := timeNow_at srv1 (nowCalls srv1) |}.
Proof.
  intros Hurl H200.
  pose proof (fetchPublicKeysURL_response srv url res Hurl) as Hres.
  destruct (fetchPublicKeysURLCached srv url) as [srv1 [ce ok]].
  intros Hok Hnew Hdo. specialize (Hres Hok Hnew Hdo).
  rewrite H200 in Hres. cbn in Hres. rewrite Hres.
  destruct (readBody_bounds res) as (Hlen & Hpre & Hcut).
  exists (fst (readBody res)). repeat split; try assumption.
  - now apply Hcut.
  - now apply Hcut.
  - now destruct (String.eqb (TrimSpace (fst (readBody res))) EmptyString).
  - cbn. now rewrite lookup_insert_eq.
Qed.

(** X25. When the request fails in transport, the error is returned
    with no lines and nothing is stored: the cache is as the lookup left
    it, so the next call asks again. *)
Theorem fetchPublicKeysURL_transport_error (srv : keyServer) (url : string)
    (e : error) :
  strings.HasPrefix url "https://" = true ->
  let '(srv1, (ce, ok)) := fetchPublicKeysURLCached srv url in
  ok = false ->
  newRequestErr srv url = None ->
  pubKeyClient srv (length (requests srv))
    {| req_url := url; req_IfNoneMatch := etag ce |} = Err e ->
  let '(srv2, r) := fetchPublicKeysURL_srv srv url in
  r = ([], Some e)
  /\ fetchPublicKeysCache srv2 = fetchPublicKeysCache srv1
  /\ (Z.of_nat (size (fetchPublicKeysCache srv)) <= 50 ->
      fetchPublicKeysCache srv2 = fetchPublicKeysCache srv).
Proof.
  intros Hurl. unfold fetchPublicKeysURL_srv. rewrite Hurl. cbn [negb].
  pose proof (fetchPublicKeysURLCached_frame srv url) as Hframe.
  pose proof (fetchPublicKeysURLCached_cache srv url) as Hcache.
  destruct (fetchPublicKeysURLCached srv url) as [srv1 [ce ok]].
  cbn in Hframe, Hcache. destruct Hframe as (Hclock & Hnew & Hclient & Hreqs).
  intros -> Hnewreq Hdo.
  rewrite Hnew, Hnewreq. unfold client_Do. rewrite Hclient, Hreqs, Hdo. cbn.
  repeat split. intros Hsmall%Z.ltb_ge. now rewrite Hsmall in Hcache.
Qed.

(** X26. A call for one URL never adds or changes the entry of another
    URL: such an entry after the call was there before, unchanged; and
    while the cache holds at most 50 entries none is removed either. *)
Theorem fetchPublicKeysURL_other_entries (srv : keyServer) (url k : string) :
  k <> url ->
  let srv' := fst (fetchPublicKeysURL_srv srv url) in
  (forall e, fetchPublicKeysCache srv' !! k = Some e ->
             fetchPublicKeysCache srv !! k = Some e)
  /\ (Z.of_nat (size (fetchPublicKeysCache srv)) <= 50 ->
      fetchPublicKeysCache srv' !! k = fetchPublicKeysCache srv !! k).
Proof.
  intros Hne. cbv zeta.
  assert (fetchPublicKeysCache (fst (fetchPublicKeysURL_srv srv url)) !! k
          = fetchPublicKeysCache (fst (fetchPublicKeysURLCached srv url)) !! k
          \/ fetchPublicKeysCache (fst (fetchPublicKeysURL_srv srv url))
             = fetchPublicKeysCache srv) as Hstep.
  { unfold fetchPublicKeysURL_srv.
    destruct (strings.HasPrefix url "https://"); cbn [negb]; [|now right].
    destruct (fetchPublicKeysURLCached srv url) as [srv1 [ce ok]]. cbn [fst].
    destruct ok; [now left|].
    destruct (newRequestErr srv1 url); [now left|].
    unfold client_Do.
    destruct (pubKeyClient srv1 _ _) as [res|e]; [|now left]. left.
    destruct (StatusCode res =? 304); [cbn; now rewrite lookup_insert_ne|].
    destruct (StatusCode res =? 200); [|cbn; now rewrite lookup_insert_ne].
    destruct (readBody res). cbn. now rewrite lookup_insert_ne. }
  rewrite fetchPublicKeysURLCached_cache in Hstep.
  destruct Hstep as [Hstep|Hstep]; rewrite Hstep; [|auto].
  destruct (Z.ltb_spec 50 (Z.of_nat (size (fetchPublicKeysCache srv))))
    as [Hbig|Hsmall].
  - split; [|lia]. intros e He. now apply cleanCache_lookup in He.
  - auto.
Qed.

(** X27. When [fetchPublicKeysURL] returns no error, the lines it
    returns are the lines of the entry that the cache then holds for the
    URL. *)
Theorem fetchPublicKeysURL_returns_cached (srv srv' : keyServer)
    (url : string) (keyLines : list string) :
  fetchPublicKeysURL_srv srv url = (srv', (keyLines, None)) ->
  exists e, fetchPublicKeysCache srv' !! url = Some e /\ lines e = keyLines.
Proof.
  unfold fetchPublicKeysURL_srv.
  destruct (strings.HasPrefix url "https://"); cbn [negb]; [|discriminate].
  pose proof (fetchPublicKeysURLCached_entry srv url) as Hentry.
  destruct (fetchPublicKeysURLCached srv url) as [srv1 [ce ok]].
  destruct ok.
  { intros [= <- <-].
    destruct (fetchPublicKeysCache srv1 !! url) as [e|];
      [subst; eauto | now destruct Hentry]. }
  destruct (newRequestErr srv1 url); [discriminate|].
  unfold client_Do.
  destruct (pubKeyClient srv1 _ _) as [res|e]; [|discriminate].
  destruct (StatusCode res =? 304).
  { cbn. intros [= <- <-]. cbn. rewrite lookup_insert_eq. eauto. }
  destruct (StatusCode res =? 200); [|discriminate].
  destruct (readBody res) as [text err]. cbn.
  intros [= <- <- ->]. cbn. rewrite lookup_insert_eq. eauto.
Qed.

End KeyCacheMoreProperties.

(** ** tlsdial *)

Section TlsdialProperties.
Variable Certificate : Type.
Variable Verify : Certificate -> tlsdial.VerifyOptions Certificate -> option error.
Variable ParseCertificate : string -> result Certificate.

(** X28. [Config] ends the process exactly when SSLKEYLOGFILE is set
    and that file cannot be opened, with the error of opening it. When it
    does not, it panics exactly when the base skips verification or has a
    [VerifyConnection] hook, and returns exactly when the base does
    neither. What it returns names the host, skips the library's own
    verification and has the package's hook in its place, keeps the base's
    [VerifyPeerCertificate], and writes the keys to the file when
    SSLKEYLOGFILE is set; so [Config] panics on a configuration that it
    returned itself. *)
Theorem Config_result (sslKeyLogFile : string) (OpenFile_err : option error)
    (host host' : string) (base : option (tlsdial.Config_ Certificate)) :
  let conf := match base with
              | None => tlsdial.zeroConfig Certificate
              | Some b => b
              end in
  let result :=
    tlsdial.Config Certificate Verify sslKeyLogFile OpenFile_err host base in
  let cannotLog := sslKeyLogFile <> EmptyString /\ OpenFile_err <> None in
  let refused := tlsdial.InsecureSkipVerify _ conf = true
                 \/ tlsdial.VerifyConnection _ conf <> None in
  (forall err,
      result = tlsdial.Fatal _ err <->
      sslKeyLogFile <> EmptyString /\ OpenFile_err = Some err)
  /\ ((exists err, result = tlsdial.Fatal _ err) <-> cannotLog)
  /\ ((exists msg, result = tlsdial.Panicked _ msg) <->
      ~ cannotLog /\ refused)
  /\ ((exists c, result = tlsdial.Returned _ c) <->
      ~ cannotLog /\ ~ refused)
  /\ (forall c,
        result = tlsdial.Returned _ c ->
        tlsdial.ServerName _ c = host
        /\ tlsdial.InsecureSkipVerify _ c = true
        /\ tlsdial.VerifyConnection _ c
           = Some (tlsdial.configVerifyConnection Certificate Verify)
        /\ tlsdial.VerifyPeerCertificate _ c
           = tlsdial.VerifyPeerCertificate _ conf
        /\ tlsdial.KeyLogWriter _ c
           = (if String.eqb sslKeyLogFile EmptyString
              then tlsdial.KeyLogWriter _ conf else Some sslKeyLogFile)
        /\ tlsdial.Config Certificate Verify EmptyString None host' (Some c)
           = tlsdial.Panicked _ "unexpected base.InsecureSkipVerify").
Proof.
  cbv zeta. unfold tlsdial.Config.
  destruct (String.eqb_spec sslKeyLogFile EmptyString) as [Hlog|Hlog];
    cbn [negb].
  2: destruct OpenFile_err as [err0|].
  all: destruct (tlsdial.InsecureSkipVerify _ _) eqn:Hskip.
  all: destruct (tlsdial.VerifyConnection _ _) eqn:Hhook.
  all: repeat split; intros.
  all: repeat match goal with
              | Hex : exists _, _ |- _ => destruct Hex
              | Hand : _ /\ _ |- _ => destruct Hand
              end.
  all: try discriminate.
  all: try congruence.
  all: try (now eauto).
  all: try (left; reflexivity).
  all: try (right; discriminate).
  all: try match goal with
           | Heq : tlsdial.Returned _ _ = tlsdial.Returned _ _ |- _ =>
               injection Heq as <-; cbn; try reflexivity
           end.
  all: try (intros [? ?]; congruence).
  all: try (intros [?|?]; congruence).
  all: exfalso;
    match goal with
    | Hn : ~ (_ /\ _) |- _ => apply Hn; split; [assumption | discriminate]
    | Hn : ~ (_ \/ _) |- _ =>
        apply Hn; first [left; reflexivity | right; discriminate]
    | Hor : _ \/ _ |- _ => destruct Hor; congruence
    end.
Qed.

(** X29. The hook of [Config] accepts a connection exactly when its
    first certificate verifies, for the connection's server name and with
    the other certificates as intermediates, against the system's roots
    or, failing that, against the baked-in roots; when both fail the
    error is the one of the system's roots; the fallback counter grows,
    by one, exactly when only the baked-in roots verified. A connection
    without certificates makes the hook panic. *)
Theorem configVerifyConnection_accepts (cs : tlsdial.ConnectionState Certificate) :
  match tlsdial.PeerCertificates _ cs with
  | [] =>
      exists msg,
        tlsdial.configVerifyConnection Certificate Verify cs = Panic msg
  | leaf :: rest =>
      let opts roots :=
        {| tlsdial.DNSName := tlsdial.cs_ServerName _ cs;
           tlsdial.Intermediates := rest;
           tlsdial.Roots := roots;
           tlsdial.CurrentTime := None |} in
      let sys := Verify leaf (opts tlsdial.systemRoots) in
      let baked := Verify leaf (opts tlsdial.bakedInRoots) in
      exists err n,
        tlsdial.configVerifyConnection Certificate Verify cs = Done (err, n)
        /\ (err = None <-> sys = None \/ baked = None)
        /\ (err <> None -> err = sys)
        /\ (n = 1 <-> sys <> None /\ baked = None)
        /\ (n = 0 \/ n = 1)
  end.
Proof.
  unfold tlsdial.configVerifyConnection.
  destruct (tlsdial.PeerCertificates _ cs) as [|leaf rest]; [eauto|].
  cbv zeta.
  destruct (Verify leaf {| tlsdial.Roots := tlsdial.systemRoots |})
    as [errSys|] eqn:Hsys.
  - destruct (Verify leaf {| tlsdial.Roots := tlsdial.bakedInRoots |})
      as [errBaked|] eqn:Hbaked.
    + exists (Some errSys), 0. split; [reflexivity|]. split; [|split; [|split]].
      * split; [discriminate | intros [[=]|[=]]].
      * reflexivity.
      * split; [discriminate | intros (_ & [=])].
      * now left.
    + exists None, 1. split; [reflexivity|]. split; [|split; [|split]].
      * split; auto.
      * contradiction.
      * split; [split; [discriminate | reflexivity] | reflexivity].
      * now right.
  - exists None, 0. split; [reflexivity|]. split; [|split; [|split]].
    + split; auto.
    + contradiction.
    + split; [discriminate | intros (Hno & _); contradiction].
    + now left.
Qed.

(** X30. [SetConfigExpectedCert] leaves a configuration whose server
    name is the expected one as it is. For another, non-empty server name
    and no [VerifyPeerCertificate] hook it keeps the server name, skips
    the library's verification, removes the [VerifyConnection] hook and
    installs a hook that refuses an empty list of certificates, returns
    the first parsing error, and otherwise accepts exactly when the first
    certificate verifies for the expected name against the system's or
    the baked-in roots; a second call on the result panics. *)
Theorem SetConfigExpectedCert_result (c : tlsdial.Config_ Certificate)
    (certDNSName : string) :
  (tlsdial.ServerName _ c = certDNSName ->
   tlsdial.SetConfigExpectedCert Certificate Verify ParseCertificate c certDNSName
   = Done c)
  /\ (tlsdial.ServerName _ c <> certDNSName ->
      tlsdial.ServerName _ c <> EmptyString ->
      tlsdial.VerifyPeerCertificate _ c = None ->
      exists c' hook,
        tlsdial.SetConfigExpectedCert Certificate Verify ParseCertificate
          c certDNSName = Done c'
        /\ tlsdial.ServerName _ c' = tlsdial.ServerName _ c
        /\ tlsdial.InsecureSkipVerify _ c' = true
        /\ tlsdial.VerifyConnection _ c' = None
        /\ tlsdial.VerifyPeerCertificate _ c' = Some hook
        /\ (forall now, hook now [] <> None)
        /\ (forall now rawCerts e,
              tlsdial.parseCertificates Certificate ParseCertificate rawCerts
              = Err e ->
              hook now rawCerts = Some e)
        /\ (forall now rawCerts leaf rest,
              tlsdial.parseCertificates Certificate ParseCertificate rawCerts
              = Ok (leaf :: rest) ->
              let opts roots :=
                {| tlsdial.DNSName := certDNSName;
                   tlsdial.Intermediates := rest;
                   tlsdial.Roots := roots;
                   tlsdial.CurrentTime := Some now |} in
              hook now rawCerts = None <->
              Verify leaf (opts tlsdial.systemRoots) = None
              \/ Verify leaf (opts tlsdial.bakedInRoots) = None)
        /\ exists msg,
             tlsdial.SetConfigExpectedCert Certificate Verify ParseCertificate
               c' certDNSName = Panic msg).
Proof.
  unfold tlsdial.SetConfigExpectedCert. split.
  - intros ->. now rewrite String.eqb_refl.
  - intros Hname%String.eqb_neq Hempty%String.eqb_neq Hhook.
    rewrite Hname, Hempty, Hhook. eexists _, _. split; [reflexivity|].
    cbn. rewrite Hname, Hempty.
    split; [reflexivity|]. split; [reflexivity|]. split; [reflexivity|].
    split; [reflexivity|]. split; [discriminate|].
    split; [|split; [|eauto]].
    + intros now rawCerts e Hparse. unfold tlsdial.expectedCertVerify.
      rewrite Hparse. now destruct rawCerts.
    + intros now rawCerts leaf rest Hparse. cbv zeta.
      unfold tlsdial.expectedCertVerify. rewrite Hparse.
      destruct rawCerts as [|raw raws]; [discriminate|].
      destruct (Verify leaf {| tlsdial.Roots := tlsdial.systemRoots |})
        as [errSys|]; [|split; auto].
      destruct (Verify leaf {| tlsdial.Roots := tlsdial.bakedInRoots |})
        as [errBaked|]; [|split; auto].
      split; [discriminate | intros [[=]|[=]]].
Qed.

End TlsdialProperties.

(** ** The definitions on the test data *)

Section Examples.
Import testdata.
#[local] Existing Instance externals.

Example ReplaceLF_welcome :
  strings.ReplaceLF (Message welcome) = ("welcome" ++ strings.CRLF)%string.
Proof. reflexivity. Qed.

Example Cut_authorized_key :
  strings.Cut "ssh-ed25519 QUJD alice@laptop" strings.SP
  = ("ssh-ed25519", "QUJD alice@laptop", true).
Proof. reflexivity. Qed.

Example evalSSHPolicy_policy :
  evalSSHPolicy policy (ci None) = Some (accept, "alice").
Proof. reflexivity. Qed.

Example resolveTerminalAction_holdStart :
  resolveTerminalAction controlPlane 3 0 holdStart
  = ([WriteStderr "visit"; WriteStderr ("welcome" ++ strings.CRLF)%string],
     Some (Ok welcome)).
Proof. reflexivity. Qed.

(** "ls" written after [Close] does not reach the buffer below. *)
Example loggingWriter_Write_ls_dropped :
  loggingWriter_Write marshalCast closedRecording
    (recording_writer "o" {| bufferData := EmptyString |}) 5 "ls"
  = (closedRecording,
     recording_writer "o" {| bufferData := EmptyString |},
     (0, None)).
Proof. reflexivity. Qed.

(** The rules before the accepting one do not match, and the policy
    without them evaluates alike. *)
Lemma evalSSHPolicy_first_match_witness :
  evalSSHPolicy {| Rules := [Some (rule [Some anyone] accept)] |} (ci None)
  = evalSSHPolicy policy (ci None).
Proof.
  apply (proj2 (proj2 (evalSSHPolicy_first_match policy (ci None)))
           [None; Some expiredRule; Some (rule [Some bob] reject)]
           [Some (rule [Some anyone] accept)]).
  - reflexivity.
  - repeat constructor.
Defined.

Lemma principalMatchesPubKey_iff_witness :
  principalMatchesPubKey anyoneWithKeyURL (ci (Some aliceKey)) = true <->
  PubKeys anyoneWithKeyURL = []
  \/ exists key keyLines,
       pubKey (ci (Some aliceKey)) = Some key
       /\ spec_resolvedKeys anyoneWithKeyURL (ci (Some aliceKey)) keyLines
       /\ exists line, In line keyLines /\ spec_keyLineMatches key line.
Proof.
  apply (principalMatchesPubKey_iff anyoneWithKeyURL (ci (Some aliceKey))).
  intros key [= <-]. discriminate.
Defined.

(** The first rule lists a key for every caller, yet without a key the
    second rule accepts, and no key is required. *)
Lemma requiresPubKey_false_witness :
  anyRuleWantsPubKey (Rules keyThenOpenPolicy) (ci None) "alice" = Some true
  /\ requiresPubKey (srv keyThenOpenPolicy) "alice"
       (addr "100.64.0.1") (addr "100.64.0.2") = Some false.
Proof.
  split; [reflexivity|].
  apply (requiresPubKey_false_when_none_accepted (srv keyThenOpenPolicy)
           "alice" (addr "100.64.0.1") (addr "100.64.0.2")
           (Some (ci None)) accept "alice"); reflexivity.
Defined.

Lemma resolveTerminalAction_terminal_witness :
  (Accept welcome = true \/ Reject welcome = true)
  /\ snd (resolveTerminalAction controlPlane 1 0 blank) = Some (Err errLackedAll)
  /\ exists out r,
       resolveTerminalAction controlPlane 3 0 holdStart = (out, Some r).
Proof.
  destruct (resolveTerminalAction_terminal controlPlane) as (Hret & Hlack & Hend).
  split; [|split].
  - apply (Hret 3%nat 0%nat holdStart
             [WriteStderr "visit"; WriteStderr ("welcome" ++ strings.CRLF)%string]
             welcome).
    reflexivity.
  - apply (Hlack 0%nat 0%nat blank); reflexivity.
  - apply (Hend 1%nat 0%nat holdStart). intros url. reflexivity.
Defined.

Lemma checkStillValid_revokes_witness :
  let ss1 := snd (checkStillValid (srv rejectAll) session1) in
  let '(evs, ss2) := killProcessOnContextDone ss1 in
  ctx_err (ctx ss1) = Some (userVisibleError accessRevoked context_Canceled)
  /\ evs = [WriteStderr (strings.CRLF ++ strings.CRLF ++ "Access revoked."
                         ++ String strings.LF EmptyString
                         ++ strings.CRLF ++ strings.CRLF)%string;
            Logf "terminating SSH session from %v: %v";
            Kill]
  /\ exitOnce ss2 = true.
Proof.
  apply (checkStillValid_revokes (srv rejectAll) session1); reflexivity.
Defined.

(** Where a session is revoked, the bytes on the client's stderr are not
    CR LF CR LF, "Access revoked.", CR LF CR LF: the message ends in a
    line feed of its own, which follows the full stop. *)
Lemma access_revoked_bytes_differ :
  stillValid (srv rejectAll) session1 = false
  /\ ctx_err (ctx session1) = None /\ exitOnce session1 = false
  /\ stderrOf (fst (killProcessOnContextDone
                      (snd (checkStillValid (srv rejectAll) session1))))
     <> (strings.CRLF ++ strings.CRLF ++ "Access revoked."
         ++ strings.CRLF ++ strings.CRLF)%string.
Proof.
  repeat split. discriminate.
Qed.


(** What the two evaluations ask of the key endpoint: one request for
    each of the two URLs, and none. *)
Example evalSSHPolicy_prefix_removal_requests :
  let fetch := Some fetchPublicKeysURL_srv in
  let bobRule := Some (rule [Some anyoneWithBobURL] accept) in
  let aliceRule := Some (rule [Some anyoneWithKeyURL] accept) in
  requests (fst (evalSSHPolicy_st fetch {| Rules := [bobRule; aliceRule] |}
                   (ci (Some aliceKey)) keyServerFull))
  = [{| req_url := aliceKeysURL; req_IfNoneMatch := EmptyString |};
     {| req_url := "https://keys.example/bob.keys";
        req_IfNoneMatch := EmptyString |}]
  /\ requests (fst (evalSSHPolicy_st fetch {| Rules := [aliceRule] |}
                      (ci (Some aliceKey)) keyServerFull)) = [].
Proof. vm_compute. repeat split. Qed.


(** C1, where the code departs from it. Alice's session has come from her
    laptop, 100.64.0.2, for this node, 100.64.0.1, which belongs to admin;
    [handleSSH] accepted it under a policy that accepts alice. The policy
    is replaced by one that accepts only admin: evaluated for the session's
    connection, or on the stored conn info itself, it denies access, so
    the revalidation of the claim turns the session down;
    [checkStillValid] passes the conn info's [src] as the local and its
    [dst] as the remote address, finds admin behind [dst], and keeps the
    session: nothing is written to the client and the child is not
    killed. Under the unchanged policy, which still accepts alice, it
    finds admin as well and revokes the session. *)
Theorem checkStillValid_evaluates_destination :
  let ci := connInfo session1 in
  (* the connection under the first policy, as [handleSSH] evaluates it *)
  snd (evaluatePolicy (meshSrv aliceOnlyPolicy) (sshUser ci) (dst ci) (src ci)
         (pubKey ci)) = Ok (accept, Username (localUser session1))
  (* the new policy *)
  /\ snd (evaluatePolicy (meshSrv adminOnlyPolicy) (sshUser ci) (dst ci) (src ci)
            (pubKey ci)) = Err (errorString "ssh: access denied")
  /\ evalSSHPolicy adminOnlyPolicy ci = None
  /\ spec_revalidationFails (meshSrv adminOnlyPolicy) session1 = true
  /\ checkStillValid (meshSrv adminOnlyPolicy) session1 = ([], session1)
  /\ killProcessOnContextDone
       (snd (checkStillValid (meshSrv adminOnlyPolicy) session1))
     = ([], session1)
  (* the unchanged policy *)
  /\ evalSSHPolicy aliceOnlyPolicy ci
     = Some (accept, Username (localUser session1))
  /\ spec_revalidationFails (meshSrv aliceOnlyPolicy) session1 = false
  /\ fst (killProcessOnContextDone
            (snd (checkStillValid (meshSrv aliceOnlyPolicy) session1)))
     = [WriteStderr (strings.CRLF ++ strings.CRLF ++ "Access revoked."
                     ++ String strings.LF EmptyString
                     ++ strings.CRLF ++ strings.CRLF)%string;
        Logf "terminating SSH session from %v: %v";
        Kill].
Proof. cbv zeta. repeat split. Qed.

(** A child that exits with status 3 under a root server. *)
Lemma run_publishes_exit_code_witness :
  exists srv' ss' evs,
    run asRoot emptyRegistry session1 = Done (srv', ss', evs)
    /\ reachesWait asRoot session1 = true
    /\ exitCodes evs = [3].
Proof.
  eexists _, _, _. split; [reflexivity|]. split; [reflexivity|].
  exact (run_publishes_exit_code asRoot emptyRegistry _ session1 _ _
           eq_refl eq_refl).
Defined.

Lemma registry_both_or_neither_witness :
  (exists msg, startSession registered1 session1 = Panic msg)
  /\ (inByH registered1 session1 <-> inBySharedID registered1 session1).
Proof.
  destruct registry_both_or_neither as (Hpanic & _ & Hboth & _).
  split.
  - apply Hpanic. right. right. left. now exists session1.
  - apply Hboth.
    apply (reachable_start emptyRegistry session1);
      [apply reachable_empty | reflexivity].
Defined.

Lemma fetchPublicKeysURLCached_cleans_all_witness :
  let srv := keyServerWith 51 in
  let t := timeNow_at srv (nowCalls srv) in
  let tooOld := time.Add t (pubKeyCacheDuration * 10) in
  let srv' := fst (fetchPublicKeysURLCached srv aliceKeysURL) in
  t < tooOld
  /\ (forall k e,
        fetchPublicKeysCache srv' !! k = Some e <->
        fetchPublicKeysCache srv !! k = Some e /\ ~ at_ e < tooOld)
  /\ ((forall k e, fetchPublicKeysCache srv !! k = Some e -> at_ e <= t) ->
      fetchPublicKeysCache srv' = ∅
      /\ snd (fetchPublicKeysURLCached srv aliceKeysURL) = (zeroEntry, false)).
Proof.
  apply (fetchPublicKeysURLCached_cleans_all (keyServerWith 51) aliceKeysURL).
  vm_compute. reflexivity.
Defined.

(** C6, where the code departs from it. With 50 entries for other URLs
    in the cache, the fetch of a URL that answers 500 returns an error and
    stores an entry without lines at the clock's reading; the next fetch
    of that URL, at the same instant, finds 51 entries, cleans the cache
    and sends a second request. *)
Theorem fetchPublicKeysURL_error_not_rate_limited :
  let '(srv1, r1) := fetchPublicKeysURL_srv (keyServerWith 50) aliceKeysURL in
  let '(srv2, r2) := fetchPublicKeysURL_srv srv1 aliceKeysURL in
  r1 = ([], Some (errorString "unexpected status 500 Internal Server Error"))
  /\ fetchPublicKeysCache srv1 !! aliceKeysURL
     = Some {| lines := []; etag := EmptyString; at_ := 100 * time.Second |}
  /\ size (fetchPublicKeysCache srv1) = 51%nat
  /\ timeNow_at srv1 (nowCalls srv1) = 100 * time.Second
  /\ requests srv1 = [{| req_url := aliceKeysURL; req_IfNoneMatch := EmptyString |}]
  /\ requests srv2 = [{| req_url := aliceKeysURL; req_IfNoneMatch := EmptyString |};
                      {| req_url := aliceKeysURL; req_IfNoneMatch := EmptyString |}]
  /\ r2 = ([], Some (errorString "unexpected status 500 Internal Server Error")).
Proof. vm_compute. repeat split. Qed.

(** With 49 entries before, the same two fetches send one request: the
    second is answered from the cache, with no lines and no error. *)
Example fetchPublicKeysURL_error_rate_limited_below_50 :
  let '(srv1, r1) := fetchPublicKeysURL_srv (keyServerWith 49) aliceKeysURL in
  let '(srv2, r2) := fetchPublicKeysURL_srv srv1 aliceKeysURL in
  requests srv2 = [{| req_url := aliceKeysURL; req_IfNoneMatch := EmptyString |}]
  /\ r2 = ([], None).
Proof. vm_compute. repeat split. Qed.

(** The extras on the test data. *)

Lemma evalSSHPolicy_sound_witness :
  exists rule,
    In (Some rule) (Rules policy) /\ Action rule = Some accept
    /\ match RuleExpires rule with
       | Some t => now (ci None) <= t
       | None => True
       end
    /\ (Reject accept = false ->
        "alice"%string <> EmptyString
        /\ "alice"%string = mapLocalUser (SSHUsers rule) (sshUser (ci None)))
    /\ exists p, In (Some p) (Principals rule)
                 /\ principalMatches p (ci None) = true.
Proof.
  apply (evalSSHPolicy_sound policy (ci None) accept "alice"). reflexivity.
Defined.

Lemma pubKeyMatchesAuthorizedKey_comment_witness :
  pubKeyMatchesAuthorizedKey aliceKey "ssh-ed25519 QUJD alice@laptop"
  = pubKeyMatchesAuthorizedKey aliceKey "ssh-ed25519 QUJD".
Proof.
  exact (pubKeyMatchesAuthorizedKey_comment aliceKey "ssh-ed25519" "QUJD"
           "alice@laptop" eq_refl eq_refl).
Defined.

Lemma evaluatePolicy_non_mesh_address_witness :
  (exists e, evaluatePolicy (srv policy) "alice" (addr "100.64.0.1")
               outsideAddr (Some aliceKey) = (None, Err e))
  /\ acceptPubKey (srv policy) "alice" (addr "100.64.0.1") outsideAddr
       (Some aliceKey) = false
  /\ requiresPubKey (srv policy) "alice" (addr "100.64.0.1") outsideAddr
     = Some false.
Proof.
  apply (evaluatePolicy_non_mesh_address (srv policy) "alice"
           (addr "100.64.0.1") outsideAddr (Some aliceKey)).
  left. reflexivity.
Defined.

Lemma requiresPubKey_true_iff_witness :
  requiresPubKey (srv keyOnlyPolicy) "alice" (addr "100.64.0.1")
    (addr "100.64.0.2") = Some true <->
  acceptPubKey (srv keyOnlyPolicy) "alice" (addr "100.64.0.1")
    (addr "100.64.0.2") None = false
  /\ exists ci,
       fst (evaluatePolicy (srv keyOnlyPolicy) "alice" (addr "100.64.0.1")
              (addr "100.64.0.2") None) = Some ci
       /\ exists rule, In (Some rule) (Rules keyOnlyPolicy)
                       /\ ruleWantsPubKey ci "alice" rule.
Proof.
  apply (requiresPubKey_true_iff (srv keyOnlyPolicy) keyOnlyPolicy "alice"
           (addr "100.64.0.1") (addr "100.64.0.2")).
  - reflexivity.
  - repeat constructor. discriminate.
Defined.

Lemma requiresPubKey_nil_rule_witness :
  requiresPubKey (srv nilRulePolicy) "alice" (addr "100.64.0.1")
    (addr "100.64.0.2") = None
  /\ matchRule None (ci None) = Err errNilRule.
Proof.
  apply (requiresPubKey_nil_rule (srv nilRulePolicy) nilRulePolicy "alice"
           (addr "100.64.0.1") (addr "100.64.0.2") (ci None) [] []).
  - reflexivity.
  - reflexivity.
  - constructor.
  - intros rule [].
  - reflexivity.
  - reflexivity.
Defined.

Lemma run_restores_registry_witness :
  exists reg' ss' evs,
    run asRoot registered1 agentSession = Done (reg', ss', evs)
    /\ reg' = registered1
    /\ exists code, exitCodes evs = [code]
                    /\ (reachesWait asRoot agentSession = false -> code = 1).
Proof.
  eexists _, _, _. split; [reflexivity|].
  exact (run_restores_registry asRoot registered1 _ agentSession _ _ eq_refl).
Defined.

(** A second connection with the session ID of a registered session. *)
Lemma handleSSH_panics_witness :
  (exists e, @Ok string "0a0b0" = Err e)
  \/ s_Context request1 = None
  \/ exists ss b,
       s_Context request1 = Some (idH ss) /\ Ok "0a0b0"%string = Ok b
       /\ sharedID ss = sharedIDOf (now (connInfo ss)) b
       /\ startSession registered1 ss = Panic "dup idH".
Proof.
  apply (handleSSH_panics_only_in_session_setup lookupAlice controlPlane
           (Ok "0a0b0"%string) sharedIDOf (srv policy) registered1 asRoot
           1 request1 "dup idH").
  reflexivity.
Defined.

(** The two panics of [newSSHSession]. *)
Example handleSSH_rand_Read_fails :
  handleSSH lookupAlice controlPlane (Err (errorString "unexpected EOF"))
    sharedIDOf (srv policy) emptyRegistry asRoot 1 request1
  = Some (Panic "rand.Read").
Proof. reflexivity. Qed.

Example handleSSH_other_context :
  handleSSH lookupAlice controlPlane (Ok "0a0b0"%string) sharedIDOf
    (srv policy) emptyRegistry asRoot 1 requestOtherContext
  = Some (Panic "interface conversion").
Proof. reflexivity. Qed.

Lemma handleSSH_one_exit_status_witness :
  exists reg' evs ran,
    handleSSH lookupAlice controlPlane (Ok "0a0b0"%string) sharedIDOf
      (srv policy) emptyRegistry asRoot 1 request1
    = Some (Done (reg', evs, ran))
    /\ reg' = emptyRegistry
    /\ (exists code, exitCodes evs = [code] /\ (ran = None -> code = 1))
    /\ (forall ss', ran = Some ss' ->
          exists a, action ss' = Some a /\ Accept a = true /\ Reject a = false).
Proof.
  eexists _, _, _. split; [reflexivity|].
  exact (handleSSH_one_exit_status lookupAlice controlPlane
           (Ok "0a0b0"%string) sharedIDOf (srv policy)
           emptyRegistry _ asRoot 1 request1 _ _ eq_refl).
Defined.

Example handleSSH_exit_3 :
  exitCodes
    (match handleSSH lookupAlice controlPlane (Ok "0a0b0"%string) sharedIDOf
             (srv policy) emptyRegistry asRoot 1 request1 with
     | Some (Done (_, evs, _)) => evs
     | _ => []
     end) = [3].
Proof. reflexivity. Qed.

Lemma handleSSHAgentForwarding_assigned_witness :
  exists evs ln err,
    handleSSHAgentForwarding dirOf agentOK agentSession alice
    = Done (evs, ln, err)
    /\ ln = Some agentSocket
    /\ evs = [AgentListen agentSocket; Chown agentSocket 1000 1000;
              Chmod "/tmp/auth-agent123" 493; ForwardAgentConnections]
    /\ (ln = None -> ~ In ForwardAgentConnections evs).
Proof.
  eexists _, _, _. split; [reflexivity|].
  split; [reflexivity|]. split; [reflexivity|].
  exact (proj1 (proj2 (handleSSHAgentForwarding_assigned dirOf agentOK
                         agentSession alice _ _ _ eq_refl))).
Defined.

Lemma handleSSHAgentForwarding_failed_listener_witness :
  @None string = None
  /\ (In ListenerClose [AgentListen agentSocket; Chown agentSocket 1000 1000]
      <-> ~ (exists uid gid, ParseUint32 (Uid alice) = Ok uid
                             /\ ParseUint32 (Gid alice) = Ok gid)).
Proof.
  exact (handleSSHAgentForwarding_failed_listener dirOf agentChownFails
           agentSession alice _ None
           (errorString "chown: operation not permitted") agentSocket
           eq_refl (or_introl eq_refl)).
Defined.

Lemma fetchPublicKeysURL_not_modified_witness :
  let '(srv2, r) :=
    fetchPublicKeysURL_srv (keyServerStale (Ok status304)) aliceKeysURL in
  r = (lines staleEntry, None)
  /\ fetchPublicKeysCache srv2 !! aliceKeysURL
     = Some {| lines := lines staleEntry; etag := etag staleEntry;
               at_ := 100 * time.Second |}.
Proof.
  pose proof (fetchPublicKeysURL_not_modified (keyServerStale (Ok status304))
                aliceKeysURL status304) as Hcall.
  vm_compute in Hcall. vm_compute. apply Hcall; reflexivity.
Defined.

Lemma fetchPublicKeysURL_ok_witness :
  let '(srv2, (keyLines, err)) :=
    fetchPublicKeysURL_srv (keyServerStale (Ok status200)) aliceKeysURL in
  exists text,
    String.prefix text (Body status200) = true /\ strings.len text <= 4096
    /\ (4096 <= strings.len (Body status200) ->
        strings.len text = 4096 /\ err = None)
    /\ keyLines = (if String.eqb (TrimSpace text) EmptyString then []
                   else strings.Split (TrimSpace text) strings.LF)
    /\ fetchPublicKeysCache srv2 !! aliceKeysURL
       = Some {| lines := keyLines; etag := Header_Etag status200;
                 at_ := 100 * time.Second |}.
Proof.
  pose proof (fetchPublicKeysURL_ok (keyServerStale (Ok status200))
                aliceKeysURL status200) as Hcall.
  vm_compute in Hcall. vm_compute. apply Hcall; reflexivity.
Defined.

Example fetchPublicKeysURL_ok_lines :
  snd (fetchPublicKeysURL_srv (keyServerStale (Ok status200)) aliceKeysURL)
  = (["ssh-rsa QUJE root@laptop"; "ssh-ed25519 QUJD alice@laptop"], None).
Proof. reflexivity. Qed.

Lemma fetchPublicKeysURL_transport_error_witness :
  let '(srv2, r) :=
    fetchPublicKeysURL_srv
      (keyServerStale (Err (errorString "dial tcp: timeout"))) aliceKeysURL in
  r = ([], Some (errorString "dial tcp: timeout"))
  /\ fetchPublicKeysCache srv2 = {[ aliceKeysURL := staleEntry ]}
  /\ (Z.of_nat (size (fetchPublicKeysCache
                        (keyServerStale (Err (errorString "dial tcp: timeout")))))
      <= 50 ->
      fetchPublicKeysCache srv2 = {[ aliceKeysURL := staleEntry ]}).
Proof.
  pose proof (fetchPublicKeysURL_transport_error
                (keyServerStale (Err (errorString "dial tcp: timeout")))
                aliceKeysURL (errorString "dial tcp: timeout")) as Hcall.
  vm_compute in Hcall. vm_compute. apply Hcall; reflexivity.
Defined.

Lemma fetchPublicKeysURL_other_entries_witness :
  let srv' := fst (fetchPublicKeysURL_srv (keyServerWith 50) aliceKeysURL) in
  (forall e, fetchPublicKeysCache srv' !! "https://keys.example/user7"%string
             = Some e ->
             fetchPublicKeysCache (keyServerWith 50)
               !! "https://keys.example/user7"%string = Some e)
  /\ (Z.of_nat (size (fetchPublicKeysCache (keyServerWith 50))) <= 50 ->
      fetchPublicKeysCache srv' !! "https://keys.example/user7"%string
      = fetchPublicKeysCache (keyServerWith 50)
          !! "https://keys.example/user7"%string).
Proof.
  apply (fetchPublicKeysURL_other_entries (keyServerWith 50) aliceKeysURL
           "https://keys.example/user7").
  vm_compute. discriminate.
Defined.

Lemma fetchPublicKeysURL_returns_cached_witness :
  exists srv' e,
    fetchPublicKeysURL_srv (keyServerStale (Ok status304)) aliceKeysURL
    = (srv', (lines staleEntry, None))
    /\ fetchPublicKeysCache srv' !! aliceKeysURL = Some e
    /\ lines e = lines staleEntry.
Proof.
  destruct (fetchPublicKeysURL_srv (keyServerStale (Ok status304))
              aliceKeysURL) as [srv' r] eqn:Hcall.
  assert (r = (lines staleEntry, None)) as ->.
  { apply (f_equal snd) in Hcall. vm_compute in Hcall. now subst r. }
  destruct (fetchPublicKeysURL_returns_cached _ _ _ _ Hcall)
    as (e & He & Hlines).
  exists srv', e. auto.
Defined.

Example fetchPublicKeysURL_cached_fresh :
  fetchPublicKeysURL_srv keyServerFresh aliceKeysURL
  = (snd (srv_now keyServerFresh),
     (lines (freshEntry (90 * time.Second)), None)).
Proof.
  apply (fetchPublicKeysURL_cached keyServerFresh aliceKeysURL
           (freshEntry (90 * time.Second))).
  - reflexivity.
  - vm_compute. discriminate.
  - vm_compute. reflexivity.
  - vm_compute. reflexivity.
Defined.

End Examples.
